(** * Annotation stage of the EGG:V variant pipeline (src/annotate.py)

    The annotation stage is a short sequence of dataframe operations
    (merge, rename, drop_duplicates, boolean-mask selection, column
    projection, groupby-count, concat, fillna, astype) followed by two
    orchestration drivers.  The development is laid out as follows:

    - [Engine]: the dataframe operations the stage calls, over frames with
      named columns, labelled rows and nullable cells.  A frame is one
      in-memory table; partitioning and scheduling are not represented.
      Where the engine's answer for a table held in several pieces differs
      from its answer for the table in one piece (the order of a join and
      the row labels), the statements are made for every order and
      labelling of the rows, by position and not by label.
    - [Schema]: the variant, gene and annotated tables as typed rows; the
      typed gene table is one whose transcript identifiers are present and
      text.
    - [Task], [Cluster]: the calls submitted to the workers and the state a
      driver acts on.
    - [Annotate]: the functions of annotate.py, written call for call
      against [Engine] and [Cluster].
    - [Rows], [Runs]: what the functions compute, said on typed rows and on
      the record of a run.
    - the facts proved about them, and the statements about the stage. *)

From Stdlib Require Import ZArith String Ascii List.
From stdpp Require Import base decidable option list sorting gmap strings.

Local Open Scope string_scope.
Local Open Scope list_scope.

#[local] Set Warnings "-clear-no-such-hyp".

(** ** Cells, errors *)

(** A cell of a table: missing ([NaN], what the reader produces for an
    empty field), a whole number, or text.  Fractions (the allele
    frequencies) are carried as their text: no operation of the stage
    computes with them. *)
Inductive value : Type :=
| NaN
| Num (z : Z)
| Str (s : string).

#[global] Instance value_eq_dec : EqDecision value.
Proof. solve_decision. Defined.

(** The exceptions the modelled calls can raise. *)
Inductive error : Type :=
| KeyError (column : string)
| AttributeError (name : string)
| ValueError (message : string)
| FileNotFoundError (path : string).

Inductive result (A : Type) : Type :=
| Ok (a : A)
| Raise (e : error).
Arguments Ok {A} a.
Arguments Raise {A} e.

Definition bind {A B : Type} (m : result A) (k : A -> result B) : result B :=
  match m with
  | Ok a => k a
  | Raise e => Raise e
  end.

Declare Scope result_scope.
Delimit Scope result_scope with result.
Notation "'let!' x ':=' m 'in' k" := (bind m (fun x => k))
  (at level 20, x name, m at level 100, k at level 200) : result_scope.
Local Open Scope result_scope.

Module Engine.

(** ** Frames *)

(** A frame: the column names, and the rows in order, each row carrying
    its index label and one cell per column. *)
Record DataFrame : Type := mkFrame {
  columns : list string;
  rows : list (nat * list value)
}.

Definition labels (df : DataFrame) : list nat := map fst (rows df).

(** The cell of row [r] under column [c], by position of [c] in [cols]. *)
Fixpoint cell {A : Type} (cols : list string) (r : list A) (c : string) : option A :=
  match cols, r with
  | c' :: cols', v :: r' => if String.eqb c c' then Some v else cell cols' r' c
  | _, _ => None
  end.

Definition cell_or_nan (cols : list string) (r : list value) (c : string) : value :=
  default NaN (cell cols r c).

(** [RangeIndex]: positions 0, 1, 2, ... as labels. *)
Definition enumerate {A : Type} (l : list A) : list (nat * A) :=
  zip (seq 0 (length l)) l.

Definition cells_of (df : DataFrame) (c : string) : list value :=
  map (fun r => cell_or_nan (columns df) r c) (map snd (rows df)).

(** [df[c]]: the column as a sequence of cells, in row order. *)
Definition column (df : DataFrame) (c : string) : result (list value) :=
  if decide (c ∈ columns df) then Ok (cells_of df c) else Raise (KeyError c).

(** [df.c]: the same by attribute access, which fails with
    [AttributeError] when there is no such column. *)
Definition getattr (df : DataFrame) (c : string) : result (list value) :=
  if decide (c ∈ columns df) then Ok (cells_of df c) else Raise (AttributeError c).

(** First name of [wanted] that is not a column of the frame. *)
Definition missing (cols wanted : list string) : option string :=
  head (filter (fun c => c ∉ cols) wanted).

(** ** Boolean masks *)

(** [s == x] and [s != x] against a text constant; a missing cell is
    different from every constant. *)
Definition eq_const (s : list value) (x : string) : list bool :=
  map (fun v => bool_decide (v = Str x)) s.
Definition ne_const (s : list value) (x : string) : list bool :=
  map (fun v => negb (bool_decide (v = Str x))) s.

Definition isnull (s : list value) : list bool :=
  map (fun v => bool_decide (v = NaN)) s.
Definition notnull (s : list value) : list bool :=
  map (fun v => negb (bool_decide (v = NaN))) s.

(** [m1 & m2], cell by cell. *)
Definition mask_and (m1 m2 : list bool) : list bool := zip_with andb m1 m2.

Fixpoint select_rows {A : Type} (rs : list A) (mask : list bool) : list A :=
  match rs, mask with
  | r :: rs', b :: mask' =>
      if b then r :: select_rows rs' mask' else select_rows rs' mask'
  | _, _ => []
  end.

(** [df[mask]]: the rows whose mask entry is true; labels are kept. *)
Definition select (df : DataFrame) (mask : list bool) : DataFrame :=
  mkFrame (columns df) (select_rows (rows df) mask).

(** The positions of the elements that satisfy [P], in ascending order,
    and the rows that stand at given positions of a frame. *)
Definition positions_where {A : Type} (P : A -> Prop) `{!forall x, Decision (P x)}
    (l : list A) : list nat :=
  map fst (filter (fun ix => P ix.2) (enumerate l)).

Definition rows_at (df : DataFrame) (positions : list nat) : list (nat * list value) :=
  omap (fun p => rows df !! p) positions.

(** ** Projection *)

Definition project_row (cols : list string) (keep : list string) (r : list value)
  : list value :=
  map (cell_or_nan cols r) keep.

(** [df[[c1, ..., cn]]] and [df.loc[:, [c1, ..., cn]]]: the listed columns
    in the listed order, every row and label kept; [KeyError] when a
    listed column does not exist. *)
Definition getitem (df : DataFrame) (keep : list string) : result DataFrame :=
  match missing (columns df) keep with
  | Some c => Raise (KeyError c)
  | None =>
      Ok (mkFrame keep
            (map (fun r => (r.1, project_row (columns df) keep r.2)) (rows df)))
  end.

(** ** Merge *)

(** Names that occur on both sides get the side's suffix. *)
Definition with_suffix (mine other : list string) (suffix : string) : list string :=
  map (fun c => if decide (c ∈ other) then String.append c suffix else c) mine.

(** The cells of the right rows whose key cell equals [k]; missing keys
    match missing keys, as in the engine. *)
Definition matches (right : DataFrame) (right_on : string) (k : value)
  : list (list value) :=
  filter (fun r => cell_or_nan (columns right) r right_on = k) (map snd (rows right)).

(** The rows a left row contributes to a left outer join: one per
    matching right row, in the right table's order, or a single row padded
    with [NaN] when nothing matches. *)
Definition join_row (left right : DataFrame) (left_on right_on : string)
    (l : list value) : list (list value) :=
  match matches right right_on (cell_or_nan (columns left) l left_on) with
  | [] => [l ++ replicate (length (columns right)) NaN]
  | ms => map (fun r => l ++ r) ms
  end.

(** [left.merge(right, how='left', left_on=..., right_on=..., suffixes=...)]
    with two differently named key columns: both are kept; the right key
    is looked up first, then the left one.  The rows are those of the left
    outer join; they are listed here in the order of the left rows under a
    fresh range index, which is what the engine returns for tables held in
    one piece.  For tables held in several pieces the engine returns the same
    rows in another order and with labels that repeat, so the statements
    about the join below are about its rows, or are made for every order and
    labelling of them.  Keys are compared cell by cell, a number never equal
    to a text.  (The engine refuses to merge a text key column with a numeric
    one; that check is on the dtypes of the columns, which frames here do
    not carry: statements about whether the join returns are made for
    tables whose key columns are text on both sides.) *)
Definition merge_left (left right : DataFrame) (left_on right_on : string)
    (suffixes : string * string) : result DataFrame :=
  if decide (right_on ∈ columns right) then
    if decide (left_on ∈ columns left) then
      Ok (mkFrame
            (with_suffix (columns left) (columns right) suffixes.1
             ++ with_suffix (columns right) (columns left) suffixes.2)
            (enumerate
               (flat_map (join_row left right left_on right_on) (map snd (rows left)))))
    else Raise (KeyError left_on)
  else Raise (KeyError right_on).

(** ** Rename *)

Fixpoint assoc (mapping : list (string * string)) (c : string) : option string :=
  match mapping with
  | [] => None
  | (old, new) :: mapping' => if String.eqb c old then Some new else assoc mapping' c
  end.

(** [df.rename(columns=mapping)]: names absent from the frame are ignored. *)
Definition rename (df : DataFrame) (mapping : list (string * string)) : DataFrame :=
  mkFrame (map (fun c => default c (assoc mapping c)) (columns df)) (rows df).

(** ** Duplicates *)

(** [duplicated(keep='first')]: true for a key already met further up. *)
Fixpoint duplicated {K : Type} `{EqDecision K} (seen : list K) (keys : list K)
  : list bool :=
  match keys with
  | [] => []
  | k :: keys' =>
      if decide (k ∈ seen) then true :: duplicated seen keys'
      else false :: duplicated (k :: seen) keys'
  end.

(** The elements whose key [f] was not met before: what is left of [rs]
    after masking out the duplicated ones. *)
Definition keep_first {A K : Type} `{EqDecision K} (f : A -> K) (seen : list K)
    (rs : list A) : list A :=
  select_rows rs (map negb (duplicated seen (map f rs))).

Definition keys_of (df : DataFrame) (subset : list string) : list (list value) :=
  map (project_row (columns df) subset) (map snd (rows df)).

(** [df.drop_duplicates(subset=..., keep='first')]: rows are compared on
    the subset columns, missing cells equal to each other; the first row of
    every key stays, with its label. *)
Definition drop_duplicates (df : DataFrame) (subset : list string) : result DataFrame :=
  match missing (columns df) subset with
  | Some c => Raise (KeyError c)
  | None =>
      Ok (select df (map negb (duplicated [] (keys_of df subset))))
  end.

(** ** Reading a delimited file *)

(** A delimited text file as the tokenizer hands it to the reader: the
    fields of the header line and of every record, comment lines and the
    separator already gone. *)
Record tsv_file : Type := mkTsv {
  header : list string;
  records : list (list string)
}.

(** Every record has one field per column of the header.  (For other
    files the engine takes fields for row labels or refuses the file; what
    is said below about the cells of a file is said for these files.) *)
Definition rectangular (f : tsv_file) : Prop :=
  Forall (fun rec => length rec = length (header f)) (records f).

(** The [dtype=] a caller can force on a column. *)
Inductive dtype_spec : Type := object.

(** The field texts the reader takes for a missing value. *)
Definition na_values : list string :=
  [""; "#N/A"; "#N/A N/A"; "#NA"; "-1.#IND"; "-1.#QNAN"; "-NaN"; "-nan";
   "1.#IND"; "1.#QNAN"; "<NA>"; "N/A"; "NA"; "NULL"; "NaN"; "None"; "n/a";
   "nan"; "null"].

(** A field of an [object] column: its text as it stands. *)
Definition text_cell (f : string) : value :=
  if decide (f ∈ na_values) then NaN else Str f.

Definition digit (c : ascii) : option Z :=
  let n := Z.of_N (N_of_ascii c) in
  if decide (48 <= n <= 57)%Z then Some (n - 48)%Z else None.

Fixpoint digits (acc : Z) (s : string) : option Z :=
  match s with
  | EmptyString => Some acc
  | String c s' =>
      match digit c with
      | Some d => digits (10 * acc + d) s'
      | None => None
      end
  end.

(** A whole-number literal: an optional sign and at least one digit. *)
Definition int_literal (s : string) : option Z :=
  match s with
  | EmptyString => None
  | String "-" EmptyString | String "+" EmptyString => None
  | String "-" s' => Z.opp <$> digits 0 s'
  | String "+" s' => digits 0 s'
  | _ => digits 0 s
  end.

Definition int64_literal (s : string) : option Z :=
  match int_literal s with
  | Some z => if decide (- 2 ^ 63 <= z < 2 ^ 63)%Z then Some z else None
  | None => None
  end.

Definition number_cell (f : string) : option value :=
  if decide (f ∈ na_values) then Some NaN else Num <$> int64_literal f.

(** A column without forced dtype: when every field is a whole number or
    missing, the column is numeric and each field is replaced by its
    value; otherwise the fields stay text.  This is the engine's answer for
    columns of whole numbers of the 64-bit range without a missing field,
    and for columns with a field that is no number; what is said below
    about numeric cells is said for such columns.  (A numeric column with a
    missing field is held in floating point by the engine, larger whole
    numbers unsigned; columns of fractions are not told apart from text
    here: nothing in the stage computes with them.) *)
Definition infer_column (fields : list string) : list value :=
  match mapM number_cell fields with
  | Some cells => cells
  | None => map text_cell fields
  end.

Definition convert_column (dtype : option dtype_spec) (fields : list string)
  : list value :=
  match dtype with
  | Some object => map text_cell fields
  | None => infer_column fields
  end.

Fixpoint lookup_dtype (dtype : list (string * dtype_spec)) (c : string)
  : option dtype_spec :=
  match dtype with
  | [] => None
  | (c', t) :: dtype' => if String.eqb c c' then Some t else lookup_dtype dtype' c
  end.

(** The frame [read_csv] builds from a tokenized file: each column is
    converted as a whole, under its forced dtype if it has one; a record
    that is short of fields has the rest missing.  This is the engine's
    answer for [rectangular] files; the rows are listed under a range
    index, which the engine restarts in every block of a large file, so
    what is said below about the cells of a file is said by position, for
    rectangular files. *)
Definition parse (f : tsv_file) (dtype : list (string * dtype_spec)) : DataFrame :=
  let cols :=
    imap (fun j c => convert_column (lookup_dtype dtype c)
                       (map (fun rec => nth j rec "") (records f)))
      (header f) in
  mkFrame (header f)
    (enumerate (map (fun i => map (fun col => nth i col NaN) cols)
                  (seq 0 (length (records f))))).

(** [ddf.read_csv(fp, sep='\t', comment='#', dtype=...)] against the
    files at hand. *)
Definition read_csv (files : gmap string tsv_file) (fp : string)
    (dtype : list (string * dtype_spec)) : result DataFrame :=
  match files !! fp with
  | Some f => Ok (parse f dtype)
  | None => Raise (FileNotFoundError fp)
  end.

(** ** Group and count *)

(** Order of index labels: numbers by value, text by code point. *)
Definition value_leb (a b : value) : bool :=
  match a, b with
  | NaN, _ => true
  | Num _, NaN => false
  | Num x, Num y => Z.leb x y
  | Num _, Str _ => true
  | Str s, Str t => String.leb s t
  | Str _, _ => false
  end.

Definition value_le (a b : value) : Prop := value_leb a b = true.

#[global] Instance value_le_dec a b : Decision (value_le a b).
Proof. unfold value_le. apply _. Defined.

(** The distinct labels of [ks], sorted; missing labels are dropped, as
    [groupby] and the outer join of [concat] do. *)
Definition sorted_labels (ks : list value) : list value :=
  merge_sort value_le (remove_dups (filter (fun k => k ≠ NaN) ks)).

(** The frame [groupby(by_).count()] returns: one row per group label, one
    column per column other than [by_], each cell the number of non-missing
    cells of that column within the group. *)
Record Counts : Type := mkCounts {
  count_columns : list string;
  count_rows : list (value * list Z)
}.

Definition count_notnull (df : DataFrame) (by_ : string) (k : value) (c : string) : Z :=
  Z.of_nat (length (filter
    (fun r => cell_or_nan (columns df) r by_ = k ∧ cell_or_nan (columns df) r c ≠ NaN)
    (map snd (rows df)))).

Definition groupby_count (df : DataFrame) (by_ : string) : result Counts :=
  let! ks := column df by_ in
  let others := filter (fun c => c ≠ by_) (columns df) in
  Ok (mkCounts others
        (map (fun k => (k, map (count_notnull df by_ k) others)) (sorted_labels ks))).

(** A series of counts, indexed by group label. *)
Record Series : Type := mkSeries {
  name : string;
  items : list (value * Z)
}.

(** [counts.loc[:, c]] *)
Definition loc_column (cf : Counts) (c : string) : result Series :=
  if decide (c ∈ count_columns cf)
  then Ok (mkSeries c
             (map (fun r => (r.1, default 0%Z (cell (count_columns cf) r.2 c)))
                (count_rows cf)))
  else Raise (KeyError c).

(** ** Side-by-side concatenation of count series *)

Inductive dtype : Type := int64 | float64.

(** A numeric column: its dtype and its cells, [None] for a missing cell.
    Every number that occurs is a row count, so a [float64] column holds
    whole numbers, written as integers here. *)
Record NumColumn : Type := mkNumColumn {
  col_dtype : dtype;
  col_cells : list (option Z)
}.

(** A table of numeric columns indexed by label. *)
Record NumFrame : Type := mkNumFrame {
  num_columns : list string;
  index_name : option string;
  index : list value;
  data : list NumColumn
}.

Definition lookup_item (s : Series) (k : value) : option Z :=
  (fun p => p.2.2) <$> list_find (fun it => it.1 = k) (items s).

(** A series laid out on a new index: labels it lacks become missing
    cells, and a column with a missing cell can no longer be [int64]. *)
Definition reindex (idx : list value) (s : Series) : NumColumn :=
  let cs := map (lookup_item s) idx in
  mkNumColumn (if forallb (fun c => bool_decide (is_Some c)) cs then int64 else float64) cs.

(** [pd.concat(series, axis=1, sort=True)]: outer join on the index, the
    union of the labels in sorted order, one column per series. *)
Definition concat_columns (series : list Series) : NumFrame :=
  let idx := sorted_labels (flat_map (fun s => map fst (items s)) series) in
  mkNumFrame (map name series) None idx (map (reindex idx) series).

(** [.fillna(z)]: the dtype of a column is not changed by the fill. *)
Definition fillna (z : Z) (nf : NumFrame) : NumFrame :=
  mkNumFrame (num_columns nf) (index_name nf) (index nf)
    (map (fun col => mkNumColumn (col_dtype col)
                       (map (fun c => Some (default z c)) (col_cells col)))
       (data nf)).

(** [nf.columns = names] *)
Definition set_columns (nf : NumFrame) (names : list string) : result NumFrame :=
  if decide (length names = length (data nf))
  then Ok (mkNumFrame names (index_name nf) (index nf) (data nf))
  else Raise (ValueError "Length mismatch").

(** [nf.index.name = n] *)
Definition set_index_name (nf : NumFrame) (n : string) : NumFrame :=
  mkNumFrame (num_columns nf) (Some n) (index nf) (data nf).

(** [.astype(np.int64)]: refuses a column that still has a missing cell. *)
Definition astype_int64 (nf : NumFrame) : result NumFrame :=
  if forallb (fun col => forallb (fun c => bool_decide (is_Some c)) (col_cells col))
       (data nf)
  then Ok (mkNumFrame (num_columns nf) (index_name nf) (index nf)
             (map (fun col => mkNumColumn int64 (col_cells col)) (data nf)))
  else Raise (ValueError "Cannot convert non-finite values (NA or inf) to integer").

(** [nf.loc[k, c]]: the cell of column [c] in the row labelled [k];
    [None] when there is no such row or column, or the cell is missing. *)
Definition loc (nf : NumFrame) (k : value) (c : string) : option Z :=
  match cell (num_columns nf) (data nf) c, list_find (fun k' => k' = k) (index nf) with
  | Some col, Some (p, _) => mjoin (col_cells col !! p)
  | _, _ => None
  end.

End Engine.

(** ** The tables of the annotation stage *)

Module Schema.
Import Engine.

(** A processed variant row; the header is the one annotate.py records for
    the files written by the processing step.  The transcript identifier is
    text, or missing: [read_processed_variants] forces the column to
    [object]. *)
Record variant : Type := mkVariant {
  v_chromosome : value;
  v_rsid : value;
  v_start : value;
  v_end : value;
  v_observed : value;
  v_maf : value;
  v_effect : value;
  v_transcript_text : option string
}.

Definition v_transcript (v : variant) : value :=
  from_option Str NaN (v_transcript_text v).

Definition variant_header : list string :=
  ["chromosome"; "rsid"; "start"; "end"; "observed"; "maf"; "effect"; "transcript"].

Definition variant_row (v : variant) : list value :=
  [v_chromosome v; v_rsid v; v_start v; v_end v;
   v_observed v; v_maf v; v_effect v; v_transcript v].

Definition variant_frame (vs : list variant) : DataFrame :=
  mkFrame variant_header (enumerate (map variant_row vs)).

(** Modelled from the spec: the header of the processed gene table, which
    the processing step (not part of these sources) writes.  The gene
    record of the data model is transcript identifier, gene identifier,
    gene name, gene biotype, chromosome; the column names are the ones
    [annotate_variants] refers to.  The transcript identifier, the key of
    the table, is text and never missing: what is said on typed rows is
    said for such gene tables; frames with missing or numeric keys are
    covered by the statements made on frames. *)
Record gene : Type := mkGene {
  g_transcript_id_text : string;
  g_gene_id : value;
  g_gene_name : value;
  g_biotype : value;
  g_chromosome : value
}.

Definition g_transcript_id (g : gene) : value := Str (g_transcript_id_text g).

Definition gene_header : list string :=
  ["transcript_id"; "gene_id"; "gene_name"; "biotype"; "chromosome"].

Definition gene_row (g : gene) : list value :=
  [g_transcript_id g; g_gene_id g; g_gene_name g; g_biotype g; g_chromosome g].

Definition gene_frame (gs : list gene) : DataFrame :=
  mkFrame gene_header (enumerate (map gene_row gs)).

(** A row of the annotated table. *)
Record annotated : Type := mkAnnotated {
  a_chromosome : value;
  a_rsid : value;
  a_variant_effect : value;
  a_transcript : value;
  a_gene_id : value;
  a_gene_name : value;
  a_gene_biotype : value
}.

Definition annotated_header : list string :=
  ["chromosome"; "rsid"; "variant_effect"; "transcript";
   "gene_id"; "gene_name"; "gene_biotype"].

Definition annotated_row (a : annotated) : list value :=
  [a_chromosome a; a_rsid a; a_variant_effect a; a_transcript a;
   a_gene_id a; a_gene_name a; a_gene_biotype a].

(** An annotated table: rows with their index labels. *)
Definition annotated_frame (rs : list (nat * annotated)) : DataFrame :=
  mkFrame annotated_header (map (fun r => (r.1, annotated_row r.2)) rs).

End Schema.

(** ** The cluster client and the persistence collaborator *)

(** Modelled from the spec: the persistence collaborator (module dfio, not
    part of these sources), [save(table) -> future-of-filepath] and
    [consolidate(partition-futures, destination) -> future-of-filepath].
    The calls handed to [client.submit] are recorded as they are made; a
    future is the position of its call in that record. *)
Module Task.
Import Engine.

Definition Future : Type := nat.

Inductive t : Type :=
| save_distributed_dataframe (df : DataFrame)
| consolidate_separate_partitions (partitions : Future) (destination : string)
| collect_annotation_stats (df : DataFrame)
| write_annotation_stats (stats : Future) (output : string).

(** The calls that compute or write annotation statistics. *)
Definition is_stats (c : t) : bool :=
  match c with
  | collect_annotation_stats _ | write_annotation_stats _ _ => true
  | save_distributed_dataframe _ | consolidate_separate_partitions _ _ => false
  end.

End Task.

Module Cluster.
Import Engine.

(** What a driver acts on: the files it can read, the calls submitted to
    the workers so far, and the log. *)
Record world : Type := mkWorld {
  files : gmap string tsv_file;
  tasks : list Task.t;
  messages : list string
}.

(** A driver step changes the world and returns a value or raises; what
    it did before raising stays done. *)
Definition io (A : Type) : Type := world -> world * result A.

Definition ret {A : Type} (a : A) : io A := fun w => (w, Ok a).

Definition bind_io {A B : Type} (m : io A) (k : A -> io B) : io B :=
  fun w =>
    match m w with
    | (w', Ok a) => k a w'
    | (w', Raise e) => (w', Raise e)
    end.

Definition lift {A : Type} (r : result A) : io A := fun w => (w, r).

(** [client.submit(f, args...)] *)
Definition submit (c : Task.t) : io Task.Future :=
  fun w => (mkWorld (files w) (tasks w ++ [c]) (messages w), Ok (length (tasks w))).

(** [log._logger.info(msg)] *)
Definition info (msg : string) : io unit :=
  fun w => (mkWorld (files w) (tasks w) (messages w ++ [msg]), Ok tt).

(** [client.persist(df)] and [client.scatter(df, broadcast=True)] hand back
    the same table, placed on the workers. *)
Definition persist (df : DataFrame) : io DataFrame := ret df.
Definition scatter (df : DataFrame) : io DataFrame := ret df.

Definition read (fp : string) (dtype : list (string * dtype_spec)) : io DataFrame :=
  fun w => (w, read_csv (files w) fp dtype).

(** [str(Path(dir, name))], as [pathlib] builds a POSIX path from two
    segments: a segment that begins with a separator discards the one
    before it; the segments are cut at the separators, empty components and
    the component "." are dropped; the root is "//" when the path begins
    with exactly two separators and "/" when it begins with one or with
    more than two; a path without root and without component is ".". *)
Fixpoint split_sep (s : string) : list string :=
  match s with
  | EmptyString => [EmptyString]
  | String c s' =>
      if Ascii.eqb c "/" then EmptyString :: split_sep s'
      else match split_sep s' with
           | p :: ps => String c p :: ps
           | [] => [String c EmptyString]
           end
  end.

Definition path_parts (s : string) : list string :=
  filter (fun p => p ≠ EmptyString ∧ p ≠ ".") (split_sep s).

Definition path_root (s : string) : string :=
  match s with
  | String "/" (String "/" (String "/" _)) => "/"
  | String "/" (String "/" _) => "//"
  | String "/" _ => "/"
  | _ => EmptyString
  end.

Definition Path (dir name : string) : string :=
  let anchor := if decide (path_root name = EmptyString) then dir else name in
  let parts :=
    if decide (path_root name = EmptyString) then path_parts dir ++ path_parts name
    else path_parts name in
  match path_root anchor, parts with
  | EmptyString, [] => "."
  | root, _ => String.append root (String.concat "/" parts)
  end.

End Cluster.

Notation "'do!' x ':=' m 'in' k" := (Cluster.bind_io m (fun x => k))
  (at level 20, x name, m at level 100, k at level 200) : result_scope.

(** ** annotate.py *)

Module Annotate.
Import Engine Cluster.

(** [read_processed_variants(fp)] *)
Definition read_processed_variants (fp : string) : io DataFrame :=
  read fp [("transcript", object)].

(** [read_processed_genes(fp)] *)
Definition read_processed_genes (fp : string) : io DataFrame :=
  read fp [].

(** The literals of [annotate_variants]: the [columns=] dictionary of the
    rename, the [subset=] of the deduplication, the final column list. *)
Definition renamed_columns : list (string * string) :=
  [("effect", "variant_effect");
   ("biotype", "gene_biotype");
   ("chromosome_l", "chromosome")].

Definition duplicate_subset : list string := ["rsid"; "variant_effect"; "gene_id"].

Definition output_columns : list string :=
  ["chromosome"; "rsid"; "variant_effect"; "transcript";
   "gene_id"; "gene_name"; "gene_biotype"].

(** [annotate_variants(vdf, gdf)] *)
Definition annotate_variants (vdf gdf : DataFrame) : result DataFrame :=
  (* Merge variant and gene frames based on the Ensembl transcript ID. *)
  let! df := merge_left vdf gdf "transcript" "transcript_id" ("_l", "_r") in
  (* Rename some columns *)
  let df := rename df renamed_columns in
  (* Eliminate possible duplicates *)
  let! df := drop_duplicates df duplicate_subset in
  getitem df output_columns.

(** The statements of [annotate_variants] after the merge (the rename, the
    deduplication and the choice of columns), as a function of the merged
    frame, whatever the order and the labels of its rows. *)
Definition annotate_merged (merged : DataFrame) : result DataFrame :=
  let df := rename merged renamed_columns in
  let! df := drop_duplicates df duplicate_subset in
  getitem df output_columns.

(** [isolate_intergenic_variants(df)] *)
Definition isolate_intergenic_variants (df : DataFrame) : result DataFrame :=
  let keep := ["chromosome"; "rsid"; "variant_effect"] in
  let! variant_effect := getattr df "variant_effect" in
  getitem (select df (eq_const variant_effect "intergenic")) keep.

(** [isolate_annotated_variants(df)] *)
Definition isolate_annotated_variants (df : DataFrame) : result DataFrame :=
  let keep := ["chromosome"; "rsid"; "variant_effect";
               "gene_id"; "gene_name"; "gene_biotype"] in
  let! variant_effect := getattr df "variant_effect" in
  let! gene_id := getattr df "gene_id" in
  getitem (select df (mask_and (ne_const variant_effect "intergenic") (notnull gene_id)))
    keep.

(** The chain [df[mask].groupby('chromosome').count().loc[:, 'rsid'].compute()]
    that [collect_annotation_stats] evaluates once per category. *)
Definition count_by_chromosome (df : DataFrame) (mask : list bool) : result Series :=
  let! counts := groupby_count (select df mask) "chromosome" in
  loc_column counts "rsid".

(** The selection [df[is_not_intergenic & is_not_mapped]] that
    [collect_annotation_stats] counts as failed mappings: the rows that
    neither isolating function keeps. *)
Definition failed_mapping (df : DataFrame) : result DataFrame :=
  let! variant_effect := getattr df "variant_effect" in
  let! gene_id := getattr df "gene_id" in
  Ok (select df (mask_and (ne_const variant_effect "intergenic") (isnull gene_id))).

(** [collect_annotation_stats(df)] *)
Definition collect_annotation_stats (df : DataFrame) : result NumFrame :=
  (* Conditions *)
  let! variant_effect := getattr df "variant_effect" in
  let is_intergenic := eq_const variant_effect "intergenic" in
  let is_not_intergenic := ne_const variant_effect "intergenic" in
  let! gene_id := getattr df "gene_id" in
  let is_mapped := notnull gene_id in
  let is_not_mapped := isnull gene_id in
  (* Intragenic variants successfully mapped to genes *)
  let! intra_mapped := count_by_chromosome df (mask_and is_not_intergenic is_mapped) in
  (* Intragenic variants that failed to map to a gene *)
  let! intra_failed := count_by_chromosome df (mask_and is_not_intergenic is_not_mapped) in
  (* Intergenic variants *)
  let! intergenic := count_by_chromosome df is_intergenic in
  let stats := fillna 0 (concat_columns [intra_mapped; intra_failed; intergenic]) in
  (* Rename columns and the index *)
  let! stats := set_columns stats ["intra_mapped"; "intra_failed"; "intergenic"] in
  let stats := set_index_name stats "chromosome" in
  (* Convert any remaining floats to ints *)
  astype_int64 stats.

(** One turn of the loop of [run_hg38_annotations], up to the two
    [append]s. *)
Definition hg38_chromosome (variant_dir gene_fp annotated_dir intergenic_dir : string)
    (chrom : string) : io (Task.Future * Task.Future) :=
  do! _ := info (String.append "Starting chromosome " (String.append chrom " work")) in
  let variant_fp :=
    Path variant_dir (String.append "chromosome-" (String.append chrom ".tsv")) in
  let annotated_fp :=
    Path annotated_dir
      (String.append "annotated-chromosome-" (String.append chrom ".tsv")) in
  let intergenic_fp :=
    Path intergenic_dir
      (String.append "intergenic-chromosome-" (String.append chrom ".tsv")) in
  do! vdf := read_processed_variants variant_fp in
  do! gdf := read_processed_genes gene_fp in
  do! adf := lift (annotate_variants vdf gdf) in
  (* Persist and start computation for the annotated dataset *)
  do! adf := persist adf in
  do! ndf := lift (isolate_annotated_variants adf) in
  do! ndf := persist ndf in
  do! idf := lift (isolate_intergenic_variants adf) in
  do! idf := persist idf in
  (* Scatter the lazy frames to the workers *)
  do! sc_adf := scatter adf in
  do! sc_ndf := scatter ndf in
  do! sc_idf := scatter idf in
  (* Save the distributed dataframes to temp folders *)
  do! annotated_tmp := submit (Task.save_distributed_dataframe sc_ndf) in
  do! intergenic_tmp := submit (Task.save_distributed_dataframe sc_idf) in
  (* Consolidate distributed datasets *)
  do! annotated_fp :=
    submit (Task.consolidate_separate_partitions annotated_tmp annotated_fp) in
  do! intergenic_fp :=
    submit (Task.consolidate_separate_partitions intergenic_tmp intergenic_fp) in
  ret (annotated_fp, intergenic_fp).

(** The [for chrom in globe._var_human_chromosomes] loop, with the lists
    of futures built so far. *)
Fixpoint hg38_loop (variant_dir gene_fp annotated_dir intergenic_dir : string)
    (chromosomes : list string) (annotated intergenic : list Task.Future)
  : io (list Task.Future * list Task.Future) :=
  match chromosomes with
  | [] => ret (annotated, intergenic)
  | chrom :: rest =>
      do! fps := hg38_chromosome variant_dir gene_fp annotated_dir intergenic_dir chrom in
      let annotated := annotated ++ [fps.1] in
      let intergenic := intergenic ++ [fps.2] in
      if String.eqb chrom "3" then ret (annotated, intergenic)
      else hg38_loop variant_dir gene_fp annotated_dir intergenic_dir rest
             annotated intergenic
  end.

(** [run_hg38_annotations(client, variant_dir, gene_fp, annotated_dir,
    intergenic_dir, stats_fp)]; the chromosome list
    [globe._var_human_chromosomes], which these sources do not contain, is
    the first argument. *)
Definition run_hg38_annotations (var_human_chromosomes : list string)
    (variant_dir gene_fp annotated_dir intergenic_dir stats_fp : string)
  : io (gmap string (list Task.Future)) :=
  (* List of Futures for annotated, intergenic, and mapping stats data *)
  do! lists := hg38_loop variant_dir gene_fp annotated_dir intergenic_dir
                 var_human_chromosomes [] [] in
  ret (<["annotated" := lists.1]> (<["intergenic" := lists.2]> ∅)).

(** [run_mm10_annotations(client, variant_fp, gene_fp, annotated_fp,
    intergenic_fp, stats_fp)] *)
Definition run_mm10_annotations
    (variant_fp gene_fp annotated_fp intergenic_fp stats_fp : string)
  : io (gmap string Task.Future) :=
  do! vdf := read_processed_variants variant_fp in
  do! gdf := read_processed_genes gene_fp in
  do! adf := lift (annotate_variants vdf gdf) in
  (* Persist and start computation for the annotated dataset *)
  do! adf := persist adf in
  do! idf := lift (isolate_intergenic_variants adf) in
  do! idf := persist idf in
  do! ndf := lift (isolate_annotated_variants adf) in
  do! ndf := persist ndf in
  (* Scatter the lazy frames to the workers *)
  do! sc_adf := scatter adf in
  do! sc_idf := scatter idf in
  do! sc_ndf := scatter ndf in
  (* Save the distributed dataframes to temp folders *)
  do! annotated_tmp := submit (Task.save_distributed_dataframe sc_ndf) in
  do! intergenic_tmp := submit (Task.save_distributed_dataframe sc_idf) in
  (* Consolidate distributed datasets *)
  do! annotated_fp :=
    submit (Task.consolidate_separate_partitions annotated_tmp annotated_fp) in
  do! intergenic_fp :=
    submit (Task.consolidate_separate_partitions intergenic_tmp intergenic_fp) in
  (* Get and save mapping stats *)
  do! annotation_stats := submit (Task.collect_annotation_stats sc_adf) in
  do! stats_fp := submit (Task.write_annotation_stats annotation_stats stats_fp) in
  ret (<["annotated" := annotated_fp]>
         (<["intergenic" := intergenic_fp]> (<["stats" := stats_fp]> ∅))).

End Annotate.

(** ** Row-level reading of the annotation join

    What [annotate_variants] computes, said on typed rows: the pairs of a
    left outer join, the annotated row of a pair, and the key on which
    duplicates are dropped.  [annotate_variants_rows] below proves that the
    frame operations compute exactly this. *)

Module Rows.
Import Engine Schema.

Definition gene_matches (gs : list gene) (v : variant) : list gene :=
  filter (fun g => g_transcript_id g = v_transcript v) gs.

Definition join_variant (gs : list gene) (v : variant) : list (variant * option gene) :=
  match gene_matches gs v with
  | [] => [(v, None)]
  | ms => map (fun g => (v, Some g)) ms
  end.

Definition join_pairs (vs : list variant) (gs : list gene)
  : list (variant * option gene) :=
  flat_map (join_variant gs) vs.

Definition gene_cell (f : gene -> value) (g : option gene) : value :=
  from_option f NaN g.

(** The columns of the merged frame, and the cells of a joined pair under
    them. *)
Definition merged_header : list string :=
  ["chromosome_l"; "rsid"; "start"; "end"; "observed"; "maf"; "effect"; "transcript";
   "transcript_id"; "gene_id"; "gene_name"; "biotype"; "chromosome_r"].

Definition renamed_header : list string :=
  ["chromosome"; "rsid"; "start"; "end"; "observed"; "maf"; "variant_effect";
   "transcript"; "transcript_id"; "gene_id"; "gene_name"; "gene_biotype";
   "chromosome_r"].

Definition pair_row (p : variant * option gene) : list value :=
  variant_row p.1
  ++ [gene_cell g_transcript_id p.2; gene_cell g_gene_id p.2; gene_cell g_gene_name p.2;
      gene_cell g_biotype p.2; gene_cell g_chromosome p.2].

Definition annotate_pair (p : variant * option gene) : annotated :=
  {| a_chromosome := v_chromosome p.1;
     a_rsid := v_rsid p.1;
     a_variant_effect := v_effect p.1;
     a_transcript := v_transcript p.1;
     a_gene_id := gene_cell g_gene_id p.2;
     a_gene_name := gene_cell g_gene_name p.2;
     a_gene_biotype := gene_cell g_biotype p.2 |}.

(** The deduplication key of an annotated row. *)
Definition triple (a : annotated) : list value :=
  [a_rsid a; a_variant_effect a; a_gene_id a].

(** The join before deduplication, rows numbered from 0. *)
Definition joined (vs : list variant) (gs : list gene) : list (nat * annotated) :=
  enumerate (map annotate_pair (join_pairs vs gs)).

Definition first_seen (rs : list (nat * annotated)) : list (nat * annotated) :=
  keep_first (fun r => triple r.2) [] rs.

(** Membership in a left outer join of variants with genes on
    [transcript = transcript_id]: a variant is paired with a gene row of
    the same transcript, or with nothing when no gene row has it. *)
Definition left_outer_match (gs : list gene) (v : variant) (og : option gene) : Prop :=
  match og with
  | Some g => g ∈ gs ∧ g_transcript_id g = v_transcript v
  | None => forall g, g ∈ gs -> g_transcript_id g ≠ v_transcript v
  end.

(** A variant row appears in a table when some row of the table carries
    its chromosome, rsid, effect and transcript. *)
Definition appears_in (v : variant) (df : DataFrame) : Prop :=
  exists i r, (i, r) ∈ rows df
    ∧ project_row (columns df) ["chromosome"; "rsid"; "variant_effect"; "transcript"] r
      = [v_chromosome v; v_rsid v; v_effect v; v_transcript v].

(** The three categories of an annotated row. *)
Definition is_intergenic (a : annotated) : Prop := a_variant_effect a = Str "intergenic".
Definition is_mapped (a : annotated) : Prop :=
  a_variant_effect a ≠ Str "intergenic" ∧ a_gene_id a ≠ NaN.
Definition is_failed (a : annotated) : Prop :=
  a_variant_effect a ≠ Str "intergenic" ∧ a_gene_id a = NaN.


Definition mapped_view (r : nat * annotated) : nat * list value :=
  (r.1, [a_chromosome r.2; a_rsid r.2; a_variant_effect r.2;
         a_gene_id r.2; a_gene_name r.2; a_gene_biotype r.2]).

(** The rows of category [P] on chromosome [k] that [count()] counts under
    rsid: those whose rsid is not missing. *)
Definition counted (P : annotated -> Prop) `{!forall a, Decision (P a)} (k : value)
    (rs : list (nat * annotated)) : Z :=
  Z.of_nat (length (filter (fun r => a_chromosome r.2 = k ∧ a_rsid r.2 ≠ NaN)
                      (filter (fun r => P r.2) rs))).

(** The group labels of category [P], and the index of the statistics
    table: the labels of the three categories joined. *)
Definition category_labels (P : annotated -> Prop) `{!forall a, Decision (P a)}
    (rs : list (nat * annotated)) : list value :=
  sorted_labels (map (fun r => a_chromosome r.2) (filter (fun r => P r.2) rs)).

Definition stats_index (rs : list (nat * annotated)) : list value :=
  sorted_labels (category_labels is_mapped rs
                 ++ category_labels is_failed rs
                 ++ category_labels is_intergenic rs).

Definition count_column (P : annotated -> Prop) `{!forall a, Decision (P a)}
    (rs : list (nat * annotated)) : NumColumn :=
  mkNumColumn int64 (map (fun k => Some (counted P k rs)) (stats_index rs)).

(** An annotated table of one row whose rsid is missing, and one of three
    rows, one per category, all with an rsid. *)
Definition missing_rsid_table : list (nat * annotated) :=
  [(0, mkAnnotated (Str "1") NaN (Str "missense") (Str "T404") NaN NaN NaN)].

Definition three_category_table : list (nat * annotated) :=
  [(0, mkAnnotated (Str "1") (Str "rs1") (Str "intergenic") NaN NaN NaN NaN);
   (1, mkAnnotated (Str "1") (Str "rs2") (Str "missense") (Str "T1")
         (Str "G1") (Str "X") (Str "protein_coding"));
   (2, mkAnnotated (Str "1") (Str "rs3") (Str "missense") (Str "T404") NaN NaN NaN)].

(** An annotated table with the labels of a table held in two pieces:
    they restart, so they repeat and do not say where a row stands. *)
Definition two_piece_table : list (nat * annotated) :=
  [(0, mkAnnotated (Str "1") (Str "rs1") (Str "intergenic") NaN NaN NaN NaN);
   (4, mkAnnotated (Str "1") (Str "rs2") (Str "missense") (Str "T1")
         (Str "G1") (Str "X") (Str "protein_coding"));
   (1, mkAnnotated (Str "2") (Str "rs3") (Str "missense") (Str "T404") NaN NaN NaN);
   (2, mkAnnotated (Str "2") (Str "rs4") (Str "intergenic") NaN NaN NaN NaN);
   (3, mkAnnotated (Str "2") (Str "rs5") (Str "stop_gained") (Str "T2")
         (Str "G2") (Str "Y") (Str "protein_coding"));
   (0, mkAnnotated (Str "10") (Str "rs6") (Str "missense") (Str "T405") NaN NaN NaN);
   (1, mkAnnotated (Str "10") (Str "rs7") (Str "intergenic") NaN NaN NaN NaN)].

(** Two variant rows of one rsid and effect on two transcripts of one
    gene. *)
Definition two_transcript_variants : list variant :=
  [mkVariant (Str "1") (Str "rs1") (Num 100) (Num 100) (Str "A/G") NaN
     (Str "missense") (Some "T1");
   mkVariant (Str "1") (Str "rs1") (Num 100) (Num 100) (Str "A/G") NaN
     (Str "missense") (Some "T2")].

Definition two_transcript_genes : list gene :=
  [mkGene "T1" (Str "G1") (Str "X") (Str "protein_coding") (Str "1");
   mkGene "T2" (Str "G1") (Str "X") (Str "protein_coding") (Str "1")].

End Rows.

(** ** What a run of a driver leaves behind *)

Module Runs.
Import Engine Schema Cluster.

(** The log line that opens the work on a chromosome. *)
Definition starting (chrom : string) : string :=
  String.append "Starting chromosome " (String.append chrom " work").

(** The chromosomes a loop with [if chrom == '3': break] at the end of its
    body gets to: the list up to and including the first "3". *)
Fixpoint processed (chromosomes : list string) : list string :=
  match chromosomes with
  | [] => []
  | chrom :: rest => chrom :: (if String.eqb chrom "3" then [] else processed rest)
  end.

(** The destinations of the consolidation calls among [cs], in order. *)
Definition destinations (cs : list Task.t) : list string :=
  omap (fun c => match c with
                 | Task.consolidate_separate_partitions _ dest => Some dest
                 | _ => None
                 end) cs.

(** The output files of one chromosome. *)
Definition outputs (annotated_dir intergenic_dir chrom : string) : list string :=
  [Path annotated_dir
     (String.append "annotated-chromosome-" (String.append chrom ".tsv"));
   Path intergenic_dir
     (String.append "intergenic-chromosome-" (String.append chrom ".tsv"))].

(** The tables a chromosome's turn computes from the files: the annotated
    table, its mapped subset and its intergenic subset. *)
Definition turn_tables (files : gmap string tsv_file) (variant_fp gene_fp : string)
  : result (DataFrame * DataFrame * DataFrame) :=
  let! vdf := read_csv files variant_fp [("transcript", object)] in
  let! gdf := read_csv files gene_fp [] in
  let! adf := Annotate.annotate_variants vdf gdf in
  let! ndf := Annotate.isolate_annotated_variants adf in
  let! idf := Annotate.isolate_intergenic_variants adf in
  Ok (adf, ndf, idf).

Definition variant_file (variant_dir chrom : string) : string :=
  Path variant_dir (String.append "chromosome-" (String.append chrom ".tsv")).

(** The four calls of a turn, the first of them submitted as call number
    [base]. *)
Definition turn_calls (base : nat) (ndf idf : DataFrame)
    (annotated_fp intergenic_fp : string) : list Task.t :=
  [Task.save_distributed_dataframe ndf;
   Task.save_distributed_dataframe idf;
   Task.consolidate_separate_partitions base annotated_fp;
   Task.consolidate_separate_partitions (S base) intergenic_fp].

(** Among the submitted calls [ts], [future] is the consolidation into
    [dest] of the partitions saved from [table]. *)
Definition wired (ts : list Task.t) (future : Task.Future) (table : DataFrame)
    (dest : string) : Prop :=
  exists tmp,
    ts !! future = Some (Task.consolidate_separate_partitions tmp dest)
    ∧ ts !! tmp = Some (Task.save_distributed_dataframe table).

(** A step that logs nothing. *)
Definition quiet {A : Type} (m : io A) : Prop :=
  forall w, messages (m w).1 = messages w.

(** A step that leaves the files alone and submits no call that computes
    or writes statistics. *)
Definition no_stats {A : Type} (m : io A) : Prop :=
  forall w, exists new,
    tasks (m w).1 = tasks w ++ new ∧ Forall (fun c => Task.is_stats c = false) new.

(** Rows for the scenarios of the specification. *)
Definition variant_of (chrom rsid effect : string) (transcript : option string)
  : variant :=
  mkVariant (Str chrom) (Str rsid) (Num 1) (Num 1) (Str "A/G") NaN (Str effect) transcript.

Definition gene_of (transcript_id gene_id : string) : gene :=
  mkGene transcript_id (Str gene_id) (Str "X") (Str "protein_coding") (Str "1").

(** What the stage shows of a run: the sizes of the annotated table and of
    the two subsets, and the statistics rows as (chromosome, counts). *)
Definition summary (vs : list variant) (gs : list gene)
  : result (nat * nat * nat * list (value * list (option Z))) :=
  let! adf := Annotate.annotate_variants (variant_frame vs) (gene_frame gs) in
  let! idf := Annotate.isolate_intergenic_variants adf in
  let! ndf := Annotate.isolate_annotated_variants adf in
  let! stats := Annotate.collect_annotation_stats adf in
  Ok (length (rows adf), length (rows idf), length (rows ndf),
      map (fun k => (k, map (loc stats k) (num_columns stats))) (index stats)).

(** The rows of [three_category_table] in a wider frame: other labels,
    other column order, one more column. *)
Definition wider_table : DataFrame :=
  mkFrame ["note"; "rsid"; "gene_id"; "chromosome"; "variant_effect"]
    [(7, [Str "a"; Str "rs1"; NaN; Str "1"; Str "intergenic"]);
     (7, [Str "b"; Str "rs2"; Str "G1"; Str "1"; Str "missense"]);
     (9, [Str "c"; Str "rs3"; NaN; Str "1"; Str "missense"])].

(** The statistics of [two_piece_table]: the chromosomes stand in the
    order "1", "10", "2". *)
Definition two_piece_stats : NumFrame :=
  mkNumFrame ["intra_mapped"; "intra_failed"; "intergenic"] (Some "chromosome")
    [Str "1"; Str "10"; Str "2"]
    [mkNumColumn int64 [Some 1%Z; Some 0%Z; Some 1%Z];
     mkNumColumn int64 [Some 0%Z; Some 1%Z; Some 1%Z];
     mkNumColumn int64 [Some 1%Z; Some 1%Z; Some 1%Z]].

(** Modelled from the spec: [globe._var_human_chromosomes], the fixed
    ordered chromosome list of build A, which these sources do not
    contain.  The spec fixes that the list is ordered and that its third
    entry is the chromosome named "3"; the usual names of the human
    chromosomes are taken. *)
Definition human_chromosomes : list string :=
  ["1"; "2"; "3"; "4"; "5"; "6"; "7"; "8"; "9"; "10"; "11"; "12"; "13"; "14";
   "15"; "16"; "17"; "18"; "19"; "20"; "21"; "22"; "X"; "Y"].

(** A processed variant file of two records and a processed gene file of
    one, and a world that has the variant files of the first four
    chromosomes. *)
Definition sample_variants (chrom : string) : tsv_file :=
  mkTsv variant_header
    [[chrom; "rs1"; "100"; "100"; "A/G"; "0.25"; "missense"; "ENST01"];
     [chrom; "rs2"; "200"; "200"; "C/T"; ""; "intergenic"; ""]].

Definition sample_genes : tsv_file :=
  mkTsv gene_header [["ENST01"; "ENSG01"; "X"; "protein_coding"; "1"]].

Definition sample_world : world :=
  mkWorld
    (list_to_map
       [("variant/chromosome-1.tsv", sample_variants "1");
        ("variant/chromosome-2.tsv", sample_variants "2");
        ("variant/chromosome-3.tsv", sample_variants "3");
        ("variant/chromosome-4.tsv", sample_variants "4");
        ("gene.tsv", sample_genes)])
    [] [].




(** Files whose transcript identifiers are written with digits only. *)
Definition numeric_transcript_variants : tsv_file :=
  mkTsv variant_header
    [["1"; "rs1"; "100"; "100"; "A/G"; "0.25"; "missense"; "007"]].

Definition numeric_transcript_genes : tsv_file :=
  mkTsv gene_header [["007"; "G1"; "X"; "protein_coding"; "1"]].

(** The run of build A on the sample files and the mapping it returns. *)
Definition sample_run : world * result (gmap string (list Task.Future)) :=
  Annotate.run_hg38_annotations human_chromosomes "variant" "gene.tsv" "annotated"
    "intergenic" "stats.tsv" sample_world.

Definition sample_futures : gmap string (list Task.Future) :=
  <["annotated" := [2; 6; 10]]> (<["intergenic" := [3; 7; 11]]> ∅).

Definition numeric_transcript_world : world :=
  mkWorld
    (list_to_map
       [("variants.tsv", numeric_transcript_variants);
        ("genes.tsv", numeric_transcript_genes)])
    [] [].

(** The join of [two_transcript_variants] with [two_transcript_genes] as
    the engine hands it over when the tables are held in two pieces: the
    row of the second variant comes first, and both rows have the label
    0.  What the statements after the merge make of it. *)
Definition two_piece_join : DataFrame :=
  mkFrame Rows.merged_header
    (zip [0; 0] (map Rows.pair_row (rev (Rows.join_pairs Rows.two_transcript_variants
                                           Rows.two_transcript_genes)))).

Definition two_piece_annotated : DataFrame :=
  mkFrame Annotate.output_columns
    [(0, [Str "1"; Str "rs1"; Str "missense"; Str "T2"; Str "G1"; Str "X";
          Str "protein_coding"])].

(** An identifier written with [k] more zeros in front. *)
Fixpoint zero_padded (k : nat) (s : string) : string :=
  match k with
  | 0 => s
  | S k' => String "0" (zero_padded k' s)
  end.

(** A gene file that writes the identifiers 007 and 7. *)
Definition padded_genes : tsv_file :=
  mkTsv gene_header
    [["007"; "G1"; "X"; "protein_coding"; "1"];
     ["7"; "G2"; "Y"; "protein_coding"; "1"]].

Definition padded_world : world :=
  mkWorld (list_to_map [("genes.tsv", padded_genes)]) [] [].

End Runs.

(** ** Statistics as a function of four columns *)

Module Cells.
Import Engine.

(** The series [df[mask].groupby('chromosome').count().loc[:, 'rsid']] in
    terms of the chromosome and rsid cells of [df] alone. *)
Definition count_series (chromosome rsid : list value) (mask : list bool) : Series :=
  let chromosome := select_rows chromosome mask in
  let rsid := select_rows rsid mask in
  mkSeries "rsid"
    (map (fun k => (k, Z.of_nat (length (filter (fun p => p.1 = k ∧ p.2 ≠ NaN)
                                           (zip chromosome rsid)))))
       (sorted_labels chromosome)).

(** The statistics table in terms of the cells of the four columns that
    [collect_annotation_stats] reads. *)
Definition stats_of (variant_effect gene_id chromosome rsid : list value)
  : result NumFrame :=
  let is_intergenic := eq_const variant_effect "intergenic" in
  let is_not_intergenic := ne_const variant_effect "intergenic" in
  let is_mapped := notnull gene_id in
  let is_not_mapped := isnull gene_id in
  let intra_mapped := count_series chromosome rsid (mask_and is_not_intergenic is_mapped) in
  let intra_failed :=
    count_series chromosome rsid (mask_and is_not_intergenic is_not_mapped) in
  let intergenic := count_series chromosome rsid is_intergenic in
  let stats := fillna 0 (concat_columns [intra_mapped; intra_failed; intergenic]) in
  let! stats := set_columns stats ["intra_mapped"; "intra_failed"; "intergenic"] in
  let stats := set_index_name stats "chromosome" in
  astype_int64 stats.

End Cells.

(** * Facts *)

(** ** Facts about the engine *)

(** Rewriting with an instance of a lemma whose decision procedures were
    filled in by instance search, after beta-reducing them. *)
Ltac rewrite_beta lem :=
  let H := fresh in
  pose proof lem as H; cbv beta in H; rewrite H; clear H.

Module EngineFacts.
Import Engine.

Lemma enumerate_snd {A : Type} (l : list A) : map snd (enumerate l) = l.
Proof. unfold enumerate. apply snd_zip. by rewrite length_seq. Qed.

Lemma enumerate_fst {A : Type} (l : list A) : map fst (enumerate l) = seq 0 (length l).
Proof. unfold enumerate. apply fst_zip. by rewrite length_seq. Qed.

Lemma enumerate_length {A : Type} (l : list A) : length (enumerate l) = length l.
Proof. rewrite <- (length_map snd). by rewrite enumerate_snd. Qed.

Lemma enumerate_map {A B : Type} (f : A -> B) (l : list A) :
  map (fun r => (r.1, f r.2)) (enumerate l) = enumerate (map f l).
Proof.
  unfold enumerate. rewrite length_map.
  generalize (seq 0 (length l)) as ns. induction l as [|x l IH]; intros [|i ns]; simpl; try done.
  by rewrite IH.
Qed.

Lemma enumerate_lookup {A : Type} (l : list A) (p i : nat) (x : A) :
  enumerate l !! p = Some (i, x) <-> i = p /\ l !! p = Some x.
Proof.
  unfold enumerate. rewrite lookup_zip_with_Some. split.
  - intros (j & y & Heq & Hj & Hy). simplify_eq.
    by apply lookup_seq in Hj as [-> _].
  - intros [-> Hx]. exists p, x. split_and!; try done.
    apply lookup_seq. split; [done|]. by eapply lookup_lt_Some.
Qed.

Lemma enumerate_elem_of {A : Type} (l : list A) (i : nat) (x : A) :
  (i, x) ∈ enumerate l <-> l !! i = Some x.
Proof.
  rewrite list_elem_of_lookup. split.
  - intros [j Hj]. by apply enumerate_lookup in Hj as [-> Hj].
  - intros Hx. exists i. by apply enumerate_lookup.
Qed.

Lemma select_rows_map {A B : Type} (f : A -> B) (rs : list A) (mask : list bool) :
  select_rows (map f rs) mask = map f (select_rows rs mask).
Proof.
  revert mask. induction rs as [|r rs IH]; intros [|[] mask]; simpl; try done.
  by rewrite IH.
Qed.

Lemma select_rows_filter {A : Type} (P : A -> Prop) `{!forall x, Decision (P x)}
    (rs : list A) :
  select_rows rs (map (fun r => bool_decide (P r)) rs) = filter P rs.
Proof.
  induction rs as [|r rs IH]; simpl; [done|].
  rewrite filter_cons, IH.
  destruct (decide (P r)).
  - by rewrite bool_decide_eq_true_2.
  - by rewrite bool_decide_eq_false_2.
Qed.

Lemma select_rows_sublist {A : Type} (rs : list A) (mask : list bool) :
  sublist (select_rows rs mask) rs.
Proof.
  revert mask. induction rs as [|r rs IH]; intros [|[] mask]; simpl;
    try apply sublist_nil_l.
  - by apply sublist_skip.
  - by apply sublist_cons.
Qed.

Lemma mask_and_map {A : Type} (p q : A -> bool) (l : list A) :
  mask_and (map p l) (map q l) = map (fun x => p x && q x) l.
Proof. unfold mask_and. induction l as [|x l IH]; simpl; [done|]. by rewrite IH. Qed.

Lemma map_filter_comm {A B : Type} (f : A -> B) (P : B -> Prop)
    `{!forall y, Decision (P y)} (l : list A) :
  filter P (map f l) = map f (filter (fun x => P (f x)) l).
Proof.
  induction l as [|x l IH]; simpl; [done|].
  rewrite !filter_cons. simpl. rewrite IH. by destruct (decide (P (f x))).
Qed.

(** *** Keeping the first row of every key *)

Section keep_first.
Context {A K : Type} `{EqDecision K} (f : A -> K).

Lemma keep_first_cons (seen : list K) (x : A) (rs : list A) :
  keep_first f seen (x :: rs)
  = if decide (f x ∈ seen) then keep_first f seen rs
    else x :: keep_first f (f x :: seen) rs.
Proof. unfold keep_first. simpl. by destruct (decide (f x ∈ seen)). Qed.

Lemma keep_first_sublist (seen : list K) (rs : list A) :
  sublist (keep_first f seen rs) rs.
Proof. apply select_rows_sublist. Qed.

Lemma keep_first_unseen (seen : list K) (rs : list A) (x : A) :
  x ∈ keep_first f seen rs -> f x ∉ seen.
Proof.
  revert seen. induction rs as [|y rs IH]; intros seen; [by intros ?%elem_of_nil|].
  rewrite keep_first_cons. destruct (decide (f y ∈ seen)) as [|Hy]; [by apply IH|].
  intros [->|Hx]%elem_of_cons; [done|].
  apply IH in Hx. set_solver.
Qed.

Lemma keep_first_NoDup (seen : list K) (rs : list A) :
  NoDup (map f (keep_first f seen rs)).
Proof.
  revert seen. induction rs as [|y rs IH]; intros seen; [constructor|].
  rewrite keep_first_cons. destruct (decide (f y ∈ seen)); [by apply IH|].
  cbn [map]. constructor; [|by apply IH].
  intros (x & Hfx & Hx)%list_elem_of_fmap.
  apply keep_first_unseen in Hx. set_solver.
Qed.

Lemma keep_first_complete (seen : list K) (rs : list A) (x : A) :
  x ∈ rs -> f x ∉ seen -> f x ∈ map f (keep_first f seen rs).
Proof.
  revert seen. induction rs as [|y rs IH]; intros seen; [by intros ?%elem_of_nil|].
  rewrite keep_first_cons. intros Hx Hseen.
  destruct (decide (f y ∈ seen)) as [Hy|Hy].
  - apply IH; [|done]. apply elem_of_cons in Hx as [->|]; done.
  - cbn [map]. destruct (decide (f x = f y)) as [->|Hne]; [by left|].
    right. apply IH; [|by intros [?|?]%elem_of_cons].
    apply elem_of_cons in Hx as [->|]; done.
Qed.

(** A kept element stands in the list at a position before which its key
    does not occur. *)
Lemma keep_first_first (seen : list K) (rs : list A) (x : A) :
  x ∈ keep_first f seen rs ->
  exists p, rs !! p = Some x
            /\ forall q y, q < p -> rs !! q = Some y -> f y ≠ f x.
Proof.
  revert seen. induction rs as [|y rs IH]; intros seen; [by intros ?%elem_of_nil|].
  rewrite keep_first_cons. destruct (decide (f y ∈ seen)) as [Hy|Hy].
  - intros Hx. pose proof (keep_first_unseen _ _ _ Hx) as Hnew.
    destruct (IH _ Hx) as (p & Hp & Hbefore). exists (S p). split; [done|].
    intros [|q] z Hq Hz; simplify_eq/=.
    + intros Heq. by rewrite Heq in Hy.
    + eapply Hbefore; [|done]. lia.
  - intros [->|Hx]%elem_of_cons.
    + exists 0. split; [done|]. intros q z Hq. lia.
    + pose proof (keep_first_unseen _ _ _ Hx) as Hnew.
      destruct (IH _ Hx) as (p & Hp & Hbefore). exists (S p). split; [done|].
      intros [|q] z Hq Hz; simplify_eq/=.
      * set_solver.
      * eapply Hbefore; [|done]. lia.
Qed.

(** The element at a position before which its key does not occur is
    kept. *)
Lemma keep_first_kept (seen : list K) (rs : list A) (p : nat) (x : A) :
  rs !! p = Some x -> f x ∉ seen ->
  (forall q y, q < p -> rs !! q = Some y -> f y ≠ f x) ->
  x ∈ keep_first f seen rs.
Proof.
  revert seen p. induction rs as [|y rs IH]; intros seen p Hp Hseen Hfirst; [done|].
  rewrite keep_first_cons. destruct p as [|p].
  - cbn in Hp. injection Hp as ->. rewrite decide_False by done. left.
  - cbn in Hp. assert (Hyx : f y ≠ f x) by (apply (Hfirst 0); [lia|done]).
    assert (Hrest : forall q z, q < p -> rs !! q = Some z -> f z ≠ f x).
    { intros q z Hq Hz. apply (Hfirst (S q)); [lia|done]. }
    destruct (decide (f y ∈ seen)); [by eapply IH|].
    right. eapply IH; [done| |done].
    intros [?|?]%elem_of_cons; [by apply Hyx|done].
Qed.

Lemma keep_first_id (seen : list K) (rs : list A) :
  NoDup (map f rs) -> (forall x, x ∈ rs -> f x ∉ seen) -> keep_first f seen rs = rs.
Proof.
  revert seen. induction rs as [|y rs IH]; intros seen Hnd Hseen; [done|].
  rewrite keep_first_cons. cbn [map] in Hnd. apply NoDup_cons in Hnd as [Hy Hnd].
  rewrite decide_False by (apply Hseen; left).
  f_equal. apply IH; [done|]. intros x Hx.
  intros [Heq|Hin]%elem_of_cons.
  - apply Hy. rewrite <- Heq. by apply list_elem_of_fmap_2.
  - eapply Hseen; [|done]. by right.
Qed.

Lemma keep_first_idem (seen : list K) (rs : list A) :
  keep_first f seen (keep_first f seen rs) = keep_first f seen rs.
Proof.
  apply keep_first_id; [apply keep_first_NoDup|].
  intros x. apply keep_first_unseen.
Qed.

End keep_first.

Lemma keep_first_map {A B K : Type} `{EqDecision K} (f : B -> K) (g : A -> B)
    (seen : list K) (rs : list A) :
  keep_first f seen (map g rs) = map g (keep_first (fun x => f (g x)) seen rs).
Proof. unfold keep_first. by rewrite map_map, select_rows_map. Qed.

Lemma omap_lookup_fst {A : Type} (l : list A) (e : list (nat * A)) :
  (forall ix, ix ∈ e -> l !! ix.1 = Some ix.2) ->
  omap (fun p => l !! p) (map fst e) = map snd e.
Proof.
  induction e as [|ix e IH]; intros He; [done|].
  cbn. rewrite (He ix) by left. cbn. f_equal. apply IH.
  intros iy Hy. apply He. by right.
Qed.

Lemma StronglySorted_sublist {A : Type} (R : A -> A -> Prop) (l1 l2 : list A) :
  sublist l1 l2 -> StronglySorted R l2 -> StronglySorted R l1.
Proof.
  induction 1 as [|x l1 l2 Hsub IH|x l1 l2 Hsub IH]; intros Hs; [done| |].
  - apply StronglySorted_cons in Hs as [Hx Hs]. apply StronglySorted_cons.
    split; [|by apply IH].
    rewrite Forall_forall in Hx. apply Forall_forall. intros y Hy.
    apply Hx. by eapply elem_of_sublist.
  - apply StronglySorted_cons in Hs as [_ Hs]. by apply IH.
Qed.

Lemma StronglySorted_seq (a n : nat) : StronglySorted lt (seq a n).
Proof.
  revert a. induction n as [|n IH]; intros a; [constructor|].
  cbn [seq]. apply StronglySorted_cons. split; [|apply IH].
  apply Forall_seq. intros j Hj. lia.
Qed.

Lemma select_columns (df : DataFrame) (mask : list bool) :
  columns (select df mask) = columns df.
Proof. done. Qed.

Lemma drop_duplicates_rows (df d : DataFrame) (subset : list string) :
  drop_duplicates df subset = Ok d ->
  columns d = columns df
  /\ rows d = keep_first (fun r => project_row (columns df) subset r.2) [] (rows df).
Proof.
  unfold drop_duplicates. destruct (missing _ _); [done|].
  intros [= <-]. split; [done|].
  unfold select, keep_first, keys_of. cbn [rows]. by rewrite map_map.
Qed.

End EngineFacts.

(** ** Columns, masks and projections of arbitrary frames *)

Module FrameFacts.
Import Engine Annotate EngineFacts.

Lemma missing_cons (cols : list string) (c : string) (keep : list string) :
  missing cols (c :: keep) = if decide (c ∈ cols) then missing cols keep else Some c.
Proof.
  unfold missing. rewrite filter_cons.
  destruct (decide (c ∈ cols)) as [Hc|Hc].
  - by rewrite decide_False by (by intros ?).
  - by rewrite decide_True.
Qed.

Lemma missing_none (cols keep : list string) :
  (forall c, c ∈ keep -> c ∈ cols) -> missing cols keep = None.
Proof.
  induction keep as [|c keep IH]; intros Hall; [done|].
  rewrite missing_cons, decide_True by (apply Hall; left).
  apply IH. intros c' Hc'. apply Hall. by right.
Qed.

Lemma missing_some (cols keep : list string) (c : string) :
  missing cols keep = Some c -> c ∈ keep /\ c ∉ cols.
Proof.
  induction keep as [|c' keep IH]; [done|].
  rewrite missing_cons. destruct (decide (c' ∈ cols)) as [Hc'|Hc'].
  - intros [Hin Hout]%IH. split; [by right|done].
  - intros [= ->]. split; [left|done].
Qed.

Lemma getattr_cells (df : DataFrame) (c : string) :
  c ∈ columns df ->
  getattr df c = Ok (map (fun r => cell_or_nan (columns df) r.2 c) (rows df)).
Proof. intros Hc. unfold getattr, cells_of. by rewrite decide_True, map_map. Qed.

Lemma select_filter (df : DataFrame) (P : nat * list value -> Prop)
    `{!forall r, Decision (P r)} :
  select df (map (fun r => bool_decide (P r)) (rows df))
  = mkFrame (columns df) (filter P (rows df)).
Proof. unfold select. by rewrite select_rows_filter. Qed.

Lemma getitem_outcome (df : DataFrame) (keep : list string) :
  ((forall c, c ∈ keep -> c ∈ columns df) ->
     getitem df keep
     = Ok (mkFrame keep
             (map (fun r => (r.1, project_row (columns df) keep r.2)) (rows df))))
  /\ forall e, getitem df keep = Raise e ->
       exists c, c ∈ keep /\ (c ∉ columns df) /\ e = KeyError c.
Proof.
  unfold getitem. split.
  - intros Hall. by rewrite missing_none.
  - intros e. destruct (missing _ _) as [c|] eqn:Hm; [|done].
    intros [= <-]. apply missing_some in Hm as [? ?]. eauto.
Qed.

Lemma three_way_filter {A : Type} (P Q : A -> Prop)
    `{!forall x, Decision (P x)} `{!forall x, Decision (Q x)} (l : list A) :
  filter P l ++ filter (fun x => ¬ P x ∧ Q x) l ++ filter (fun x => ¬ P x ∧ ¬ Q x) l
  ≡ₚ l.
Proof.
  induction l as [|x l IH]; [done|].
  rewrite !filter_cons.
  destruct (decide (P x)) as [HP|HP]; destruct (decide (Q x)) as [HQ|HQ];
    repeat (destruct (decide _) as [?|?]); try tauto.
  all: cbn [app];
    first [ by rewrite IH
          | by rewrite <- Permutation_middle, IH
          | by rewrite app_assoc, <- Permutation_middle, <- app_assoc, IH ].
Qed.

Lemma positions_where_elem {A : Type} (P : A -> Prop) `{!forall x, Decision (P x)}
    (l : list A) (p : nat) :
  p ∈ positions_where P l <-> exists x, l !! p = Some x /\ P x.
Proof.
  unfold positions_where. rewrite list_elem_of_fmap. split.
  - intros ([i x] & -> & [HP Hix%enumerate_elem_of]%list_elem_of_filter). eauto.
  - intros (x & Hx & HP). exists (p, x). split; [done|].
    apply list_elem_of_filter. split; [done|]. by apply enumerate_elem_of.
Qed.

Lemma positions_where_rows {A : Type} (P : A -> Prop) `{!forall x, Decision (P x)}
    (l : list A) :
  omap (fun p => l !! p) (positions_where P l) = filter P l.
Proof.
  unfold positions_where.
  assert (Hall : forall e : list (nat * A),
            (forall ix, ix ∈ e -> l !! ix.1 = Some ix.2) ->
            omap (fun p => l !! p) (map fst e) = map snd e).
  { induction e as [|ix e IH]; intros He; [done|].
    cbn. rewrite (He ix) by left. cbn. f_equal. apply IH.
    intros iy Hy. apply He. by right. }
  rewrite Hall.
  - rewrite <- (enumerate_snd l) at 2. by rewrite map_filter_comm.
  - intros [i x] [_ Hix]%list_elem_of_filter. by apply enumerate_elem_of.
Qed.

Lemma positions_where_split {A : Type} (P Q : A -> Prop)
    `{!forall x, Decision (P x)} `{!forall x, Decision (Q x)} (l : list A) :
  positions_where P l ++ positions_where (fun x => ¬ P x ∧ Q x) l
    ++ positions_where (fun x => ¬ P x ∧ ¬ Q x) l
  ≡ₚ seq 0 (length l).
Proof.
  unfold positions_where. rewrite <- !map_app, <- enumerate_fst.
  apply fmap_Permutation.
  apply (three_way_filter (fun ix : nat * A => P ix.2) (fun ix => Q ix.2)).
Qed.

Lemma isolate_intergenic_selection (df : DataFrame) :
  (forall c, c ∈ ["chromosome"; "rsid"; "variant_effect"] -> c ∈ columns df) ->
  isolate_intergenic_variants df
  = Ok (mkFrame ["chromosome"; "rsid"; "variant_effect"]
          (map (fun r => (r.1, project_row (columns df)
                                 ["chromosome"; "rsid"; "variant_effect"] r.2))
             (filter (fun r => cell_or_nan (columns df) r.2 "variant_effect"
                               = Str "intergenic") (rows df)))).
Proof.
  intros Hall. unfold isolate_intergenic_variants.
  rewrite getattr_cells by (apply Hall; set_solver).
  cbn [bind]. unfold eq_const. rewrite map_map.
  rewrite_beta (select_filter df
    (fun r => cell_or_nan (columns df) r.2 "variant_effect" = Str "intergenic")).
  by rewrite (proj1 (getitem_outcome _ _)) by done.
Qed.

Lemma isolate_annotated_selection (df : DataFrame) :
  (forall c, c ∈ ["chromosome"; "rsid"; "variant_effect";
                  "gene_id"; "gene_name"; "gene_biotype"] -> c ∈ columns df) ->
  isolate_annotated_variants df
  = Ok (mkFrame ["chromosome"; "rsid"; "variant_effect";
                 "gene_id"; "gene_name"; "gene_biotype"]
          (map (fun r => (r.1, project_row (columns df)
                                 ["chromosome"; "rsid"; "variant_effect";
                                  "gene_id"; "gene_name"; "gene_biotype"] r.2))
             (filter (fun r => cell_or_nan (columns df) r.2 "variant_effect"
                               ≠ Str "intergenic"
                               ∧ cell_or_nan (columns df) r.2 "gene_id" ≠ NaN)
                (rows df)))).
Proof.
  intros Hall. unfold isolate_annotated_variants.
  rewrite !getattr_cells by (apply Hall; set_solver).
  cbn [bind]. unfold ne_const, notnull. rewrite !map_map, mask_and_map.
  rewrite (map_ext _ (fun r => bool_decide
             (cell_or_nan (columns df) r.2 "variant_effect" ≠ Str "intergenic"
              ∧ cell_or_nan (columns df) r.2 "gene_id" ≠ NaN))).
  2: { intros r. by rewrite bool_decide_and, !bool_decide_not. }
  rewrite_beta (select_filter df
    (fun r => cell_or_nan (columns df) r.2 "variant_effect" ≠ Str "intergenic"
              ∧ cell_or_nan (columns df) r.2 "gene_id" ≠ NaN)).
  by rewrite (proj1 (getitem_outcome _ _)) by done.
Qed.

Lemma failed_mapping_selection (df : DataFrame) :
  (forall c, c ∈ ["variant_effect"; "gene_id"] -> c ∈ columns df) ->
  failed_mapping df
  = Ok (mkFrame (columns df)
          (filter (fun r => cell_or_nan (columns df) r.2 "variant_effect"
                            ≠ Str "intergenic"
                            ∧ ¬ cell_or_nan (columns df) r.2 "gene_id" ≠ NaN)
             (rows df))).
Proof.
  intros Hall. unfold failed_mapping.
  rewrite !getattr_cells by (apply Hall; set_solver).
  cbn [bind]. unfold ne_const, isnull. rewrite !map_map, mask_and_map.
  rewrite (map_ext _ (fun r => bool_decide
             (cell_or_nan (columns df) r.2 "variant_effect" ≠ Str "intergenic"
              ∧ ¬ cell_or_nan (columns df) r.2 "gene_id" ≠ NaN))).
  2: { intros r. rewrite bool_decide_and, !bool_decide_not.
       by rewrite negb_involutive. }
  by rewrite_beta (select_filter df
    (fun r => cell_or_nan (columns df) r.2 "variant_effect" ≠ Str "intergenic"
              ∧ ¬ cell_or_nan (columns df) r.2 "gene_id" ≠ NaN)).
Qed.

Lemma cell_projected (cols keep : list string) (r : list value) (c : string) :
  c ∈ keep -> cell_or_nan keep (project_row cols keep r) c = cell_or_nan cols r c.
Proof.
  intros Hc. unfold cell_or_nan at 1, project_row.
  assert (Hcell : forall (g : string -> value) (ks : list string),
            c ∈ ks -> cell ks (map g ks) c = Some (g c)).
  { intros g ks. induction ks as [|c' ks IH]; [by intros ?%elem_of_nil|].
    intros Hin. cbn [map cell]. destruct (String.eqb_spec c c') as [->|Hne]; [done|].
    apply IH. by apply elem_of_cons in Hin as [?|?]. }
  by rewrite Hcell.
Qed.

Lemma project_projected (cols keep subset : list string) (r : list value) :
  (forall c, c ∈ subset -> c ∈ keep) ->
  project_row keep subset (project_row cols keep r) = project_row cols subset r.
Proof.
  intros Hsub. unfold project_row at 1 3. apply map_ext_in. intros c Hc.
  apply cell_projected, Hsub. by apply list_elem_of_In.
Qed.

Lemma annotate_ok_columns (vdf gdf out : DataFrame) :
  annotate_variants vdf gdf = Ok out -> columns out = output_columns.
Proof.
  unfold annotate_variants, merge_left.
  destruct (decide ("transcript_id" ∈ columns gdf)); [|done].
  destruct (decide ("transcript" ∈ columns vdf)); [|done].
  cbn [bind]. unfold drop_duplicates, rename. cbn [columns].
  destruct (missing _ duplicate_subset); [done|].
  cbn [bind]. unfold getitem. cbn [columns select].
  destruct (missing _ output_columns); [done|]. by intros [= <-].
Qed.

Lemma annotate_merged_columns (merged out : DataFrame) :
  annotate_merged merged = Ok out -> columns out = output_columns.
Proof.
  unfold annotate_merged, drop_duplicates.
  destruct (missing _ duplicate_subset); [done|].
  cbn [bind]. unfold getitem.
  destruct (missing _ output_columns); [done|]. by intros [= <-].
Qed.

Lemma isolate_annotated_ok (df : DataFrame) :
  columns df = output_columns -> exists out, isolate_annotated_variants df = Ok out.
Proof.
  intros Hcols. unfold isolate_annotated_variants, getattr. rewrite Hcols.
  rewrite !decide_True by (vm_compute; set_solver). cbn [bind].
  unfold getitem. rewrite select_columns, Hcols.
  change (missing output_columns _) with (@None string). by eexists.
Qed.

Lemma isolate_intergenic_ok (df : DataFrame) :
  columns df = output_columns -> exists out, isolate_intergenic_variants df = Ok out.
Proof.
  intros Hcols. unfold isolate_intergenic_variants, getattr. rewrite Hcols.
  rewrite !decide_True by (vm_compute; set_solver). cbn [bind].
  unfold getitem. rewrite select_columns, Hcols.
  change (missing output_columns _) with (@None string). by eexists.
Qed.

End FrameFacts.

(** ** The annotation join on typed rows *)

Module JoinFacts.
Import Engine Schema Annotate Rows EngineFacts.

Lemma join_row_typed (gs : list gene) (v : variant) (vs : list variant) :
  join_row (variant_frame vs) (gene_frame gs) "transcript" "transcript_id" (variant_row v)
  = map pair_row (join_variant gs v).
Proof.
  unfold join_row, matches, join_variant, gene_matches.
  cbn [gene_frame rows columns]. rewrite enumerate_snd, map_filter_comm.
  change (filter _ gs) with (filter (fun g => g_transcript_id g = v_transcript v) gs).
  destruct (filter _ gs) as [|g ms]; [done|].
  cbn [map]. f_equal. rewrite !map_map. by apply map_ext.
Qed.

Lemma merge_rows (vs : list variant) (gs : list gene) :
  merge_left (variant_frame vs) (gene_frame gs) "transcript" "transcript_id" ("_l", "_r")
  = Ok (mkFrame merged_header (enumerate (map pair_row (join_pairs vs gs)))).
Proof.
  unfold merge_left.
  rewrite decide_True by (vm_compute; set_solver).
  rewrite decide_True by (vm_compute; set_solver).
  f_equal. f_equal. f_equal.
  cbn [variant_frame rows]. rewrite enumerate_snd.
  unfold join_pairs. generalize vs at 1 as ws.
  induction vs as [|v vs IH]; intros ws; [done|].
  cbn [map flat_map]. rewrite map_app, <- (IH ws). f_equal. apply join_row_typed.
Qed.

Lemma pair_row_key (p : variant * option gene) :
  project_row renamed_header duplicate_subset (pair_row p)
  = triple (annotate_pair p).
Proof. by destruct p as [v [g|]]. Qed.

Lemma pair_row_annotated (p : variant * option gene) :
  project_row renamed_header annotated_header (pair_row p)
  = annotated_row (annotate_pair p).
Proof. by destruct p as [v [g|]]. Qed.

Lemma joined_keys (vs : list variant) (gs : list gene) :
  map (fun r => triple r.2) (joined vs gs)
  = map (fun p => triple (annotate_pair p)) (join_pairs vs gs).
Proof.
  unfold joined. rewrite <- (map_map snd triple), enumerate_snd. by rewrite map_map.
Qed.

(** The frame [annotate_variants] returns is the annotated table of the
    first-seen rows of the numbered left outer join. *)
Lemma annotate_variants_rows (vs : list variant) (gs : list gene) :
  annotate_variants (variant_frame vs) (gene_frame gs)
  = Ok (annotated_frame (first_seen (joined vs gs))).
Proof.
  unfold annotate_variants. rewrite merge_rows. cbn [bind].
  unfold rename. cbn [columns rows].
  change (map _ merged_header) with renamed_header.
  unfold drop_duplicates. cbn [columns].
  change (missing renamed_header _) with (@None string).
  cbn [bind]. unfold getitem, select. cbn [columns rows].
  change (missing renamed_header _) with (@None string).
  unfold annotated_frame, first_seen, keep_first. f_equal. f_equal.
  rewrite joined_keys. unfold keys_of. cbn [columns rows].
  rewrite enumerate_snd, map_map.
  rewrite (map_ext _ _ pair_row_key).
  rewrite <- !select_rows_map. f_equal.
  unfold joined. rewrite !enumerate_map. f_equal.
  rewrite !map_map. apply map_ext, pair_row_annotated.
Qed.

Lemma join_variant_spec (gs : list gene) (v w : variant) (og : option gene) :
  (w, og) ∈ join_variant gs v <-> w = v /\ left_outer_match gs v og.
Proof.
  unfold join_variant.
  assert (Hm : forall g, g ∈ gene_matches gs v
                    <-> g ∈ gs /\ g_transcript_id g = v_transcript v).
  { intros g. unfold gene_matches. rewrite list_elem_of_filter. tauto. }
  destruct (gene_matches gs v) as [|g0 ms] eqn:E.
  - rewrite list_elem_of_singleton. split.
    + intros [= -> ->]. split; [done|]. intros g Hg Heq.
      eapply not_elem_of_nil, Hm. eauto.
    + intros [-> Hog]. destruct og as [g|]; [|done].
      exfalso. eapply not_elem_of_nil, Hm, Hog.
  - rewrite list_elem_of_fmap. split.
    + intros (g & [= -> ->] & Hg). split; [done|]. by apply Hm.
    + intros [-> Hog]. destruct og as [g|].
      * exists g. split; [done|]. by apply Hm.
      * exfalso. assert (Hg0 : g0 ∈ g0 :: ms) by left.
        apply Hm in Hg0 as [Hin Heq]. by apply (Hog g0).
Qed.

(** The pairs are those of a left outer join. *)
Lemma join_pairs_spec (vs : list variant) (gs : list gene) (v : variant)
    (og : option gene) :
  (v, og) ∈ join_pairs vs gs <-> v ∈ vs /\ left_outer_match gs v og.
Proof.
  unfold join_pairs. rewrite list_elem_of_In, in_flat_map. split.
  - intros (w & Hw & Hp). apply list_elem_of_In in Hw, Hp.
    apply join_variant_spec in Hp as [-> Hog]. done.
  - intros [Hv Hog]. exists v. rewrite <- !list_elem_of_In.
    split; [done|]. by apply join_variant_spec.
Qed.

(** No variant is lost by the join. *)
Lemma join_pairs_total (vs : list variant) (gs : list gene) (v : variant) :
  v ∈ vs -> exists og, (v, og) ∈ join_pairs vs gs.
Proof.
  intros Hv. destruct (gene_matches gs v) as [|g ms] eqn:E.
  - exists None. apply join_pairs_spec. split; [done|].
    intros g Hg Heq. eapply not_elem_of_nil. rewrite <- E.
    unfold gene_matches. by apply list_elem_of_filter.
  - exists (Some g). apply join_pairs_spec. split; [done|].
    assert (Hg : g ∈ gene_matches gs v) by (rewrite E; left).
    unfold gene_matches in Hg. apply list_elem_of_filter in Hg as [Heq Hin].
    by split.
Qed.

End JoinFacts.

(** ** Deduplication *)

Module DedupFacts.
Import Engine Schema Annotate Rows EngineFacts JoinFacts.

Lemma drop_duplicates_idem (df : DataFrame) (subset : list string) :
  (let! d := drop_duplicates df subset in drop_duplicates d subset)
  = drop_duplicates df subset.
Proof.
  unfold drop_duplicates.
  destruct (missing (columns df) subset) eqn:Hm; cbn [bind]; [done|].
  rewrite select_columns, Hm. f_equal.
  unfold select, keys_of. cbn [rows columns]. f_equal.
  rewrite !map_map.
  apply (keep_first_idem (fun r => project_row (columns df) subset r.2)).
Qed.

Lemma renamed_merge_keys (vs : list variant) (gs : list gene) :
  keys_of (mkFrame renamed_header (enumerate (map pair_row (join_pairs vs gs))))
    duplicate_subset
  = map (fun r => triple r.2) (joined vs gs).
Proof.
  rewrite joined_keys. unfold keys_of. cbn [rows columns].
  rewrite enumerate_snd, map_map. apply map_ext, pair_row_key.
Qed.

Lemma joined_lookup (vs : list variant) (gs : list gene) (p i : nat) (a : annotated) :
  joined vs gs !! p = Some (i, a) <->
  i = p /\ exists pr, join_pairs vs gs !! p = Some pr /\ a = annotate_pair pr.
Proof.
  unfold joined. rewrite enumerate_lookup, list_lookup_fmap, fmap_Some.
  naive_solver.
Qed.

End DedupFacts.

(** ** The three-way split *)

Module PartitionFacts.
Import Engine Schema Annotate Rows EngineFacts.

Lemma annotated_cells (rs : list (nat * annotated)) (c : string) :
  cells_of (annotated_frame rs) c
  = map (fun r => cell_or_nan annotated_header (annotated_row r.2) c) rs.
Proof. unfold cells_of, annotated_frame. cbn [rows columns]. by rewrite !map_map. Qed.

Lemma getattr_annotated (rs : list (nat * annotated)) (c : string) :
  c ∈ annotated_header ->
  getattr (annotated_frame rs) c
  = Ok (map (fun r => cell_or_nan annotated_header (annotated_row r.2) c) rs).
Proof. intros Hc. unfold getattr. rewrite decide_True by done. by rewrite annotated_cells. Qed.

Lemma select_annotated (rs : list (nat * annotated)) (P : annotated -> Prop)
    `{!forall a, Decision (P a)} :
  select (annotated_frame rs) (map (fun r => bool_decide (P r.2)) rs)
  = annotated_frame (filter (fun r => P r.2) rs).
Proof.
  unfold select, annotated_frame. cbn [rows columns]. f_equal.
  rewrite select_rows_map. f_equal.
  apply (select_rows_filter (fun r : nat * annotated => P r.2)).
Qed.

(** Rewrite the selection of a category into a filter of the typed rows. *)
Ltac select_category rs P := rewrite_beta (select_annotated rs P).

Lemma intergenic_mask (rs : list (nat * annotated)) :
  eq_const (map (fun r => cell_or_nan annotated_header (annotated_row r.2) "variant_effect") rs)
    "intergenic"
  = map (fun r => bool_decide (is_intergenic r.2)) rs.
Proof. unfold eq_const. rewrite map_map. by apply map_ext. Qed.

Lemma mapped_mask (rs : list (nat * annotated)) :
  mask_and
    (ne_const (map (fun r => cell_or_nan annotated_header (annotated_row r.2) "variant_effect") rs)
       "intergenic")
    (notnull (map (fun r => cell_or_nan annotated_header (annotated_row r.2) "gene_id") rs))
  = map (fun r => bool_decide (is_mapped r.2)) rs.
Proof.
  unfold ne_const, notnull. rewrite !map_map, mask_and_map.
  apply map_ext. intros [i a]. unfold is_mapped. cbn.
  by rewrite bool_decide_and, !bool_decide_not.
Qed.

Lemma failed_mask (rs : list (nat * annotated)) :
  mask_and
    (ne_const (map (fun r => cell_or_nan annotated_header (annotated_row r.2) "variant_effect") rs)
       "intergenic")
    (isnull (map (fun r => cell_or_nan annotated_header (annotated_row r.2) "gene_id") rs))
  = map (fun r => bool_decide (is_failed r.2)) rs.
Proof.
  unfold ne_const, isnull. rewrite !map_map, mask_and_map.
  apply map_ext. intros [i a]. unfold is_failed. cbn.
  by rewrite bool_decide_and, !bool_decide_not.
Qed.


Lemma isolate_annotated_rows (rs : list (nat * annotated)) :
  isolate_annotated_variants (annotated_frame rs)
  = Ok (mkFrame ["chromosome"; "rsid"; "variant_effect";
                 "gene_id"; "gene_name"; "gene_biotype"]
          (map mapped_view (filter (fun r => is_mapped r.2) rs))).
Proof.
  unfold isolate_annotated_variants.
  rewrite !getattr_annotated by (vm_compute; set_solver). cbn [bind].
  rewrite mapped_mask. select_category rs is_mapped.
  unfold getitem, annotated_frame. cbn [columns rows].
  change (missing annotated_header _) with (@None string).
  by rewrite map_map.
Qed.

(** Every row is in exactly one category. *)
Lemma category_cases (a : annotated) :
  (is_intergenic a /\ ~ is_mapped a /\ ~ is_failed a)
  \/ (~ is_intergenic a /\ is_mapped a /\ ~ is_failed a)
  \/ (~ is_intergenic a /\ ~ is_mapped a /\ is_failed a).
Proof.
  unfold is_intergenic, is_mapped, is_failed.
  destruct (decide (a_variant_effect a = Str "intergenic")) as [He|He],
    (decide (a_gene_id a = NaN)) as [Hg|Hg]; tauto.
Qed.

Lemma three_filters {A : Type} (f : A -> annotated) (l : list A) :
  filter (fun r => is_intergenic (f r)) l
  ++ filter (fun r => is_mapped (f r)) l
  ++ filter (fun r => is_failed (f r)) l
  ≡ₚ l.
Proof.
  induction l as [|x l IH]; [done|].
  rewrite !filter_cons.
  destruct (category_cases (f x)) as [(H1 & H2 & H3)|[(H1 & H2 & H3)|(H1 & H2 & H3)]];
    rewrite ?(decide_True _ _ H1), ?(decide_False _ _ H1),
      ?(decide_True _ _ H2), ?(decide_False _ _ H2),
      ?(decide_True _ _ H3), ?(decide_False _ _ H3).
  - cbn [app]. by rewrite IH.
  - cbn [app]. rewrite <- Permutation_middle. by rewrite IH.
  - rewrite app_assoc, <- Permutation_middle, <- app_assoc. by rewrite IH.
Qed.

End PartitionFacts.

(** ** Statistics *)

Module StatsFacts.
Import Engine Schema Annotate Rows EngineFacts PartitionFacts.

Lemma sorted_labels_elem (ks : list value) (k : value) :
  k ∈ sorted_labels ks <-> k ≠ NaN /\ k ∈ ks.
Proof.
  unfold sorted_labels.
  by rewrite merge_sort_Permutation, elem_of_remove_dups, list_elem_of_filter.
Qed.

Lemma sorted_labels_NoDup (ks : list value) : NoDup (sorted_labels ks).
Proof.
  unfold sorted_labels. rewrite merge_sort_Permutation. apply NoDup_remove_dups.
Qed.

Lemma lookup_item_map (n : string) (c : value -> Z) (keys : list value) (k : value) :
  lookup_item (mkSeries n (map (fun k => (k, c k)) keys)) k
  = if decide (k ∈ keys) then Some (c k) else None.
Proof.
  unfold lookup_item. cbn [items].
  induction keys as [|k0 keys IH]; [done|].
  cbn [map list_find]. cbn [fst]. destruct (decide (k0 = k)) as [->|Hne].
  - by rewrite decide_True by left.
  - rewrite <- option_fmap_compose.
    destruct (decide (k ∈ k0 :: keys)) as [Hin|Hout].
    + apply elem_of_cons in Hin as [->|Hin]; [done|].
      rewrite decide_True in IH by done. rewrite <- IH.
      by destruct (list_find _ _) as [[p it]|].
    + rewrite decide_False in IH by (intros ?; apply Hout; by right).
      rewrite <- IH. by destruct (list_find _ _) as [[p it]|].
Qed.

Section category.
Context (P : annotated -> Prop) `{!forall a, Decision (P a)}.

Lemma category_labels_elem (rs : list (nat * annotated)) (k : value) :
  k ∈ category_labels P rs
  <-> k ≠ NaN /\ exists r, r ∈ rs /\ P r.2 /\ a_chromosome r.2 = k.
Proof.
  unfold category_labels. rewrite sorted_labels_elem, list_elem_of_fmap.
  setoid_rewrite list_elem_of_filter. naive_solver.
Qed.

Lemma counted_absent (rs : list (nat * annotated)) (k : value) :
  k ≠ NaN -> k ∉ category_labels P rs -> counted P k rs = 0%Z.
Proof.
  intros Hk Hout. unfold counted.
  destruct (filter _ (filter _ rs)) as [|r l] eqn:E; [done|].
  exfalso. apply Hout, category_labels_elem. split; [done|].
  assert (Hr : r ∈ r :: l) by left. rewrite <- E in Hr.
  apply list_elem_of_filter in Hr as [[Hchr _] Hr].
  apply list_elem_of_filter in Hr as [HP Hr]. eauto.
Qed.

(** After the fill, the cell of a label is the number of counted rows,
    whether or not the category has the label. *)
Lemma filled_cell (n : string) (rs : list (nat * annotated)) (k : value) :
  k ≠ NaN ->
  default 0%Z
    (lookup_item
       (mkSeries n (map (fun k => (k, counted P k rs)) (category_labels P rs))) k)
  = counted P k rs.
Proof.
  intros Hk. rewrite lookup_item_map.
  destruct (decide (k ∈ category_labels P rs)); [done|].
  symmetry. by apply counted_absent.
Qed.

Lemma count_notnull_typed (rs : list (nat * annotated)) (k : value) :
  count_notnull (annotated_frame rs) "chromosome" k "rsid"
  = Z.of_nat (length (filter (fun r => a_chromosome r.2 = k ∧ a_rsid r.2 ≠ NaN) rs)).
Proof.
  unfold count_notnull, annotated_frame. cbn [rows columns].
  rewrite map_map, map_filter_comm, length_map. done.
Qed.

Lemma count_by_chromosome_typed (rs : list (nat * annotated)) :
  count_by_chromosome (annotated_frame rs) (map (fun r => bool_decide (P r.2)) rs)
  = Ok (mkSeries "rsid"
          (map (fun k => (k, counted P k rs)) (category_labels P rs))).
Proof.
  unfold count_by_chromosome. select_category rs P.
  unfold groupby_count, column.
  rewrite decide_True by (vm_compute; set_solver). cbn [bind].
  unfold loc_column. cbn [count_columns count_rows].
  rewrite decide_True by (vm_compute; set_solver).
  rewrite annotated_cells. f_equal. f_equal.
  rewrite map_map. unfold category_labels. apply map_ext. intros k.
  cbn [fst snd]. f_equal. apply count_notnull_typed.
Qed.

End category.

Lemma stats_index_elem (rs : list (nat * annotated)) (k : value) :
  k ∈ stats_index rs <-> k ≠ NaN /\ exists r, r ∈ rs /\ a_chromosome r.2 = k.
Proof.
  unfold stats_index. rewrite sorted_labels_elem, !elem_of_app.
  rewrite !category_labels_elem. split.
  - naive_solver.
  - intros [Hk ([i a] & Hr & Hchr)]. split; [done|].
    destruct (category_cases a) as [(H1 & _)|[(_ & H2 & _)|(_ & _ & H3)]];
      [right; right|left|right; left]; split; eauto.
Qed.

Lemma filled_column (P : annotated -> Prop) `{!forall a, Decision (P a)} (n : string)
    (rs : list (nat * annotated)) :
  map (fun c => Some (default 0%Z c))
    (map (lookup_item
            (mkSeries n (map (fun k => (k, counted P k rs)) (category_labels P rs))))
       (stats_index rs))
  = map (fun k => Some (counted P k rs)) (stats_index rs).
Proof.
  rewrite map_map. apply map_ext_in. intros k Hk%list_elem_of_In.
  f_equal. apply filled_cell. by apply stats_index_elem in Hk as [Hk _].
Qed.

Lemma all_filled {A : Type} (f : A -> Z) (l : list A) :
  forallb (fun c => bool_decide (is_Some c)) (map (fun k => Some (f k)) l) = true.
Proof. induction l as [|x l IH]; [done|]. cbn. by rewrite IH. Qed.

(** The statistics table, cell by cell. *)
Lemma collect_annotation_stats_typed (rs : list (nat * annotated)) :
  collect_annotation_stats (annotated_frame rs)
  = Ok (mkNumFrame ["intra_mapped"; "intra_failed"; "intergenic"] (Some "chromosome")
          (stats_index rs)
          [count_column is_mapped rs; count_column is_failed rs;
           count_column is_intergenic rs]).
Proof.
  unfold collect_annotation_stats.
  rewrite !getattr_annotated by (vm_compute; set_solver). cbn [bind].
  rewrite mapped_mask, failed_mask, intergenic_mask.
  rewrite_beta (count_by_chromosome_typed is_mapped rs). cbn [bind].
  rewrite_beta (count_by_chromosome_typed is_failed rs). cbn [bind].
  rewrite_beta (count_by_chromosome_typed is_intergenic rs). cbn [bind].
  unfold concat_columns, fillna, reindex.
  cbn [map flat_map items name num_columns index_name index data col_cells col_dtype].
  rewrite !map_map. cbn [fst]. rewrite !map_id, app_nil_r.
  fold (stats_index rs).
  unfold set_columns. cbn [data length].
  rewrite decide_True by done. cbn [bind].
  unfold set_index_name, astype_int64.
  cbn [map data num_columns index_name index col_cells forallb].
  rewrite <- !(map_map (lookup_item _) (fun c => Some (default 0%Z c))).
  rewrite_beta (filled_column is_mapped "rsid" rs).
  rewrite_beta (filled_column is_failed "rsid" rs).
  rewrite_beta (filled_column is_intergenic "rsid" rs).
  by rewrite !all_filled.
Qed.

Lemma loc_count_column (names : list string) (n : option string)
    (cols : list NumColumn) (rs : list (nat * annotated)) (c : string) (k : value)
    (P : annotated -> Prop) `{!forall a, Decision (P a)} :
  cell names cols c = Some (count_column P rs) ->
  k ∈ stats_index rs ->
  loc (mkNumFrame names n (stats_index rs) cols) k c = Some (counted P k rs).
Proof.
  intros Hc Hk. unfold loc. cbn [num_columns data index]. rewrite Hc.
  destruct (list_find_elem_of (fun k' => k' = k) (stats_index rs) k Hk eq_refl)
    as [[p k'] Hp].
  rewrite Hp. apply list_find_Some in Hp as (Hp & -> & _).
  unfold count_column. cbn [col_cells]. by rewrite list_lookup_fmap, Hp.
Qed.

(** The three categories split the rows of a chromosome that have an
    rsid. *)
Lemma counted_sum (rs : list (nat * annotated)) (k : value) :
  (counted is_mapped k rs + counted is_failed k rs + counted is_intergenic k rs)%Z
  = Z.of_nat (length (filter (fun r => a_chromosome r.2 = k ∧ a_rsid r.2 ≠ NaN) rs)).
Proof.
  unfold counted.
  rewrite <- (three_filters snd rs) at 4.
  rewrite !filter_app, !length_app. lia.
Qed.

Lemma counted_explicit (P : annotated -> Prop) `{!forall a, Decision (P a)}
    (k : value) (rs : list (nat * annotated)) :
  counted P k rs
  = Z.of_nat (length (filter (fun r => a_chromosome r.2 = k ∧ a_rsid r.2 ≠ NaN ∧ P r.2)
                        rs)).
Proof.
  unfold counted. rewrite list_filter_filter. do 2 f_equal.
  apply list_filter_iff. intros r. tauto.
Qed.

Lemma counted_with_rsid (P : annotated -> Prop) `{!forall a, Decision (P a)}
    (k : value) (rs : list (nat * annotated)) :
  counted P k (filter (fun r => a_rsid r.2 ≠ NaN) rs) = counted P k rs.
Proof.
  rewrite !counted_explicit, list_filter_filter. do 2 f_equal.
  apply list_filter_iff. intros r. tauto.
Qed.

Lemma stats_index_with_rsid (rs : list (nat * annotated)) (k : value) :
  k ∈ stats_index (filter (fun r => a_rsid r.2 ≠ NaN) rs) -> k ∈ stats_index rs.
Proof.
  rewrite !stats_index_elem. intros (Hk & r & Hr & Hchr). split; [done|].
  exists r. split; [|done]. by apply list_elem_of_filter in Hr as [_ ?].
Qed.

Lemma rows_with_and_without_rsid (rs : list (nat * annotated)) (k : value) :
  length (filter (fun r => a_chromosome r.2 = k ∧ a_rsid r.2 ≠ NaN) rs)
  + length (filter (fun r => a_chromosome r.2 = k ∧ a_rsid r.2 = NaN) rs)
  = length (filter (fun r => a_chromosome r.2 = k) rs).
Proof.
  induction rs as [|[i a] rs IH]; [done|].
  rewrite !filter_cons. cbn [snd].
  destruct (decide (a_chromosome a = k)) as [Hk|Hk],
    (decide (a_rsid a = NaN)) as [Hr|Hr].
  - rewrite decide_False, decide_True by tauto. cbn [length]. lia.
  - rewrite decide_True, decide_False by tauto. cbn [length]. lia.
  - rewrite !decide_False by tauto. lia.
  - rewrite !decide_False by tauto. lia.
Qed.

Lemma no_missing_rsid (rs : list (nat * annotated)) (k : value) :
  (forall r, r ∈ rs -> a_chromosome r.2 = k -> a_rsid r.2 ≠ NaN) ->
  filter (fun r => a_chromosome r.2 = k ∧ a_rsid r.2 = NaN) rs = [].
Proof.
  intros Hrsid. destruct (filter _ rs) as [|r l] eqn:E; [done|].
  assert (Hr : r ∈ r :: l) by left. rewrite <- E in Hr.
  apply list_elem_of_filter in Hr as [[Hchr Hnull] Hr].
  by destruct (Hrsid r Hr Hchr).
Qed.

End StatsFacts.

(** ** The drivers *)

Module DriverFacts.
Import Engine Cluster Annotate Runs.

(** *** Steps that log nothing *)

Lemma quiet_ret {A : Type} (a : A) : quiet (ret a).
Proof. by intros w. Qed.

Lemma quiet_lift {A : Type} (r : result A) : quiet (lift r).
Proof. by intros w. Qed.

Lemma quiet_read (fp : string) (dtype : list (string * dtype_spec)) :
  quiet (read fp dtype).
Proof. by intros w. Qed.

Lemma quiet_submit (c : Task.t) : quiet (submit c).
Proof. by intros w. Qed.

Lemma quiet_bind {A B : Type} (m : io A) (k : A -> io B) :
  quiet m -> (forall a, quiet (k a)) -> quiet (bind_io m k).
Proof.
  intros Hm Hk w. unfold bind_io. specialize (Hm w).
  destruct (m w) as [w1 [a|e]]; [|done].
  by rewrite (Hk a w1).
Qed.

Create HintDb quiet_db.
#[local] Hint Resolve quiet_ret quiet_lift quiet_read quiet_submit quiet_bind : quiet_db.
#[local] Hint Unfold persist scatter read_processed_variants read_processed_genes
  : quiet_db.

(** *** Steps that submit nothing about statistics *)

Lemma no_stats_same {A : Type} (m : io A) :
  (forall w, tasks (m w).1 = tasks w) -> no_stats m.
Proof. intros Hm w. exists []. by rewrite app_nil_r. Qed.

Lemma no_stats_ret {A : Type} (a : A) : no_stats (ret a).
Proof. by apply no_stats_same. Qed.

Lemma no_stats_lift {A : Type} (r : result A) : no_stats (lift r).
Proof. by apply no_stats_same. Qed.

Lemma no_stats_read (fp : string) (dtype : list (string * dtype_spec)) :
  no_stats (read fp dtype).
Proof. by apply no_stats_same. Qed.

Lemma no_stats_info (msg : string) : no_stats (info msg).
Proof. by apply no_stats_same. Qed.

Lemma no_stats_submit (c : Task.t) : Task.is_stats c = false -> no_stats (submit c).
Proof. intros Hc w. exists [c]. split; [done|]. by constructor. Qed.

Lemma no_stats_bind {A B : Type} (m : io A) (k : A -> io B) :
  no_stats m -> (forall a, no_stats (k a)) -> no_stats (bind_io m k).
Proof.
  intros Hm Hk w. unfold bind_io. destruct (Hm w) as (new1 & Ht1 & Hn1).
  destruct (m w) as [w1 [a|e]]; [|by exists new1].
  destruct (Hk a w1) as (new2 & Ht2 & Hn2).
  exists (new1 ++ new2). split.
  - rewrite Ht2. cbn [fst] in Ht1. by rewrite Ht1, app_assoc.
  - by apply Forall_app.
Qed.

Create HintDb stats_db.
#[local] Hint Resolve no_stats_ret no_stats_lift no_stats_read no_stats_info
  no_stats_submit no_stats_bind : stats_db.
#[local] Hint Unfold persist scatter read_processed_variants read_processed_genes
  : stats_db.

Section hg38.
Context (variant_dir gene_fp annotated_dir intergenic_dir : string).

Lemma hg38_chromosome_no_stats (chrom : string) :
  no_stats (hg38_chromosome variant_dir gene_fp annotated_dir intergenic_dir chrom).
Proof.
  unfold hg38_chromosome.
  repeat (apply no_stats_bind; [autounfold with stats_db; auto with stats_db|intros ?]).
  auto with stats_db.
Qed.

Lemma hg38_loop_no_stats (chromosomes : list string)
    (annotated intergenic : list Task.Future) :
  no_stats (hg38_loop variant_dir gene_fp annotated_dir intergenic_dir chromosomes
              annotated intergenic).
Proof.
  revert annotated intergenic.
  induction chromosomes as [|chrom rest IH]; intros annotated intergenic.
  - apply no_stats_ret.
  - cbn [hg38_loop]. apply no_stats_bind; [apply hg38_chromosome_no_stats|].
    intros fps. destruct (String.eqb chrom "3"); [apply no_stats_ret|apply IH].
Qed.

(** A turn that comes to its end has logged its start and submitted the
    consolidation of the two output files of its chromosome. *)
Lemma hg38_chromosome_ok (chrom : string) (w w1 : world)
    (fps : Task.Future * Task.Future) :
  hg38_chromosome variant_dir gene_fp annotated_dir intergenic_dir chrom w
  = (w1, Ok fps) ->
  messages w1 = messages w ++ [starting chrom]
  /\ exists new, tasks w1 = tasks w ++ new
       /\ destinations new = outputs annotated_dir intergenic_dir chrom.
Proof.
  unfold hg38_chromosome, bind_io, info, read_processed_variants,
    read_processed_genes, read, lift, persist, scatter, submit, ret.
  cbn [files tasks messages].
  repeat match goal with
         | |- context [match ?r with Ok _ => _ | Raise _ => _ end] =>
             destruct r; [|discriminate]
         end.
  intros [= <- <-]. cbn [messages tasks]. split; [done|].
  eexists. rewrite <- !app_assoc. split; [done|]. done.
Qed.

Lemma hg38_loop_ok (chromosomes : list string)
    (annotated intergenic annotated' intergenic' : list Task.Future)
    (w w1 : world) :
  hg38_loop variant_dir gene_fp annotated_dir intergenic_dir chromosomes
    annotated intergenic w = (w1, Ok (annotated', intergenic')) ->
  messages w1 = messages w ++ map starting (processed chromosomes)
  /\ (exists new, tasks w1 = tasks w ++ new
        /\ destinations new
           = flat_map (outputs annotated_dir intergenic_dir) (processed chromosomes))
  /\ length annotated' = length annotated + length (processed chromosomes)
  /\ length intergenic' = length intergenic + length (processed chromosomes).
Proof.
  revert annotated intergenic w.
  induction chromosomes as [|chrom rest IH]; intros annotated intergenic w.
  - cbn. intros [= <- <- <-]. rewrite !app_nil_r. split_and!; try done; try lia.
    exists []. by rewrite app_nil_r.
  - cbn [hg38_loop processed]. unfold bind_io.
    destruct (hg38_chromosome _ _ _ _ chrom w) as [w2 [fps|e]] eqn:Hturn;
      [|discriminate].
    apply hg38_chromosome_ok in Hturn as (Hmsg & new & Htasks & Hdest).
    destruct (String.eqb chrom "3").
    + intros [= <- <- <-]. rewrite !length_app. cbn [length map flat_map].
      rewrite app_nil_r. split_and!; try done; try lia. by exists new.
    + intros Hrest. apply IH in Hrest as (Hmsg' & (new' & Htasks' & Hdest') & Ha & Hi).
      rewrite !length_app in Ha, Hi. cbn [length map flat_map] in *.
      split_and!; try lia.
      * by rewrite Hmsg', Hmsg, <- app_assoc.
      * exists (new ++ new'). split; [by rewrite Htasks', Htasks, app_assoc|].
        unfold destinations in *. by rewrite omap_app, Hdest, Hdest'.
Qed.


End hg38.

(** Build B, for comparison: a run that returns has submitted the writing
    of the statistics file and hands back its future under "stats". *)
Lemma mm10_writes_statistics
    (variant_fp gene_fp annotated_fp intergenic_fp stats_fp : string)
    (w w1 : world) (d : gmap string Task.Future) :
  run_mm10_annotations variant_fp gene_fp annotated_fp intergenic_fp stats_fp w
  = (w1, Ok d) ->
  is_Some (d !! "stats")
  /\ exists stats, Task.write_annotation_stats stats stats_fp ∈ tasks w1.
Proof.
  unfold run_mm10_annotations, bind_io, read_processed_variants,
    read_processed_genes, read, lift, persist, scatter, submit, ret.
  cbn [files tasks messages].
  repeat match goal with
         | |- context [match ?r with Ok _ => _ | Raise _ => _ end] =>
             destruct r; [|discriminate]
         end.
  intros [= <- <-]. cbn [tasks]. split.
  - by eexists.
  - eexists. rewrite !elem_of_app. right. left.
Qed.

End DriverFacts.

(** ** The drivers, turn by turn *)

Module TurnFacts.
Import Engine Cluster Annotate Runs.

Section turn.
Context (variant_dir gene_fp annotated_dir intergenic_dir : string).

(** What a turn of the loop does, in one equation: it logs its start; if
    one of its tables cannot be computed it raises with nothing submitted;
    otherwise it submits its four calls and returns the futures of the two
    consolidations. *)
Lemma hg38_chromosome_spec (chrom : string) (w : world) :
  hg38_chromosome variant_dir gene_fp annotated_dir intergenic_dir chrom w
  = match turn_tables (files w) (variant_file variant_dir chrom) gene_fp with
    | Ok (adf, ndf, idf) =>
        (mkWorld (files w)
           (tasks w ++ turn_calls (length (tasks w)) ndf idf
                         (nth 0 (outputs annotated_dir intergenic_dir chrom) "")
                         (nth 1 (outputs annotated_dir intergenic_dir chrom) ""))
           (messages w ++ [starting chrom]),
         Ok (length (tasks w) + 2, length (tasks w) + 3))
    | Raise e =>
        (mkWorld (files w) (tasks w) (messages w ++ [starting chrom]), Raise e)
    end.
Proof.
  unfold hg38_chromosome, turn_tables, bind_io, info, read_processed_variants,
    read_processed_genes, read, lift, persist, scatter, submit, ret.
  cbn [files tasks messages].
  fold (variant_file variant_dir chrom).
  destruct (read_csv (files w) (variant_file variant_dir chrom) _) as [vdf|e];
    [|done].
  destruct (read_csv (files w) gene_fp []) as [gdf|e]; [|done].
  cbn [bind]. destruct (annotate_variants vdf gdf) as [adf|e]; [|done].
  cbn [bind]. destruct (isolate_annotated_variants adf) as [ndf|e]; [|done].
  cbn [bind]. destruct (isolate_intergenic_variants adf) as [idf|e]; [|done].
  cbn [bind]. unfold turn_calls. cbn [nth outputs].
  rewrite !length_app. cbn [length]. rewrite <- !app_assoc. cbn [app].
  replace (length (tasks w) + 1) with (S (length (tasks w))) by lia.
  replace (S (length (tasks w)) + 1) with (length (tasks w) + 2) by lia.
  by replace (length (tasks w) + 2 + 1) with (length (tasks w) + 3) by lia.
Qed.





Lemma wired_app (ts new : list Task.t) (future : Task.Future) (table : DataFrame)
    (dest : string) :
  wired ts future table dest -> wired (ts ++ new) future table dest.
Proof.
  intros (tmp & Hf & Ht). exists tmp.
  split; rewrite lookup_app_l; try done; by eapply lookup_lt_Some.
Qed.

Lemma turn_calls_wired (ts : list Task.t) (ndf idf : DataFrame)
    (annotated_fp intergenic_fp : string) :
  let ts' := ts ++ turn_calls (length ts) ndf idf annotated_fp intergenic_fp in
  wired ts' (length ts + 2) ndf annotated_fp
  /\ wired ts' (length ts + 3) idf intergenic_fp.
Proof.
  cbn zeta. split.
  - exists (length ts). split.
    + rewrite lookup_app_r by lia.
      by replace (length ts + 2 - length ts) with 2 by lia.
    + rewrite lookup_app_r by lia. by rewrite Nat.sub_diag.
  - exists (S (length ts)). split.
    + rewrite lookup_app_r by lia.
      by replace (length ts + 3 - length ts) with 3 by lia.
    + rewrite lookup_app_r by lia.
      by replace (S (length ts) - length ts) with 1 by lia.
Qed.

(** In a loop that returns, the futures appended for the [k]-th chromosome
    are the consolidations of the saved subsets of that chromosome. *)
Lemma hg38_loop_wiring (chromosomes : list string)
    (annotated intergenic annotated' intergenic' : list Task.Future) (w w1 : world) :
  hg38_loop variant_dir gene_fp annotated_dir intergenic_dir chromosomes
    annotated intergenic w = (w1, Ok (annotated', intergenic')) ->
  exists fa fi new,
    annotated' = annotated ++ fa /\ intergenic' = intergenic ++ fi
    /\ tasks w1 = tasks w ++ new
    /\ forall k chrom, processed chromosomes !! k = Some chrom ->
         exists adf ndf idf a i,
           turn_tables (files w) (variant_file variant_dir chrom) gene_fp
           = Ok (adf, ndf, idf)
           /\ fa !! k = Some a /\ fi !! k = Some i
           /\ wired (tasks w1) a ndf
                (nth 0 (outputs annotated_dir intergenic_dir chrom) "")
           /\ wired (tasks w1) i idf
                (nth 1 (outputs annotated_dir intergenic_dir chrom) "").
Proof.
  revert annotated intergenic w.
  induction chromosomes as [|chrom rest IH]; intros annotated intergenic w.
  - cbn. intros [= <- <- <-]. exists [], [], []. rewrite !app_nil_r.
    split_and!; try done.
  - cbn [hg38_loop processed]. unfold bind_io. rewrite hg38_chromosome_spec.
    destruct (turn_tables _ _ _) as [[[adf ndf] idf]|e] eqn:Htables; [|done].
    cbn [fst snd].
    pose proof (turn_calls_wired (tasks w) ndf idf
                  (nth 0 (outputs annotated_dir intergenic_dir chrom) "")
                  (nth 1 (outputs annotated_dir intergenic_dir chrom) ""))
      as [Hwa Hwi].
    destruct (String.eqb chrom "3").
    + intros [= <- <- <-]. cbn [tasks].
      eexists [_], [_], _. split_and!; try done.
      intros [|k] c Hc; [|done]. injection Hc as <-.
      exists adf, ndf, idf. eexists _, _. by split_and!.
    + intros Hrest. apply IH in Hrest as (fa & fi & new & -> & -> & Ht & Hall).
      cbn [tasks files] in Ht, Hall.
      eexists (_ :: fa), (_ :: fi), (_ ++ new).
      split_and!.
      * by rewrite <- app_assoc.
      * by rewrite <- app_assoc.
      * by rewrite Ht, <- app_assoc.
      * intros [|k] c Hc.
        -- injection Hc as <-. exists adf, ndf, idf. eexists _, _.
           split_and!; try done; rewrite Ht; by apply wired_app.
        -- by apply Hall.
Qed.

End turn.

(** Build B in one equation: nothing is done unless all tables can be
    computed; then the four calls of a turn and the two statistics calls are
    submitted. *)
Lemma run_mm10_spec (variant_fp gene_fp annotated_fp intergenic_fp stats_fp : string)
    (w : world) :
  run_mm10_annotations variant_fp gene_fp annotated_fp intergenic_fp stats_fp w
  = match turn_tables (files w) variant_fp gene_fp with
    | Ok (adf, ndf, idf) =>
        (mkWorld (files w)
           (tasks w
            ++ turn_calls (length (tasks w)) ndf idf annotated_fp intergenic_fp
            ++ [Task.collect_annotation_stats adf;
                Task.write_annotation_stats (length (tasks w) + 4) stats_fp])
           (messages w),
         Ok (<["annotated" := length (tasks w) + 2]>
               (<["intergenic" := length (tasks w) + 3]>
                  (<["stats" := length (tasks w) + 5]> ∅))))
    | Raise e => (w, Raise e)
    end.
Proof.
  unfold run_mm10_annotations, turn_tables, bind_io, read_processed_variants,
    read_processed_genes, read, lift, persist, scatter, submit, ret.
  cbn [files tasks messages].
  destruct (read_csv (files w) variant_fp _) as [vdf|e]; [|done].
  destruct (read_csv (files w) gene_fp []) as [gdf|e]; [|done].
  cbn [bind]. destruct (annotate_variants vdf gdf) as [adf|e] eqn:Hadf; [|done].
  cbn [bind]. apply FrameFacts.annotate_ok_columns in Hadf.
  destruct (FrameFacts.isolate_annotated_ok adf Hadf) as [ndf ->].
  destruct (FrameFacts.isolate_intergenic_ok adf Hadf) as [idf ->].
  cbn [bind]. unfold turn_calls.
  rewrite !length_app. cbn [length]. rewrite <- !app_assoc. cbn [app].
  replace (length (tasks w) + 1) with (S (length (tasks w))) by lia.
  replace (S (length (tasks w)) + 1) with (length (tasks w) + 2) by lia.
  replace (length (tasks w) + 2 + 1) with (length (tasks w) + 3) by lia.
  replace (length (tasks w) + 3 + 1) with (length (tasks w) + 4) by lia.
  by replace (length (tasks w) + 4 + 1) with (length (tasks w) + 5) by lia.
Qed.

End TurnFacts.

Module RunFacts.
Import Engine Cluster Annotate Runs.

Lemma processed_full (chromosomes : list string) :
  "3" ∉ chromosomes -> processed chromosomes = chromosomes.
Proof.
  induction chromosomes as [|chrom rest IH]; [done|].
  intros Hno. cbn [processed]. f_equal.
  destruct (String.eqb_spec chrom "3") as [->|_]; [destruct Hno; left|].
  apply IH. intros Hin. apply Hno. by right.
Qed.

Lemma sample_run_returns : sample_run = (sample_run.1, Ok sample_futures).
Proof. by vm_compute. Qed.

End RunFacts.

(** ** The reader *)

Module ReaderFacts.
Import Engine Cluster Annotate EngineFacts.

Lemma cell_first {A : Type} (cols : list string) (r : list A) (c : string) (j : nat)
    (v : A) :
  cols !! j = Some c ->
  (forall j', j' < j -> cols !! j' ≠ Some c) ->
  r !! j = Some v ->
  cell cols r c = Some v.
Proof.
  revert r j. induction cols as [|c' cols IH]; intros [|x r] [|j] Hc Hfirst Hv;
    simplify_eq/=.
  - by rewrite String.eqb_refl.
  - destruct (String.eqb_spec c c') as [->|Hne].
    + by destruct (Hfirst 0); [lia|].
    + apply (IH r j); [done| |done].
      intros j' Hj'. apply (Hfirst (S j')). lia.
Qed.

(** Under [dtype={'transcript': 'object'}] the transcript cell of every
    record is the text of its field, as it stands in the file, or missing
    when the field is one of the missing-value markers. *)
Lemma transcript_read_as_text (f : tsv_file) (i j : nat) (rec : list string) :
  records f !! i = Some rec ->
  header f !! j = Some "transcript" ->
  (forall j', j' < j -> header f !! j' ≠ Some "transcript") ->
  cells_of (parse f [("transcript", object)]) "transcript" !! i
  = Some (text_cell (nth j rec "")).
Proof.
  intros Hrec Hj Hfirst. unfold cells_of, parse. cbn [rows columns].
  rewrite enumerate_snd, map_map, list_lookup_fmap.
  rewrite (lookup_seq_lt 0) by (by eapply lookup_lt_Some). cbn [fmap option_fmap option_map].
  f_equal. unfold cell_or_nan.
  erewrite cell_first; [done|done|done|].
  rewrite list_lookup_fmap, list_lookup_imap, Hj. cbn.
  f_equal. apply nth_lookup_Some.
  by rewrite !list_lookup_fmap, Hrec.
Qed.

End ReaderFacts.

(** ** The scenarios of the specification *)

Module Scenarios.
Import Engine Schema Annotate Runs.

(** An intergenic variant and no genes. *)
Example scenario_1 :
  summary [variant_of "1" "rs1" "intergenic" None] []
  = Ok (1, 1, 0, [(Str "1", [Some 0%Z; Some 0%Z; Some 1%Z])]).
Proof. by vm_compute. Qed.

(** A missense variant on the transcript of a gene. *)
Example scenario_2 :
  summary [variant_of "1" "rs2" "missense" (Some "T1")] [gene_of "T1" "G1"]
  = Ok (1, 0, 1, [(Str "1", [Some 1%Z; Some 0%Z; Some 0%Z])]).
Proof. by vm_compute. Qed.

(** A missense variant on a transcript no gene has. *)
Example scenario_3 :
  summary [variant_of "1" "rs3" "missense" (Some "T404")] []
  = Ok (1, 0, 0, [(Str "1", [Some 0%Z; Some 1%Z; Some 0%Z])]).
Proof. by vm_compute. Qed.

(** Two gene rows of one gene on the transcript of a variant. *)
Example scenario_4 :
  summary [variant_of "1" "rs2" "missense" (Some "T1")]
    [gene_of "T1" "G1"; gene_of "T1" "G1"]
  = Ok (1, 0, 1, [(Str "1", [Some 1%Z; Some 0%Z; Some 0%Z])]).
Proof. by vm_compute. Qed.

End Scenarios.

(** * The annotation stage, statement by statement *)

Import Engine Schema Annotate Rows.

(** C8. Dropping duplicates on the key (rsid, variant_effect, gene_id),
    keeping the first row, is idempotent: on every table, doing it twice
    gives the same outcome (the same table, or the same error) as doing it
    once. *)
Theorem dedup_idempotent (df : DataFrame) :
  (let! d := drop_duplicates df duplicate_subset in drop_duplicates d duplicate_subset)
  = drop_duplicates df duplicate_subset.
Proof. apply DedupFacts.drop_duplicates_idem. Qed.

(** C2. After the merge, [annotate_variants] renames, drops duplicates on
    (rsid, variant_effect, gene_id) and chooses its columns; [annotate_merged]
    is these statements.  Whatever merged frame they get, in whatever order
    and under whatever labels its rows are, the table they return has each
    triple at most once, every triple of the merged frame is still there,
    and the rows kept are, in their order, the rows at those positions of
    the merged frame before which their triple does not occur: the
    first-seen occurrence of every triple.  When the merged frame is the
    join of a variant table with a gene table, the table is what
    [annotate_variants] returns for the two. *)
Theorem annotate_variants_first_seen (merged out : DataFrame)
    (Hout : annotate_merged merged = Ok out) :
  let before := rename merged renamed_columns in
  let key := project_row (columns before) duplicate_subset in
  NoDup (keys_of out duplicate_subset)
  /\ (forall k, k ∈ keys_of before duplicate_subset -> k ∈ keys_of out duplicate_subset)
  /\ (exists kept : list nat,
        StronglySorted lt kept
        /\ rows out
           = map (fun r => (r.1, project_row (columns before) (columns out) r.2))
               (rows_at before kept)
        /\ forall p i r, rows before !! p = Some (i, r) ->
             (p ∈ kept <-> forall q j r', q < p -> rows before !! q = Some (j, r') ->
                             key r' ≠ key r))
  /\ (forall vdf gdf,
        merge_left vdf gdf "transcript" "transcript_id" ("_l", "_r") = Ok merged ->
        annotate_variants vdf gdf = Ok out).
Proof.
  cbn zeta.
  assert (Hlast : forall vdf gdf,
            merge_left vdf gdf "transcript" "transcript_id" ("_l", "_r") = Ok merged ->
            annotate_variants vdf gdf = Ok out).
  { intros vdf gdf Hmerge. unfold annotate_variants. rewrite Hmerge. exact Hout. }
  set (before := rename merged renamed_columns).
  set (key := project_row (columns before) duplicate_subset).
  unfold annotate_merged in Hout. fold before in Hout.
  destruct (drop_duplicates before duplicate_subset) as [d|e] eqn:Hd; [|done].
  cbn [bind] in Hout.
  apply EngineFacts.drop_duplicates_rows in Hd as [Hcols Hrows].
  fold key in Hrows.
  unfold getitem in Hout. destruct (missing _ _); [done|].
  assert (Heq : out = mkFrame output_columns
                        (map (fun r => (r.1, project_row (columns d) output_columns r.2))
                           (rows d))) by congruence.
  clearbody before. clear Hout. subst out. cbn [rows columns]. rewrite Hcols, Hrows.
  rewrite Hcols, Hrows in Hlast.
  assert (Hkeys : keys_of
            (mkFrame output_columns
               (map (fun r => (r.1, project_row (columns before) output_columns r.2))
                  (keep_first (fun r => key r.2) [] (rows before))))
            duplicate_subset
          = map (fun r => key r.2) (keep_first (fun r => key r.2) [] (rows before))).
  { unfold keys_of. cbn [rows columns]. rewrite !map_map. apply map_ext.
    intros r. cbn [fst snd]. apply FrameFacts.project_projected.
    intros c Hc. revert Hc. unfold duplicate_subset, output_columns. set_solver. }
  rewrite Hkeys. split_and!.
  - apply EngineFacts.keep_first_NoDup.
  - unfold keys_of. rewrite map_map.
    intros k (r & -> & Hr)%list_elem_of_fmap.
    apply (EngineFacts.keep_first_complete (fun r => key r.2)); [done|].
    apply not_elem_of_nil.
  - set (e := keep_first (fun ix : nat * (nat * list value) => key ix.2.2) []
                (enumerate (rows before))).
    assert (He : forall ix, ix ∈ e -> rows before !! ix.1 = Some ix.2).
    { intros [p x] Hx. apply EngineFacts.enumerate_elem_of.
      eapply elem_of_sublist; [exact Hx|]. apply EngineFacts.keep_first_sublist. }
    assert (Hsnd : map snd e = keep_first (fun r => key r.2) [] (rows before)).
    { unfold e.
      rewrite <- (EngineFacts.enumerate_snd (rows before)) at 2.
      by rewrite EngineFacts.keep_first_map. }
    exists (map fst e). split_and!.
    + eapply EngineFacts.StronglySorted_sublist;
        [|apply (EngineFacts.StronglySorted_seq 0 (length (rows before)))].
      rewrite <- EngineFacts.enumerate_fst. apply fmap_sublist.
      apply EngineFacts.keep_first_sublist.
    + unfold rows_at. by rewrite (EngineFacts.omap_lookup_fst _ e He), Hsnd.
    + intros p i r Hp. split.
      * intros ([p' x] & -> & Hx)%list_elem_of_fmap. cbn in Hp.
        pose proof (He _ Hx) as Hx'. cbn in Hx'. rewrite Hp in Hx'.
        injection Hx' as <-.
        apply EngineFacts.keep_first_first in Hx as (n & Hn & Hbefore).
        apply EngineFacts.enumerate_lookup in Hn as [-> _].
        intros q j r' Hq Hr'.
        apply (Hbefore q (q, (j, r'))); [done|].
        by apply EngineFacts.enumerate_lookup.
      * intros Hfirst. apply list_elem_of_fmap. exists (p, (i, r)). split; [done|].
        apply (EngineFacts.keep_first_kept _ _ _ p).
        -- by apply EngineFacts.enumerate_lookup.
        -- apply not_elem_of_nil.
        -- intros q [q' [j r']] Hq [-> Hr']%EngineFacts.enumerate_lookup.
           cbn. by eapply Hfirst.
  - exact Hlast.
Qed.

Lemma annotate_variants_first_seen_witness :
  annotate_merged Runs.two_piece_join = Ok Runs.two_piece_annotated
  /\ let before := rename Runs.two_piece_join renamed_columns in
     let key := project_row (columns before) duplicate_subset in
     NoDup (keys_of Runs.two_piece_annotated duplicate_subset)
     /\ (forall k, k ∈ keys_of before duplicate_subset ->
           k ∈ keys_of Runs.two_piece_annotated duplicate_subset)
     /\ (exists kept : list nat,
           StronglySorted lt kept
           /\ rows Runs.two_piece_annotated
              = map (fun r => (r.1, project_row (columns before)
                                      (columns Runs.two_piece_annotated) r.2))
                  (rows_at before kept)
           /\ forall p i r, rows before !! p = Some (i, r) ->
                (p ∈ kept <-> forall q j r', q < p -> rows before !! q = Some (j, r') ->
                                key r' ≠ key r))
     /\ (forall vdf gdf,
           merge_left vdf gdf "transcript" "transcript_id" ("_l", "_r")
           = Ok Runs.two_piece_join ->
           annotate_variants vdf gdf = Ok Runs.two_piece_annotated).
Proof.
  assert (H : annotate_merged Runs.two_piece_join = Ok Runs.two_piece_annotated)
    by (vm_compute; reflexivity).
  split; [exact H|].
  exact (annotate_variants_first_seen Runs.two_piece_join Runs.two_piece_annotated H).
Defined.

(** Which row is the first-seen one depends on the order of the merged
    frame: of the two rows of one triple, the join in one piece keeps the
    row of transcript T1, the join in two pieces the row of transcript
    T2. *)
Example first_seen_follows_the_join :
  (exists out,
     annotate_variants (variant_frame two_transcript_variants)
       (gene_frame two_transcript_genes) = Ok out
     /\ cells_of out "transcript" = [Str "T1"])
  /\ (exists out,
        annotate_merged Runs.two_piece_join = Ok out
        /\ cells_of out "transcript" = [Str "T2"]).
Proof. split; eexists; split; by vm_compute. Qed.

(** C1. The intergenic rows, the mapped rows and the failed-mapping rows of
    an annotated table together are the table, without overlap.  What
    [annotate_variants] returns, for two tables or for a merged frame in
    any order and labelling, has the seven output columns; and for every
    frame with these columns, whatever its rows, their order and their
    labels (labels may repeat): every
    position of the table belongs to exactly one of three lists of
    positions; [isolate_intergenic_variants] returns the rows at the first
    list, [isolate_annotated_variants] those at the second, each restricted
    to the columns it keeps, and the failed-mapping selection those at the
    third; and which list a position belongs to is decided by the
    variant_effect and the gene_id of its row. *)
Theorem three_way_split (all : DataFrame) :
  ((exists vdf gdf, annotate_variants vdf gdf = Ok all)
   \/ (exists merged, annotate_merged merged = Ok all) ->
   forall c, c ∈ output_columns -> c ∈ columns all)
  /\ ((forall c, c ∈ output_columns -> c ∈ columns all) ->
  exists (intergenic mapped failed : DataFrame) (pi pm pf : list nat),
    isolate_intergenic_variants all = Ok intergenic
    /\ isolate_annotated_variants all = Ok mapped
    /\ failed_mapping all = Ok failed
    /\ pi ++ pm ++ pf ≡ₚ seq 0 (length (rows all))
    /\ rows intergenic
       = map (fun r => (r.1, project_row (columns all) (columns intergenic) r.2))
           (rows_at all pi)
    /\ rows mapped
       = map (fun r => (r.1, project_row (columns all) (columns mapped) r.2))
           (rows_at all pm)
    /\ rows failed = rows_at all pf
    /\ forall p i r, rows all !! p = Some (i, r) ->
         let effect := cell_or_nan (columns all) r "variant_effect" in
         let gene := cell_or_nan (columns all) r "gene_id" in
         (p ∈ pi <-> effect = Str "intergenic")
         /\ (p ∈ pm <-> effect ≠ Str "intergenic" /\ gene ≠ NaN)
         /\ (p ∈ pf <-> effect ≠ Str "intergenic" /\ gene = NaN)).
Proof.
  split.
  { intros [(vdf & gdf & Hall)|(merged & Hall)] c Hc.
    - by rewrite (FrameFacts.annotate_ok_columns _ _ _ Hall).
    - by rewrite (FrameFacts.annotate_merged_columns _ _ Hall). }
  intros Hcols.
  set (P := fun r : nat * list value =>
              cell_or_nan (columns all) r.2 "variant_effect" = Str "intergenic").
  set (Q := fun r : nat * list value => cell_or_nan (columns all) r.2 "gene_id" ≠ NaN).
  exists (mkFrame ["chromosome"; "rsid"; "variant_effect"]
            (map (fun r => (r.1, project_row (columns all)
                                   ["chromosome"; "rsid"; "variant_effect"] r.2))
               (filter P (rows all)))),
         (mkFrame ["chromosome"; "rsid"; "variant_effect";
                   "gene_id"; "gene_name"; "gene_biotype"]
            (map (fun r => (r.1, project_row (columns all)
                                   ["chromosome"; "rsid"; "variant_effect";
                                    "gene_id"; "gene_name"; "gene_biotype"] r.2))
               (filter (fun r => ¬ P r ∧ Q r) (rows all)))),
         (mkFrame (columns all) (filter (fun r => ¬ P r ∧ ¬ Q r) (rows all))),
         (positions_where P (rows all)),
         (positions_where (fun r => ¬ P r ∧ Q r) (rows all)),
         (positions_where (fun r => ¬ P r ∧ ¬ Q r) (rows all)).
  split.
  { apply FrameFacts.isolate_intergenic_selection.
    intros c Hc. apply Hcols. revert Hc. unfold output_columns. set_solver. }
  split.
  { apply FrameFacts.isolate_annotated_selection.
    intros c Hc. apply Hcols. revert Hc. unfold output_columns. set_solver. }
  split.
  { apply FrameFacts.failed_mapping_selection.
    intros c Hc. apply Hcols. revert Hc. unfold output_columns. set_solver. }
  split; [apply FrameFacts.positions_where_split|].
  unfold rows_at. cbn [rows columns].
  rewrite !FrameFacts.positions_where_rows.
  split_and!; try done.
  intros p i r Hp. cbn zeta.
  rewrite !FrameFacts.positions_where_elem.
  split_and!.
  - split; [intros (x & Hx & HP); by simplify_eq|]. intros HP. by exists (i, r).
  - split; [intros (x & Hx & HP); by simplify_eq|]. intros HP. by exists (i, r).
  - split.
    + intros (x & Hx & HP & HQ). simplify_eq. split; [done|].
      unfold Q in HQ. cbn in HQ.
      by destruct (decide (cell_or_nan (columns all) r "gene_id" = NaN)).
    + intros [HP HQ]. exists (i, r). split; [done|]. split; [done|].
      unfold Q. cbn. intros Hne. by apply Hne.
Qed.

Lemma three_way_split_witness :
  (forall c, c ∈ output_columns -> c ∈ columns (annotated_frame two_piece_table))
  /\ exists (intergenic mapped failed : DataFrame) (pi pm pf : list nat),
       isolate_intergenic_variants (annotated_frame two_piece_table) = Ok intergenic
       /\ isolate_annotated_variants (annotated_frame two_piece_table) = Ok mapped
       /\ failed_mapping (annotated_frame two_piece_table) = Ok failed
       /\ pi ++ pm ++ pf ≡ₚ seq 0 (length (rows (annotated_frame two_piece_table)))
       /\ rows intergenic
          = map (fun r => (r.1, project_row (columns (annotated_frame two_piece_table))
                                  (columns intergenic) r.2))
              (rows_at (annotated_frame two_piece_table) pi)
       /\ rows mapped
          = map (fun r => (r.1, project_row (columns (annotated_frame two_piece_table))
                                  (columns mapped) r.2))
              (rows_at (annotated_frame two_piece_table) pm)
       /\ rows failed = rows_at (annotated_frame two_piece_table) pf
       /\ forall p i r, rows (annotated_frame two_piece_table) !! p = Some (i, r) ->
            let effect :=
              cell_or_nan (columns (annotated_frame two_piece_table)) r "variant_effect" in
            let gene :=
              cell_or_nan (columns (annotated_frame two_piece_table)) r "gene_id" in
            (p ∈ pi <-> effect = Str "intergenic")
            /\ (p ∈ pm <-> effect ≠ Str "intergenic" /\ gene ≠ NaN)
            /\ (p ∈ pf <-> effect ≠ Str "intergenic" /\ gene = NaN).
Proof.
  assert (Hcols : forall c, c ∈ output_columns ->
                    c ∈ columns (annotated_frame two_piece_table))
    by (intros c Hc; exact Hc).
  split; [exact Hcols|].
  exact (proj2 (three_way_split (annotated_frame two_piece_table)) Hcols).
Defined.

(** On the table in two pieces the three lists of positions are 0, 3, 6 and
    1, 4 and 2, 5, although the labels 0 and 1 occur twice. *)
Example two_piece_split :
  isolate_intergenic_variants (annotated_frame two_piece_table)
  = Ok (mkFrame ["chromosome"; "rsid"; "variant_effect"]
          [(0, [Str "1"; Str "rs1"; Str "intergenic"]);
           (2, [Str "2"; Str "rs4"; Str "intergenic"]);
           (1, [Str "10"; Str "rs7"; Str "intergenic"])])
  /\ exists mapped failed,
       isolate_annotated_variants (annotated_frame two_piece_table) = Ok mapped
       /\ failed_mapping (annotated_frame two_piece_table) = Ok failed
       /\ labels mapped = [4; 3] /\ labels failed = [1; 0].
Proof. split; [by vm_compute|]. eexists _, _. split_and!; by vm_compute. Qed.

(** C3, as the code has it.  [annotate_variants] computes a left outer join
    of the variant rows (left) with the gene rows on
    [transcript = transcript_id]: the merged rows are exactly the variant
    rows paired with a matching gene row, or with nothing when no gene row
    matches, so every variant row appears in the join before deduplication.
    The result has exactly the seven columns chromosome, rsid,
    variant_effect, transcript, gene_id, gene_name, gene_biotype; each of
    its rows is such a pair, with the chromosome of the variant side; and
    after deduplication every variant row still has a row of its rsid and
    effect in the result. *)
Theorem annotate_variants_left_join (vs : list variant) (gs : list gene) :
  exists merged out : DataFrame,
    merge_left (variant_frame vs) (gene_frame gs) "transcript" "transcript_id" ("_l", "_r")
    = Ok merged
    /\ annotate_variants (variant_frame vs) (gene_frame gs) = Ok out
    /\ (forall r, r ∈ map snd (rows merged) <->
          exists v og, v ∈ vs /\ left_outer_match gs v og /\ r = pair_row (v, og))
    /\ (forall v, v ∈ vs -> appears_in v (rename merged renamed_columns))
    /\ columns out = ["chromosome"; "rsid"; "variant_effect"; "transcript";
                      "gene_id"; "gene_name"; "gene_biotype"]
    /\ (forall i r, (i, r) ∈ rows out ->
          exists v og, v ∈ vs /\ left_outer_match gs v og
            /\ r = [v_chromosome v; v_rsid v; v_effect v; v_transcript v;
                    gene_cell g_gene_id og; gene_cell g_gene_name og;
                    gene_cell g_biotype og])
    /\ (forall v, v ∈ vs ->
          exists i r, (i, r) ∈ rows out
            /\ cell_or_nan (columns out) r "rsid" = v_rsid v
            /\ cell_or_nan (columns out) r "variant_effect" = v_effect v).
Proof.
  eexists _, _. split; [apply JoinFacts.merge_rows|].
  split; [apply JoinFacts.annotate_variants_rows|].
  unfold rename, annotated_frame. cbn [columns rows].
  change (map _ merged_header) with renamed_header.
  rewrite EngineFacts.enumerate_snd. split_and!.
  - intros r. rewrite list_elem_of_fmap. split.
    + intros ([v og] & -> & Hp). apply JoinFacts.join_pairs_spec in Hp as [Hv Hog]. eauto.
    + intros (v & og & Hv & Hog & ->). exists (v, og). split; [done|].
      by apply JoinFacts.join_pairs_spec.
  - intros v Hv. destruct (JoinFacts.join_pairs_total vs gs v Hv) as [og Hp].
    apply list_elem_of_lookup in Hp as [p Hp].
    exists p, (pair_row (v, og)). split; [|done]. cbn [rows].
    apply EngineFacts.enumerate_elem_of. by rewrite list_lookup_fmap, Hp.
  - done.
  - intros i r ([i' a] & Heq & Ha)%list_elem_of_fmap.
    cbn in Heq. injection Heq as -> ->.
    eapply elem_of_sublist in Ha; [|apply EngineFacts.keep_first_sublist].
    apply list_elem_of_lookup in Ha as [p Hp].
    apply DedupFacts.joined_lookup in Hp as (-> & [v og] & Hp & ->).
    apply list_elem_of_lookup_2, JoinFacts.join_pairs_spec in Hp as [Hv Hog].
    by exists v, og.
  - intros v Hv. destruct (JoinFacts.join_pairs_total vs gs v Hv) as [og Hp].
    apply list_elem_of_lookup in Hp as [p Hp].
    assert (Hj : (p, annotate_pair (v, og)) ∈ joined vs gs).
    { apply list_elem_of_lookup. exists p. apply DedupFacts.joined_lookup. eauto. }
    apply (EngineFacts.keep_first_complete (fun r => triple r.2) []) in Hj;
      [|apply not_elem_of_nil].
    apply list_elem_of_fmap in Hj as ([i a] & Hk & Ha).
    cbn in Hk. injection Hk as Hrsid Heffect _.
    exists i, (annotated_row a). split.
    + by apply (list_elem_of_fmap_2' (fun r => (r.1, annotated_row r.2)) _ (i, a)).
    + by split.
Qed.

(** C3 as stated fails: with two variant rows of one rsid and effect on two
    transcripts of one gene, the row of the second transcript is dropped as a
    duplicate and appears nowhere in the result. *)
Lemma variant_row_lost_to_dedup :
  exists out : DataFrame,
    annotate_variants (variant_frame two_transcript_variants)
      (gene_frame two_transcript_genes) = Ok out
    /\ ~ (forall v, v ∈ two_transcript_variants -> appears_in v out).
Proof.
  eexists. split; [vm_compute; reflexivity|].
  intros Hall.
  destruct (Hall (mkVariant (Str "1") (Str "rs1") (Num 100) (Num 100) (Str "A/G") NaN
                    (Str "missense") (Some "T2"))) as (i & r & Hin & Hr).
  { right; left. }
  apply list_elem_of_singleton in Hin. injection Hin as -> ->.
  vm_compute in Hr. discriminate Hr.
Qed.

(** C5. For every annotated table the statistics table has the three count
    columns and one row per chromosome of the table (each non-missing
    chromosome once, and nothing else); every column is an [int64] column
    with a value in every row; and where a chromosome has no row of a
    category, that count is 0. *)
Theorem stats_one_row_per_chromosome (rs : list (nat * annotated)) :
  exists stats : NumFrame,
    collect_annotation_stats (annotated_frame rs) = Ok stats
    /\ num_columns stats = ["intra_mapped"; "intra_failed"; "intergenic"]
    /\ length (data stats) = 3
    /\ NoDup (index stats)
    /\ (forall k, k ∈ index stats
          <-> k ≠ NaN /\ k ∈ cells_of (annotated_frame rs) "chromosome")
    /\ Forall (fun col => col_dtype col = int64
                          /\ length (col_cells col) = length (index stats)
                          /\ Forall is_Some (col_cells col)) (data stats)
    /\ forall k, k ∈ index stats ->
         ((forall r, r ∈ rs -> a_chromosome r.2 = k -> ~ is_mapped r.2) ->
            loc stats k "intra_mapped" = Some 0%Z)
         /\ ((forall r, r ∈ rs -> a_chromosome r.2 = k -> ~ is_failed r.2) ->
               loc stats k "intra_failed" = Some 0%Z)
         /\ ((forall r, r ∈ rs -> a_chromosome r.2 = k -> ~ is_intergenic r.2) ->
               loc stats k "intergenic" = Some 0%Z).
Proof.
  eexists. split; [apply StatsFacts.collect_annotation_stats_typed|].
  cbn [num_columns data index length].
  split; [done|]. split; [done|].
  split; [apply StatsFacts.sorted_labels_NoDup|].
  split.
  { intros k. rewrite StatsFacts.stats_index_elem, PartitionFacts.annotated_cells.
    rewrite list_elem_of_fmap. naive_solver. }
  split.
  { repeat constructor; unfold count_column; cbn [col_cells];
      rewrite ?length_map; try done;
      apply Forall_fmap, Forall_forall; by eexists. }
  intros k Hk.
  assert (Hzero : forall (P : annotated -> Prop) `{!forall a, Decision (P a)},
             (forall r, r ∈ rs -> a_chromosome r.2 = k -> ~ P r.2) ->
             counted P k rs = 0%Z).
  { intros P HP Hnone. apply StatsFacts.counted_absent.
    - by apply StatsFacts.stats_index_elem in Hk as [Hk _].
    - intros (_ & r & Hr & HPr & Hchr)%StatsFacts.category_labels_elem.
      by apply (Hnone r). }
  split_and!; intros Hnone.
  - rewrite (StatsFacts.loc_count_column _ _ _ rs _ k is_mapped) by done.
    f_equal. by apply Hzero.
  - rewrite (StatsFacts.loc_count_column _ _ _ rs _ k is_failed) by done.
    f_equal. by apply Hzero.
  - rewrite (StatsFacts.loc_count_column _ _ _ rs _ k is_intergenic) by done.
    f_equal. by apply Hzero.
Qed.

(** C10. The statistics table has a row for every chromosome of the
    annotated table, and each of its three statistics is the number of rows
    of that category on the chromosome whose rsid is not missing.  A row with
    a missing rsid is in none of them: the table computed without these rows
    has the same counts wherever it has a row, and the three counts of a
    chromosome fall short of the number of its rows by exactly the number of
    its rows without rsid. *)
Theorem stats_count_rows_with_rsid (rs : list (nat * annotated)) :
  exists stats with_rsid : NumFrame,
    collect_annotation_stats (annotated_frame rs) = Ok stats
    /\ collect_annotation_stats
         (annotated_frame (filter (fun r => a_rsid r.2 ≠ NaN) rs)) = Ok with_rsid
    /\ (forall k, k ∈ index stats
          <-> k ≠ NaN /\ exists r, r ∈ rs /\ a_chromosome r.2 = k)
    /\ (forall k, k ∈ index stats ->
          let rows_of (P : annotated -> Prop) `{!forall a, Decision (P a)} :=
            filter (fun r : nat * annotated =>
                      a_chromosome r.2 = k ∧ a_rsid r.2 ≠ NaN ∧ P r.2) rs in
          exists m f i : Z,
            loc stats k "intra_mapped" = Some m
            /\ loc stats k "intra_failed" = Some f
            /\ loc stats k "intergenic" = Some i
            /\ m = Z.of_nat (length (rows_of is_mapped))
            /\ f = Z.of_nat (length (rows_of is_failed))
            /\ i = Z.of_nat (length (rows_of is_intergenic))
            /\ (m + f + i
                + Z.of_nat (length (filter (fun r => a_chromosome r.2 = k ∧ a_rsid r.2 = NaN)
                                      rs)))%Z
               = Z.of_nat (length (filter (fun r => a_chromosome r.2 = k) rs)))
    /\ (forall k c, k ∈ index with_rsid ->
          c ∈ ["intra_mapped"; "intra_failed"; "intergenic"] ->
          k ∈ index stats /\ loc with_rsid k c = loc stats k c).
Proof.
  eexists _, _.
  split; [apply StatsFacts.collect_annotation_stats_typed|].
  split; [apply StatsFacts.collect_annotation_stats_typed|].
  cbn [index]. split_and!.
  - apply StatsFacts.stats_index_elem.
  - intros k Hk. cbn zeta.
    exists (counted is_mapped k rs), (counted is_failed k rs),
      (counted is_intergenic k rs).
    split_and!.
    + by apply (StatsFacts.loc_count_column _ _ _ rs _ k is_mapped).
    + by apply (StatsFacts.loc_count_column _ _ _ rs _ k is_failed).
    + by apply (StatsFacts.loc_count_column _ _ _ rs _ k is_intergenic).
    + apply StatsFacts.counted_explicit.
    + apply StatsFacts.counted_explicit.
    + apply StatsFacts.counted_explicit.
    + rewrite StatsFacts.counted_sum.
      rewrite <- (StatsFacts.rows_with_and_without_rsid rs k). lia.
  - intros k c Hk Hc.
    pose proof (StatsFacts.stats_index_with_rsid _ _ Hk) as Hk'.
    split; [done|].
    repeat (apply elem_of_cons in Hc as [->|Hc]).
    + rewrite (StatsFacts.loc_count_column _ _ _ _ _ k is_mapped) by done.
      rewrite (StatsFacts.loc_count_column _ _ _ rs _ k is_mapped) by done.
      by rewrite StatsFacts.counted_with_rsid.
    + rewrite (StatsFacts.loc_count_column _ _ _ _ _ k is_failed) by done.
      rewrite (StatsFacts.loc_count_column _ _ _ rs _ k is_failed) by done.
      by rewrite StatsFacts.counted_with_rsid.
    + rewrite (StatsFacts.loc_count_column _ _ _ _ _ k is_intergenic) by done.
      rewrite (StatsFacts.loc_count_column _ _ _ rs _ k is_intergenic) by done.
      by rewrite StatsFacts.counted_with_rsid.
    + by apply elem_of_nil in Hc.
Qed.

(** C4, as the code has it.  For a chromosome of an annotated table all of
    whose rows on that chromosome have an rsid, the statistics table has a
    row for the chromosome, and its three counts add up to the number of rows
    of the table on that chromosome. *)
Theorem stats_sum_is_row_count (rs : list (nat * annotated)) (k : value)
    (Hk : k ≠ NaN)
    (Hpresent : k ∈ cells_of (annotated_frame rs) "chromosome")
    (Hrsid : forall r, r ∈ rs -> a_chromosome r.2 = k -> a_rsid r.2 ≠ NaN) :
  exists (stats : NumFrame) (m f i : Z),
    collect_annotation_stats (annotated_frame rs) = Ok stats
    /\ k ∈ index stats
    /\ loc stats k "intra_mapped" = Some m
    /\ loc stats k "intra_failed" = Some f
    /\ loc stats k "intergenic" = Some i
    /\ (m + f + i)%Z = Z.of_nat (length (filter (fun r => a_chromosome r.2 = k) rs)).
Proof.
  eexists _, (counted is_mapped k rs), (counted is_failed k rs),
    (counted is_intergenic k rs).
  split; [apply StatsFacts.collect_annotation_stats_typed|].
  cbn [index].
  assert (Hin : k ∈ stats_index rs).
  { apply StatsFacts.stats_index_elem. split; [done|].
    rewrite PartitionFacts.annotated_cells in Hpresent.
    apply list_elem_of_fmap in Hpresent as (r & -> & Hr). by exists r. }
  split_and!; try done.
  - by apply (StatsFacts.loc_count_column _ _ _ rs _ k is_mapped).
  - by apply (StatsFacts.loc_count_column _ _ _ rs _ k is_failed).
  - by apply (StatsFacts.loc_count_column _ _ _ rs _ k is_intergenic).
  - rewrite StatsFacts.counted_sum.
    rewrite <- (StatsFacts.rows_with_and_without_rsid rs k).
    rewrite (StatsFacts.no_missing_rsid rs k Hrsid). cbn [length]. lia.
Qed.

Lemma stats_sum_is_row_count_witness :
  Str "1" ≠ NaN
  /\ Str "1" ∈ cells_of (annotated_frame three_category_table) "chromosome"
  /\ (forall r, r ∈ three_category_table -> a_chromosome r.2 = Str "1" -> a_rsid r.2 ≠ NaN)
  /\ exists (stats : NumFrame) (m f i : Z),
       collect_annotation_stats (annotated_frame three_category_table) = Ok stats
       /\ Str "1" ∈ index stats
       /\ loc stats (Str "1") "intra_mapped" = Some m
       /\ loc stats (Str "1") "intra_failed" = Some f
       /\ loc stats (Str "1") "intergenic" = Some i
       /\ (m + f + i)%Z
          = Z.of_nat (length (filter (fun r => a_chromosome r.2 = Str "1")
                                three_category_table)).
Proof.
  assert (H1 : Str "1" ≠ NaN) by discriminate.
  assert (H2 : Str "1" ∈ cells_of (annotated_frame three_category_table) "chromosome")
    by (vm_compute; left).
  assert (H3 : forall r, r ∈ three_category_table ->
                 a_chromosome r.2 = Str "1" -> a_rsid r.2 ≠ NaN).
  { intros r Hr _. unfold three_category_table in Hr.
    repeat (apply elem_of_cons in Hr as [->|Hr]; [discriminate|]).
    by apply elem_of_nil in Hr. }
  split; [exact H1|]. split; [exact H2|]. split; [exact H3|].
  exact (stats_sum_is_row_count three_category_table (Str "1") H1 H2 H3).
Defined.

(** C4 as stated fails: a table whose only row, on chromosome 1, has no
    rsid gets a statistics row for chromosome 1 whose three counts are all 0,
    while the table has one row on that chromosome. *)
Lemma stats_sum_misses_null_rsid :
  exists stats : NumFrame,
    collect_annotation_stats (annotated_frame missing_rsid_table) = Ok stats
    /\ Str "1" ∈ cells_of (annotated_frame missing_rsid_table) "chromosome"
    /\ Str "1" ∈ index stats
    /\ ~ exists m f i : Z,
          loc stats (Str "1") "intra_mapped" = Some m
          /\ loc stats (Str "1") "intra_failed" = Some f
          /\ loc stats (Str "1") "intergenic" = Some i
          /\ (m + f + i)%Z
             = Z.of_nat (length (filter (fun r => a_chromosome r.2 = Str "1")
                                   missing_rsid_table)).
Proof.
  eexists. split; [vm_compute; reflexivity|].
  split; [vm_compute; left|]. split; [left|].
  intros (m & f & i & Hm & Hf & Hi & Hsum).
  vm_compute in Hm, Hf, Hi, Hsum.
  injection Hm as <-. injection Hf as <-. injection Hi as <-. discriminate Hsum.
Qed.

Import Cluster Runs.



(** On the sample files the run of build A does return: three futures per
    list, for the chromosomes 1, 2 and 3, although the file of chromosome 4
    is there as well. *)
Example hg38_sample_run :
  exists w' d,
    run_hg38_annotations human_chromosomes "variant" "gene.tsv" "annotated" "intergenic"
      "stats.tsv" sample_world = (w', Ok d)
    /\ d !! "annotated" = Some [2; 6; 10]
    /\ d !! "intergenic" = Some [3; 7; 11]
    /\ messages w' = [starting "1"; starting "2"; starting "3"].
Proof. eexists _, _. split; [vm_compute; reflexivity|]. by vm_compute. Qed.

(** C9. Whatever the chromosome list, the paths and the files,
    [run_hg38_annotations] submits no call that computes or writes
    statistics, and the mapping it returns has exactly the keys "annotated"
    and "intergenic": there is no "stats" entry. *)
Theorem hg38_no_statistics (chromosomes : list string)
    (variant_dir gene_fp annotated_dir intergenic_dir stats_fp : string) (w : world) :
  let run := run_hg38_annotations chromosomes
               variant_dir gene_fp annotated_dir intergenic_dir stats_fp w in
  (exists new, tasks run.1 = tasks w ++ new
     /\ Forall (fun c => Task.is_stats c = false) new)
  /\ forall d, run.2 = Ok d ->
       dom d = ({["annotated"; "intergenic"]} : gset string) /\ d !! "stats" = None.
Proof.
  cbn zeta. split.
  - apply DriverFacts.no_stats_bind; [apply DriverFacts.hg38_loop_no_stats|].
    intros lists. apply DriverFacts.no_stats_ret.
  - intros d. unfold run_hg38_annotations, bind_io, ret.
    destruct (hg38_loop _ _ _ _ _ _ _ w) as [w1 [[annotated intergenic]|e]];
      [|discriminate].
    cbn [snd fst]. intros [= <-]. split.
    + rewrite !dom_insert_L, dom_empty_L. set_solver.
    + by rewrite !lookup_insert_ne.
Qed.

(** C7 at a failing input.  A variant file and a gene file that both write
    the transcript identifier 007: [read_processed_variants] keeps the text
    "007", [read_processed_genes] reads the number 7, which has lost the
    leading zeros and is not the key of the variant row any more. *)
Theorem gene_transcript_read_as_number :
  exists vdf gdf,
    (read_processed_variants "variants.tsv" numeric_transcript_world).2 = Ok vdf
    /\ (read_processed_genes "genes.tsv" numeric_transcript_world).2 = Ok gdf
    /\ column vdf "transcript" = Ok [Str "007"]
    /\ column gdf "transcript_id" = Ok [Num 7]
    /\ Str "007" ≠ Num 7.
Proof. eexists _, _. split_and!; by vm_compute. Qed.

(** * Further properties of the annotation stage *)

(** ** More facts about the join and the deduplication *)

Module JoinSize.
Import Engine Schema Annotate Rows EngineFacts JoinFacts.

(** The kept keys are the distinct keys. *)
Lemma keep_first_distinct {A K : Type} `{EqDecision K} (f : A -> K) (rs : list A) :
  map f (keep_first f [] rs) ≡ₚ remove_dups (map f rs).
Proof.
  apply NoDup_Permutation; [apply keep_first_NoDup|apply NoDup_remove_dups|].
  intros k. rewrite elem_of_remove_dups. split.
  - intros (x & -> & Hx)%list_elem_of_fmap. apply list_elem_of_fmap_2.
    eapply elem_of_sublist; [done|apply keep_first_sublist].
  - intros (x & -> & Hx)%list_elem_of_fmap.
    apply keep_first_complete; [done|apply not_elem_of_nil].
Qed.

Lemma join_variant_nonempty (gs : list gene) (v : variant) :
  1 <= length (join_variant gs v).
Proof.
  unfold join_variant. destruct (gene_matches gs v); cbn [length map]; lia.
Qed.

Lemma join_pairs_length (vs : list variant) (gs : list gene) :
  length vs <= length (join_pairs vs gs).
Proof.
  unfold join_pairs. induction vs as [|v vs IH]; [done|].
  cbn [flat_map length]. rewrite length_app.
  pose proof (join_variant_nonempty gs v). lia.
Qed.

End JoinSize.

Import JoinSize.

(** X1. The table [annotate_variants] returns has as many rows as the
    renamed join has distinct (rsid, variant_effect, gene_id) triples; that
    is at most the rows of the join, and the join has at least one row per
    variant row. *)
Theorem annotate_variants_row_count (vs : list variant) (gs : list gene) :
  exists merged out : DataFrame,
    merge_left (variant_frame vs) (gene_frame gs) "transcript" "transcript_id" ("_l", "_r")
    = Ok merged
    /\ annotate_variants (variant_frame vs) (gene_frame gs) = Ok out
    /\ length (rows out)
       = length (remove_dups (keys_of (rename merged renamed_columns) duplicate_subset))
    /\ length (rows out) <= length (rows merged)
    /\ length vs <= length (rows merged).
Proof.
  eexists _, _. split; [apply JoinFacts.merge_rows|].
  split; [apply JoinFacts.annotate_variants_rows|].
  unfold rename, annotated_frame. cbn [columns rows].
  change (map _ merged_header) with renamed_header.
  rewrite DedupFacts.renamed_merge_keys.
  rewrite length_map, EngineFacts.enumerate_length, length_map. split_and!.
  - rewrite <- (keep_first_distinct (fun r : nat * annotated => triple r.2)).
    by rewrite length_map.
  - etrans; [apply sublist_length, EngineFacts.keep_first_sublist|].
    unfold joined. by rewrite EngineFacts.enumerate_length, length_map.
  - apply join_pairs_length.
Qed.

(** ** More facts about the two subsets *)

Module SubsetFacts.
Import Engine Schema Annotate Rows EngineFacts JoinFacts DedupFacts PartitionFacts.

Lemma mapped_keys (rs : list (nat * annotated)) :
  map (fun r => project_row
                  ["chromosome"; "rsid"; "variant_effect";
                   "gene_id"; "gene_name"; "gene_biotype"]
                  duplicate_subset r.2)
    (map mapped_view rs)
  = map (fun r => triple r.2) rs.
Proof. rewrite map_map. by apply map_ext. Qed.

Lemma filter_keys_NoDup {A K : Type} (f : A -> K) (P : A -> Prop)
    `{!forall x, Decision (P x)} (l : list A) :
  NoDup (map f l) -> NoDup (map f (filter P l)).
Proof.
  intros Hnd. eapply sublist_NoDup; [exact Hnd|].
  apply (fmap_sublist f), sublist_filter.
Qed.

End SubsetFacts.

(** X5. The mapped subset of an annotated table has every
    (rsid, variant_effect, gene_id) triple at most once. *)
Theorem mapped_subset_unique (vs : list variant) (gs : list gene) :
  exists out mapped : DataFrame,
    annotate_variants (variant_frame vs) (gene_frame gs) = Ok out
    /\ isolate_annotated_variants out = Ok mapped
    /\ NoDup (keys_of mapped duplicate_subset).
Proof.
  eexists _, _. split; [apply JoinFacts.annotate_variants_rows|].
  split; [apply PartitionFacts.isolate_annotated_rows|].
  unfold keys_of. cbn [rows columns].
  rewrite (map_map snd), SubsetFacts.mapped_keys.
  apply (SubsetFacts.filter_keys_NoDup (fun r : nat * annotated => triple r.2)).
  apply EngineFacts.keep_first_NoDup.
Qed.

(** ** Statistics of an arbitrary frame *)

Module CellFacts.
Import Engine Annotate Cells EngineFacts.

Lemma cells_select (df : DataFrame) (mask : list bool) (c : string) :
  cells_of (select df mask) c = select_rows (cells_of df c) mask.
Proof. unfold cells_of, select. cbn [rows columns]. by rewrite !select_rows_map. Qed.

Lemma zip_map {A B C : Type} (f : A -> B) (g : A -> C) (l : list A) :
  zip (map f l) (map g l) = map (fun x => (f x, g x)) l.
Proof. induction l as [|x l IH]; [done|]. cbn. by rewrite IH. Qed.

Lemma cell_map {A : Type} (f : string -> A) (cols : list string) (c : string) :
  c ∈ cols -> cell cols (map f cols) c = Some (f c).
Proof.
  induction cols as [|c' cols IH]; [by intros ?%elem_of_nil|].
  intros Hc. cbn [map cell]. destruct (String.eqb_spec c c') as [->|Hne]; [done|].
  apply IH. by apply elem_of_cons in Hc as [?|?].
Qed.

Lemma count_notnull_cells (df : DataFrame) (by_ c : string) (k : value) :
  count_notnull df by_ k c
  = Z.of_nat (length (filter (fun p => p.1 = k ∧ p.2 ≠ NaN)
                        (zip (cells_of df by_) (cells_of df c)))).
Proof.
  unfold count_notnull, cells_of. rewrite zip_map.
  by repeat (rewrite map_filter_comm || rewrite length_map).
Qed.

Lemma count_by_chromosome_cells (df : DataFrame) (mask : list bool) :
  "chromosome" ∈ columns df -> "rsid" ∈ columns df ->
  count_by_chromosome df mask
  = Ok (count_series (cells_of df "chromosome") (cells_of df "rsid") mask).
Proof.
  intros Hchr Hrsid. unfold count_by_chromosome, groupby_count, column.
  rewrite select_columns, decide_True by done. cbn [bind].
  unfold loc_column. cbn [count_columns count_rows].
  assert (Hin : "rsid" ∈ filter (fun c => c ≠ "chromosome") (columns df)).
  { by apply list_elem_of_filter. }
  rewrite decide_True by done. unfold count_series. f_equal. f_equal.
  rewrite map_map, cells_select. apply map_ext. intros k. cbn [fst snd]. f_equal.
  rewrite cell_map by done. cbn [default].
  by rewrite count_notnull_cells, !cells_select.
Qed.

Lemma count_by_chromosome_no_chromosome (df : DataFrame) (mask : list bool) :
  "chromosome" ∉ columns df ->
  count_by_chromosome df mask = Raise (KeyError "chromosome").
Proof.
  intros Hchr. unfold count_by_chromosome, groupby_count, column.
  by rewrite select_columns, decide_False by done.
Qed.

Lemma count_by_chromosome_no_rsid (df : DataFrame) (mask : list bool) :
  "chromosome" ∈ columns df -> "rsid" ∉ columns df ->
  count_by_chromosome df mask = Raise (KeyError "rsid").
Proof.
  intros Hchr Hrsid. unfold count_by_chromosome, groupby_count, column.
  rewrite select_columns, decide_True by done. cbn [bind].
  unfold loc_column. cbn [count_columns].
  rewrite decide_False; [done|]. by intros [_ ?]%list_elem_of_filter.
Qed.

Lemma collect_cells (df : DataFrame) :
  "variant_effect" ∈ columns df -> "gene_id" ∈ columns df ->
  "chromosome" ∈ columns df -> "rsid" ∈ columns df ->
  collect_annotation_stats df
  = stats_of (cells_of df "variant_effect") (cells_of df "gene_id")
      (cells_of df "chromosome") (cells_of df "rsid").
Proof.
  intros Hve Hgid Hchr Hrsid. unfold collect_annotation_stats, getattr.
  rewrite !decide_True by done. cbn [bind].
  by rewrite !count_by_chromosome_cells by done.
Qed.

Lemma filled_all (z : Z) (cells : list (option Z)) :
  forallb (fun c => bool_decide (is_Some c)) (map (fun c => Some (default z c)) cells)
  = true.
Proof. induction cells as [|c cells IH]; [done|]. cbn. by rewrite IH. Qed.

(** The fill leaves nothing for the conversion to integers to refuse. *)
Lemma stats_of_ok (variant_effect gene_id chromosome rsid : list value) :
  exists stats, stats_of variant_effect gene_id chromosome rsid = Ok stats.
Proof.
  unfold stats_of, concat_columns, fillna, set_columns.
  cbn [data map length]. rewrite decide_True by done. cbn [bind].
  unfold set_index_name, astype_int64.
  cbn [data map forallb col_cells reindex]. rewrite !filled_all. by eexists.
Qed.

Lemma collect_no_variant_effect (df : DataFrame) :
  "variant_effect" ∉ columns df ->
  collect_annotation_stats df = Raise (AttributeError "variant_effect").
Proof. intros Hve. unfold collect_annotation_stats, getattr. by rewrite decide_False. Qed.

Lemma collect_no_gene_id (df : DataFrame) :
  "variant_effect" ∈ columns df -> "gene_id" ∉ columns df ->
  collect_annotation_stats df = Raise (AttributeError "gene_id").
Proof.
  intros Hve Hgid. unfold collect_annotation_stats, getattr.
  rewrite decide_True by done. cbn [bind]. by rewrite decide_False.
Qed.

Lemma collect_no_chromosome (df : DataFrame) :
  "variant_effect" ∈ columns df -> "gene_id" ∈ columns df ->
  "chromosome" ∉ columns df ->
  collect_annotation_stats df = Raise (KeyError "chromosome").
Proof.
  intros Hve Hgid Hchr. unfold collect_annotation_stats, getattr.
  rewrite !decide_True by done. cbn [bind].
  by rewrite count_by_chromosome_no_chromosome.
Qed.

Lemma collect_no_rsid (df : DataFrame) :
  "variant_effect" ∈ columns df -> "gene_id" ∈ columns df ->
  "chromosome" ∈ columns df -> "rsid" ∉ columns df ->
  collect_annotation_stats df = Raise (KeyError "rsid").
Proof.
  intros Hve Hgid Hchr Hrsid. unfold collect_annotation_stats, getattr.
  rewrite !decide_True by done. cbn [bind].
  by rewrite count_by_chromosome_no_rsid.
Qed.

(** A returned table comes from the cells of the four columns. *)
Lemma collect_ok_cells (df : DataFrame) (stats : NumFrame) :
  collect_annotation_stats df = Ok stats ->
  stats_of (cells_of df "variant_effect") (cells_of df "gene_id")
    (cells_of df "chromosome") (cells_of df "rsid") = Ok stats.
Proof.
  intros Hok.
  destruct (decide ("variant_effect" ∈ columns df)) as [Hve|Hve];
    [|by rewrite collect_no_variant_effect in Hok].
  destruct (decide ("gene_id" ∈ columns df)) as [Hgid|Hgid];
    [|by rewrite collect_no_gene_id in Hok].
  destruct (decide ("chromosome" ∈ columns df)) as [Hchr|Hchr];
    [|by rewrite collect_no_chromosome in Hok].
  destruct (decide ("rsid" ∈ columns df)) as [Hrsid|Hrsid];
    [|by rewrite collect_no_rsid in Hok].
  by rewrite <- collect_cells.
Qed.

(** The index of the table is the sorted list of the chromosomes that have
    a row in one of the three categories. *)
Lemma stats_of_index (variant_effect gene_id chromosome rsid : list value)
    (stats : NumFrame) :
  stats_of variant_effect gene_id chromosome rsid = Ok stats ->
  exists labels, index stats = sorted_labels labels.
Proof.
  unfold stats_of, concat_columns, fillna, set_columns.
  cbn [data map length]. rewrite decide_True by done. cbn [bind].
  unfold set_index_name, astype_int64.
  cbn [data map forallb col_cells reindex index num_columns index_name].
  rewrite !filled_all. intros [= <-]. by eexists.
Qed.

End CellFacts.

(** X7. [collect_annotation_stats] returns a table exactly when the frame
    has the columns variant_effect, gene_id, chromosome and rsid, whatever
    its rows and other columns; the first of them that is missing decides the
    error: an [AttributeError] for variant_effect and gene_id, a [KeyError]
    for chromosome and rsid. *)
Theorem collect_annotation_stats_outcome (df : DataFrame) :
  ("variant_effect" ∉ columns df ->
     collect_annotation_stats df = Raise (AttributeError "variant_effect"))
  /\ ("variant_effect" ∈ columns df -> "gene_id" ∉ columns df ->
        collect_annotation_stats df = Raise (AttributeError "gene_id"))
  /\ ("variant_effect" ∈ columns df -> "gene_id" ∈ columns df ->
      "chromosome" ∉ columns df ->
        collect_annotation_stats df = Raise (KeyError "chromosome"))
  /\ ("variant_effect" ∈ columns df -> "gene_id" ∈ columns df ->
      "chromosome" ∈ columns df -> "rsid" ∉ columns df ->
        collect_annotation_stats df = Raise (KeyError "rsid"))
  /\ ("variant_effect" ∈ columns df -> "gene_id" ∈ columns df ->
      "chromosome" ∈ columns df -> "rsid" ∈ columns df ->
        exists stats, collect_annotation_stats df = Ok stats).
Proof.
  split_and!.
  - apply CellFacts.collect_no_variant_effect.
  - apply CellFacts.collect_no_gene_id.
  - apply CellFacts.collect_no_chromosome.
  - apply CellFacts.collect_no_rsid.
  - intros Hve Hgid Hchr Hrsid. rewrite CellFacts.collect_cells by done.
    apply CellFacts.stats_of_ok.
Qed.

(** X8. The statistics of a frame depend on nothing but the cells of its
    columns variant_effect, gene_id, chromosome and rsid: two frames that
    agree on these four columns have the same statistics, whatever their
    other columns and their row labels. *)
Theorem collect_annotation_stats_four_columns (df df' : DataFrame)
    (Hcols : forall c, c ∈ ["variant_effect"; "gene_id"; "chromosome"; "rsid"] ->
               c ∈ columns df /\ c ∈ columns df' /\ cells_of df c = cells_of df' c) :
  collect_annotation_stats df = collect_annotation_stats df'.
Proof.
  destruct (Hcols "variant_effect") as (? & ? & Hve); [set_solver|].
  destruct (Hcols "gene_id") as (? & ? & Hgid); [set_solver|].
  destruct (Hcols "chromosome") as (? & ? & Hchr); [set_solver|].
  destruct (Hcols "rsid") as (? & ? & Hrsid); [set_solver|].
  rewrite !CellFacts.collect_cells by done. by rewrite Hve, Hgid, Hchr, Hrsid.
Qed.

Lemma collect_annotation_stats_four_columns_witness :
  (forall c, c ∈ ["variant_effect"; "gene_id"; "chromosome"; "rsid"] ->
     c ∈ columns (annotated_frame three_category_table)
     /\ c ∈ columns wider_table
     /\ cells_of (annotated_frame three_category_table) c = cells_of wider_table c)
  /\ collect_annotation_stats (annotated_frame three_category_table)
     = collect_annotation_stats wider_table.
Proof.
  assert (H : forall c, c ∈ ["variant_effect"; "gene_id"; "chromosome"; "rsid"] ->
                c ∈ columns (annotated_frame three_category_table)
                /\ c ∈ columns wider_table
                /\ cells_of (annotated_frame three_category_table) c
                   = cells_of wider_table c).
  { intros c Hc.
    repeat (apply elem_of_cons in Hc as [->|Hc];
            [split_and!; [vm_compute; set_solver|vm_compute; set_solver|reflexivity]|]).
    by apply elem_of_nil in Hc. }
  split; [exact H|].
  exact (collect_annotation_stats_four_columns _ _ H).
Defined.

(** ** The order of the index labels *)

Module OrderFacts.
Import Engine Annotate Rows StatsFacts.

Lemma string_compare_trans (s1 s2 s3 : string) :
  String.compare s1 s2 ≠ Gt -> String.compare s2 s3 ≠ Gt -> String.compare s1 s3 ≠ Gt.
Proof.
  revert s2 s3. induction s1 as [|c1 s1 IH]; intros [|c2 s2] [|c3 s3]; cbn; try done.
  unfold Ascii.compare.
  destruct (N.compare_spec (N_of_ascii c1) (N_of_ascii c2)),
    (N.compare_spec (N_of_ascii c2) (N_of_ascii c3)),
    (N.compare_spec (N_of_ascii c1) (N_of_ascii c3));
    try done; try lia; eauto.
Qed.

Lemma string_leb_trans (s1 s2 s3 : string) :
  String.leb s1 s2 = true -> String.leb s2 s3 = true -> String.leb s1 s3 = true.
Proof.
  unfold String.leb. intros H12 H23.
  pose proof (string_compare_trans s1 s2 s3) as Ht.
  destruct (String.compare s1 s2), (String.compare s2 s3), (String.compare s1 s3);
    try done; by destruct Ht.
Qed.

#[global] Instance value_le_total : Total value_le.
Proof.
  intros [|x|s] [|y|t]; unfold value_le; cbn; try (by left); try (by right).
  - destruct (Z.leb_spec x y); [by left|right]. apply Z.leb_le. lia.
  - apply String.leb_total.
Qed.

#[global] Instance value_le_trans : Transitive value_le.
Proof.
  intros [|x|s] [|y|t] [|z|u]; unfold value_le; cbn; try done.
  - rewrite !Z.leb_le. lia.
  - apply string_leb_trans.
Qed.

#[global] Instance value_le_antisym : AntiSymm (=) value_le.
Proof.
  intros [|x|s] [|y|t]; unfold value_le; cbn; try done.
  - rewrite !Z.leb_le. intros. f_equal. lia.
  - intros H1 H2. f_equal. by apply String.leb_antisym.
Qed.

Lemma sorted_labels_sorted (ks : list value) : Sorted value_le (sorted_labels ks).
Proof. apply Sorted_merge_sort, _. Qed.

Lemma sorted_labels_perm (ks ks' : list value) :
  ks ≡ₚ ks' -> sorted_labels ks = sorted_labels ks'.
Proof.
  intros Hperm. apply (Sorted_unique value_le); try apply sorted_labels_sorted.
  apply NoDup_Permutation; try apply sorted_labels_NoDup.
  intros k. rewrite !sorted_labels_elem. by rewrite Hperm.
Qed.

Lemma counted_perm (P : annotated -> Prop) `{!forall a, Decision (P a)} (k : value)
    (rs rs' : list (nat * annotated)) :
  rs ≡ₚ rs' -> counted P k rs = counted P k rs'.
Proof. intros Hperm. unfold counted. by rewrite Hperm. Qed.

Lemma category_labels_perm (P : annotated -> Prop) `{!forall a, Decision (P a)}
    (rs rs' : list (nat * annotated)) :
  rs ≡ₚ rs' -> category_labels P rs = category_labels P rs'.
Proof. intros Hperm. unfold category_labels. apply sorted_labels_perm. by rewrite Hperm. Qed.

Lemma stats_index_perm (rs rs' : list (nat * annotated)) :
  rs ≡ₚ rs' -> stats_index rs = stats_index rs'.
Proof.
  intros Hperm. unfold stats_index.
  by rewrite !(category_labels_perm _ rs rs' Hperm).
Qed.

Lemma count_column_perm (P : annotated -> Prop) `{!forall a, Decision (P a)}
    (rs rs' : list (nat * annotated)) :
  rs ≡ₚ rs' -> count_column P rs = count_column P rs'.
Proof.
  intros Hperm. unfold count_column. rewrite (stats_index_perm rs rs' Hperm).
  f_equal. apply map_ext. intros k. f_equal. by apply counted_perm.
Qed.

End OrderFacts.

(** X9. The statistics do not depend on the order of the rows: an annotated
    table and any rearrangement of its rows have the same statistics
    table. *)
Theorem collect_annotation_stats_any_order (rs rs' : list (nat * annotated))
    (Hperm : rs ≡ₚ rs') :
  collect_annotation_stats (annotated_frame rs)
  = collect_annotation_stats (annotated_frame rs').
Proof.
  rewrite !StatsFacts.collect_annotation_stats_typed.
  rewrite (OrderFacts.stats_index_perm rs rs' Hperm).
  by rewrite !(OrderFacts.count_column_perm _ rs rs' Hperm).
Qed.

Lemma collect_annotation_stats_any_order_witness :
  three_category_table ≡ₚ reverse three_category_table
  /\ collect_annotation_stats (annotated_frame three_category_table)
     = collect_annotation_stats (annotated_frame (reverse three_category_table)).
Proof.
  assert (H : three_category_table ≡ₚ reverse three_category_table).
  { symmetry. apply reverse_Permutation. }
  split; [exact H|].
  exact (collect_annotation_stats_any_order _ _ H).
Defined.

(** X10. The rows of a statistics table come in ascending order of their
    chromosome label, numbers by value and before text, text by code point
    (so "10" stands before "2"); no label occurs twice and none is
    missing. *)
Theorem collect_annotation_stats_sorted (df : DataFrame) (stats : NumFrame)
    (Hok : collect_annotation_stats df = Ok stats) :
  Sorted value_le (index stats) /\ NoDup (index stats) /\ NaN ∉ index stats.
Proof.
  apply CellFacts.collect_ok_cells, CellFacts.stats_of_index in Hok as [labels ->].
  split_and!.
  - apply OrderFacts.sorted_labels_sorted.
  - apply StatsFacts.sorted_labels_NoDup.
  - by intros [? _]%StatsFacts.sorted_labels_elem.
Qed.

Lemma collect_annotation_stats_sorted_witness :
  collect_annotation_stats (annotated_frame two_piece_table) = Ok two_piece_stats
  /\ index two_piece_stats = [Str "1"; Str "10"; Str "2"]
  /\ Sorted value_le (index two_piece_stats)
  /\ NoDup (index two_piece_stats)
  /\ (NaN ∉ index two_piece_stats).
Proof.
  assert (H : collect_annotation_stats (annotated_frame two_piece_table)
              = Ok two_piece_stats) by (vm_compute; reflexivity).
  split; [exact H|]. split; [reflexivity|].
  exact (collect_annotation_stats_sorted _ _ H).
Defined.

(** ** The functions of annotate.py on arbitrary frames, statement by statement *)



(** ** The drivers, run by run *)

(** X14. Whatever the chromosome list, a run of [run_hg38_annotations] that
    returns has worked through the list up to and including the first
    chromosome named "3", and through the whole list when none is named so:
    it has logged the start of each of these chromosomes, submitted the
    consolidation of their output files, in order, and returns one future
    per chromosome in each of its two lists. *)
Theorem hg38_processed_chromosomes (chromosomes : list string)
    (variant_dir gene_fp annotated_dir intergenic_dir stats_fp : string)
    (w w' : world) (d : gmap string (list Task.Future))
    (Hrun : run_hg38_annotations chromosomes variant_dir gene_fp annotated_dir
              intergenic_dir stats_fp w = (w', Ok d)) :
  messages w' = messages w ++ map starting (processed chromosomes)
  /\ (exists new, tasks w' = tasks w ++ new
        /\ destinations new
           = flat_map (outputs annotated_dir intergenic_dir) (processed chromosomes))
  /\ (exists annotated intergenic,
        d !! "annotated" = Some annotated /\ d !! "intergenic" = Some intergenic
        /\ length annotated = length (processed chromosomes)
        /\ length intergenic = length (processed chromosomes))
  /\ ("3" ∉ chromosomes -> processed chromosomes = chromosomes).
Proof.
  unfold run_hg38_annotations, bind_io, ret in Hrun.
  destruct (hg38_loop _ _ _ _ _ _ _ w) as [w1 [[annotated intergenic]|e]] eqn:Hloop;
    [|discriminate].
  injection Hrun as <- <-.
  apply DriverFacts.hg38_loop_ok in Hloop as (Hmsg & Htasks & Ha & Hi).
  split_and!; try done.
  - exists annotated, intergenic. rewrite lookup_insert_eq.
    rewrite lookup_insert_ne by done. rewrite lookup_insert_eq. by split_and!.
  - apply RunFacts.processed_full.
Qed.

Lemma hg38_processed_chromosomes_witness :
  run_hg38_annotations human_chromosomes "variant" "gene.tsv" "annotated" "intergenic"
    "stats.tsv" sample_world = (sample_run.1, Ok sample_futures)
  /\ (messages sample_run.1
      = messages sample_world ++ map starting (processed human_chromosomes)
      /\ (exists new, tasks sample_run.1 = tasks sample_world ++ new
            /\ destinations new
               = flat_map (outputs "annotated" "intergenic") (processed human_chromosomes))
      /\ (exists annotated intergenic,
            sample_futures !! "annotated" = Some annotated
            /\ sample_futures !! "intergenic" = Some intergenic
            /\ length annotated = length (processed human_chromosomes)
            /\ length intergenic = length (processed human_chromosomes))
      /\ ("3" ∉ human_chromosomes -> processed human_chromosomes = human_chromosomes)).
Proof.
  split; [exact RunFacts.sample_run_returns|].
  exact (hg38_processed_chromosomes human_chromosomes "variant" "gene.tsv" "annotated"
           "intergenic" "stats.tsv" sample_world _ _ RunFacts.sample_run_returns).
Defined.


(** X16. In a run of [run_hg38_annotations] that returns, the [k]-th future
    of the "annotated" list is the consolidation, into the annotated file of
    the [k]-th chromosome, of the saved mapped subset of the table annotated
    from that chromosome's variant file and the gene file; the [k]-th future
    of the "intergenic" list is the same for the intergenic subset and the
    intergenic file. *)
Theorem hg38_futures_wired (chromosomes : list string)
    (variant_dir gene_fp annotated_dir intergenic_dir stats_fp : string)
    (w w' : world) (d : gmap string (list Task.Future))
    (Hrun : run_hg38_annotations chromosomes variant_dir gene_fp annotated_dir
              intergenic_dir stats_fp w = (w', Ok d)) :
  exists annotated intergenic,
    d !! "annotated" = Some annotated /\ d !! "intergenic" = Some intergenic
    /\ forall k chrom, processed chromosomes !! k = Some chrom ->
         exists adf ndf idf a i,
           turn_tables (files w) (variant_file variant_dir chrom) gene_fp
           = Ok (adf, ndf, idf)
           /\ annotated !! k = Some a /\ intergenic !! k = Some i
           /\ wired (tasks w') a ndf
                (nth 0 (outputs annotated_dir intergenic_dir chrom) "")
           /\ wired (tasks w') i idf
                (nth 1 (outputs annotated_dir intergenic_dir chrom) "").
Proof.
  unfold run_hg38_annotations, bind_io, ret in Hrun.
  destruct (hg38_loop _ _ _ _ _ _ _ w) as [w1 [[annotated intergenic]|e]] eqn:Hloop;
    [|discriminate].
  injection Hrun as <- <-.
  apply TurnFacts.hg38_loop_wiring in Hloop as (fa & fi & new & -> & -> & _ & Hall).
  exists fa, fi. rewrite lookup_insert_eq.
  rewrite lookup_insert_ne by done. rewrite lookup_insert_eq. by split_and!.
Qed.

Lemma hg38_futures_wired_witness :
  run_hg38_annotations human_chromosomes "variant" "gene.tsv" "annotated" "intergenic"
    "stats.tsv" sample_world = (sample_run.1, Ok sample_futures)
  /\ exists annotated intergenic,
       sample_futures !! "annotated" = Some annotated
       /\ sample_futures !! "intergenic" = Some intergenic
       /\ forall k chrom, processed human_chromosomes !! k = Some chrom ->
            exists adf ndf idf a i,
              turn_tables (files sample_world) (variant_file "variant" chrom) "gene.tsv"
              = Ok (adf, ndf, idf)
              /\ annotated !! k = Some a /\ intergenic !! k = Some i
              /\ wired (tasks sample_run.1) a ndf
                   (nth 0 (outputs "annotated" "intergenic" chrom) "")
              /\ wired (tasks sample_run.1) i idf
                   (nth 1 (outputs "annotated" "intergenic" chrom) "").
Proof.
  split; [exact RunFacts.sample_run_returns|].
  exact (hg38_futures_wired human_chromosomes "variant" "gene.tsv" "annotated"
           "intergenic" "stats.tsv" sample_world _ _ RunFacts.sample_run_returns).
Defined.

(** X18. On a list of one chromosome, build A does what build B does on
    that chromosome's files, except for the statistics: the two drivers
    raise the same errors, and when they return build B has submitted the
    calls of build A followed by the collection and the writing of the
    statistics, and the futures they return for the annotated and the
    intergenic file are the same. *)
Theorem hg38_turn_is_mm10_without_statistics (chrom : string)
    (variant_dir gene_fp annotated_dir intergenic_dir stats_fp : string) (w : world) :
  let a := run_hg38_annotations [chrom] variant_dir gene_fp annotated_dir
             intergenic_dir stats_fp w in
  let b := run_mm10_annotations (variant_file variant_dir chrom) gene_fp
             (nth 0 (outputs annotated_dir intergenic_dir chrom) "")
             (nth 1 (outputs annotated_dir intergenic_dir chrom) "") stats_fp w in
  (forall e, a.2 = Raise e <-> b.2 = Raise e)
  /\ forall da, a.2 = Ok da ->
       exists db adf fa fi,
         b.2 = Ok db
         /\ tasks b.1
            = tasks a.1 ++ [Task.collect_annotation_stats adf;
                            Task.write_annotation_stats (length (tasks a.1)) stats_fp]
         /\ da !! "annotated" = Some [fa] /\ db !! "annotated" = Some fa
         /\ da !! "intergenic" = Some [fi] /\ db !! "intergenic" = Some fi.
Proof.
  cbn zeta. rewrite TurnFacts.run_mm10_spec.
  unfold run_hg38_annotations. cbn [hg38_loop]. unfold bind_io.
  rewrite TurnFacts.hg38_chromosome_spec.
  destruct (turn_tables _ _ _) as [[[adf ndf] idf]|e].
  - assert (Hret : forall w2 (fps : Task.Future * Task.Future),
               (if String.eqb chrom "3"
                then ret ([] ++ [fps.1], [] ++ [fps.2])
                else hg38_loop variant_dir gene_fp annotated_dir intergenic_dir []
                       ([] ++ [fps.1]) ([] ++ [fps.2])) w2
               = (w2, Ok ([fps.1], [fps.2]))).
    { intros w2 fps. by destruct (String.eqb chrom "3"). }
    rewrite Hret. cbn [ret fst snd tasks]. split; [done|].
    intros da [= <-]. eexists _, adf, _, _. split; [done|].
    split_and!.
    + rewrite <- app_assoc, length_app. unfold turn_calls. cbn [length].
      by replace (length (tasks w) + 4) with (length (tasks w) + 4 + 0) by lia.
    + by rewrite lookup_insert_eq.
    + by rewrite lookup_insert_eq.
    + rewrite lookup_insert_ne by done. by rewrite lookup_insert_eq.
    + rewrite lookup_insert_ne by done. by rewrite lookup_insert_eq.
  - cbn [fst snd]. split; [intros e0; split; by intros [= <-]|]. by intros da.
Qed.

(** X19. What [annotate_variants] returns is accepted by every function
    that takes the annotated table: on its result the two isolating
    functions and [collect_annotation_stats] return as well, whatever the
    two input tables were. *)
Theorem annotated_table_is_accepted (vdf gdf out : DataFrame)
    (Hout : annotate_variants vdf gdf = Ok out) :
  (exists mapped, isolate_annotated_variants out = Ok mapped)
  /\ (exists intergenic, isolate_intergenic_variants out = Ok intergenic)
  /\ (exists stats, collect_annotation_stats out = Ok stats).
Proof.
  apply FrameFacts.annotate_ok_columns in Hout.
  split_and!.
  - by apply FrameFacts.isolate_annotated_ok.
  - by apply FrameFacts.isolate_intergenic_ok.
  - rewrite CellFacts.collect_cells by (rewrite Hout; vm_compute; set_solver).
    apply CellFacts.stats_of_ok.
Qed.

Lemma annotated_table_is_accepted_witness :
  exists out,
    annotate_variants (variant_frame two_transcript_variants)
      (gene_frame two_transcript_genes) = Ok out
    /\ (exists mapped, isolate_annotated_variants out = Ok mapped)
    /\ (exists intergenic, isolate_intergenic_variants out = Ok intergenic)
    /\ (exists stats, collect_annotation_stats out = Ok stats).
Proof.
  eexists. split; [vm_compute; reflexivity|].
  apply (annotated_table_is_accepted (variant_frame two_transcript_variants)
           (gene_frame two_transcript_genes)).
  vm_compute; reflexivity.
Defined.

(** ** More facts about the readers *)

Module ParseFacts.
Import Engine Cluster Annotate Runs EngineFacts.

Lemma convert_column_length (d : option dtype_spec) (fields : list string) :
  length (convert_column d fields) = length fields.
Proof.
  destruct d as [[]|]; cbn [convert_column]; [by rewrite length_map|].
  unfold infer_column. destruct (mapM number_cell fields) as [cells|] eqn:Hm.
  - symmetry. by eapply length_mapM.
  - by rewrite length_map.
Qed.

(** A column of the frame is the conversion of the column of fields. *)
Lemma cells_of_parse (f : tsv_file) (dtype : list (string * dtype_spec)) (c : string)
    (j : nat) :
  header f !! j = Some c ->
  (forall j', j' < j -> header f !! j' ≠ Some c) ->
  cells_of (parse f dtype) c
  = convert_column (lookup_dtype dtype c) (map (fun rec => nth j rec "") (records f)).
Proof.
  intros Hj Hfirst. apply list_eq. intros i.
  unfold cells_of, parse. cbn [rows columns].
  rewrite enumerate_snd, map_map, list_lookup_fmap.
  set (col := convert_column _ _).
  assert (Hlen : length col = length (records f)).
  { unfold col. by rewrite convert_column_length, length_map. }
  destruct (decide (i < length (records f))) as [Hi|Hi].
  - rewrite (lookup_seq_lt 0) by done. cbn [fmap option_fmap option_map].
    unfold cell_or_nan.
    destruct (lookup_lt_is_Some_2 col i) as [v Hv]; [lia|].
    erewrite ReaderFacts.cell_first; [|done|done|].
    2:{ rewrite list_lookup_fmap, list_lookup_imap, Hj. done. }
    cbn. rewrite Hv. f_equal. by apply nth_lookup_Some.
  - rewrite lookup_seq_ge by lia. cbn. symmetry. apply lookup_ge_None. lia.
Qed.

Lemma infer_column_numeric (fields : list string) :
  Forall (fun s => is_Some (number_cell s)) fields ->
  Forall2 (fun s v => number_cell s = Some v) fields (infer_column fields).
Proof.
  intros Hall. unfold infer_column.
  destruct (mapM number_cell fields) as [cells|] eqn:Hm.
  - by apply mapM_Some.
  - apply mapM_None in Hm. apply Exists_exists in Hm as (s & Hs & Hn).
    rewrite Forall_forall in Hall. destruct (Hall s Hs) as [v Hv]. congruence.
Qed.

Lemma digits_zero_padded (k : nat) (s : string) :
  digits 0 (zero_padded k s) = digits 0 s.
Proof. induction k as [|k IH]; [done|]. cbn [zero_padded]. by rewrite <- IH. Qed.

Lemma digits_int_literal (s : string) (z : Z) :
  s ≠ EmptyString -> digits 0 s = Some z -> int_literal s = Some z.
Proof.
  destruct s as [|c s]; [done|]. intros _ Hd.
  destruct (decide (c = "-"%char)) as [->|Hm]; [by vm_compute in Hd|].
  destruct (decide (c = "+"%char)) as [->|Hp]; [by vm_compute in Hd|].
  rewrite <- Hd. unfold int_literal.
  destruct c as [[] [] [] [] [] [] [] []]; try done; by destruct s.
Qed.

Lemma digits_not_na (s : string) (z : Z) :
  s ≠ EmptyString -> digits 0 s = Some z -> s ∉ na_values.
Proof.
  intros Hne Hd Hin. unfold na_values in Hin.
  repeat (apply elem_of_cons in Hin as [->|Hin]; [by vm_compute in Hd|]).
  by apply elem_of_nil in Hin.
Qed.

Lemma zero_padded_nonempty (k : nat) (s : string) :
  s ≠ EmptyString -> zero_padded k s ≠ EmptyString.
Proof. by destruct k. Qed.

Lemma zero_padded_length (k : nat) (s : string) :
  String.length (zero_padded k s) = k + String.length s.
Proof. induction k as [|k IH]; [done|]. cbn. by rewrite IH. Qed.

(** A field of digits that the numeric reading accepts is read as the
    value of its digits, however many zeros are put in front. *)
Lemma number_cell_digits (s : string) (z : Z) :
  s ≠ EmptyString -> digits 0 s = Some z -> is_Some (number_cell s) ->
  number_cell s = Some (Num z).
Proof.
  intros Hne Hd [v Hv]. unfold number_cell in *.
  destruct (decide (s ∈ na_values)) as [Hin|_];
    [by destruct (digits_not_na s z Hne Hd)|].
  unfold int64_literal in *. rewrite (digits_int_literal s z) in * by done.
  by destruct (decide _).
Qed.

Lemma number_cell_zero_padded (k : nat) (s : string) (z : Z) :
  s ≠ EmptyString -> digits 0 s = Some z -> is_Some (number_cell s) ->
  number_cell (zero_padded k s) = Some (Num z).
Proof.
  intros Hne Hd Hs. apply (number_cell_digits s z Hne Hd) in Hs.
  unfold number_cell in *.
  destruct (decide (s ∈ na_values)) as [Hin|_];
    [by destruct (digits_not_na s z Hne Hd)|].
  destruct (decide (zero_padded k s ∈ na_values)) as [Hin|_].
  { destruct (digits_not_na (zero_padded k s) z); [|by rewrite digits_zero_padded|done].
    by apply zero_padded_nonempty. }
  unfold int64_literal in *.
  rewrite (digits_int_literal s z) in Hs by done.
  rewrite (digits_int_literal (zero_padded k s) z);
    [done|by apply zero_padded_nonempty|by rewrite digits_zero_padded].
Qed.

Lemma first_column (cols : list string) (c : string) (j : nat) :
  c ∉ take j cols -> forall j', j' < j -> cols !! j' ≠ Some c.
Proof.
  intros Hno j' Hj' Hc. apply Hno. apply list_elem_of_lookup. exists j'.
  by rewrite lookup_take_lt.
Qed.

Lemma first_column_exists (cols : list string) (c : string) :
  c ∈ cols -> exists j, cols !! j = Some c /\ c ∉ take j cols.
Proof.
  induction cols as [|c' cols IH]; [by intros ?%elem_of_nil|].
  destruct (decide (c = c')) as [->|Hne].
  - intros _. exists 0. split; [done|]. cbn. apply not_elem_of_nil.
  - intros [?|Hin]%elem_of_cons; [done|]. destruct (IH Hin) as (j & Hj & Hno).
    exists (S j). split; [done|]. cbn. by intros [?|?]%elem_of_cons.
Qed.

Lemma read_variants_spec (fp : string) (w : world) (f : tsv_file) :
  files w !! fp = Some f ->
  read_processed_variants fp w = (w, Ok (parse f [("transcript", object)])).
Proof. intros Hf. unfold read_processed_variants, read, read_csv. by rewrite Hf. Qed.

Lemma read_genes_spec (fp : string) (w : world) (f : tsv_file) :
  files w !! fp = Some f ->
  read_processed_genes fp w = (w, Ok (parse f [])).
Proof. intros Hf. unfold read_processed_genes, read, read_csv. by rewrite Hf. Qed.

Lemma text_cell_inj (s s' : string) :
  s ∉ na_values -> text_cell s = text_cell s' -> s = s'.
Proof.
  unfold text_cell. intros Hs. rewrite decide_False by done.
  destruct (decide _); congruence.
Qed.

End ParseFacts.

(** X21. On the same file the two readers differ in the column named
    "transcript" at most: every other column of the header has the same
    cells in the frame of [read_processed_variants] as in the frame of
    [read_processed_genes]. *)
Theorem readers_differ_on_transcript_only (fp : string) (w : world) (f : tsv_file)
    (c : string)
    (Hfile : files w !! fp = Some f)
    (Hc : c ∈ header f)
    (Hother : c ≠ "transcript") :
  exists vdf gdf,
    read_processed_variants fp w = (w, Ok vdf)
    /\ read_processed_genes fp w = (w, Ok gdf)
    /\ cells_of vdf c = cells_of gdf c.
Proof.
  eexists _, _.
  split; [by apply ParseFacts.read_variants_spec|].
  split; [by apply ParseFacts.read_genes_spec|].
  destruct (ParseFacts.first_column_exists _ _ Hc) as (j & Hj & Hfirst).
  rewrite !(ParseFacts.cells_of_parse f _ c j)
    by eauto using ParseFacts.first_column.
  cbn [lookup_dtype]. by destruct (String.eqb_spec c "transcript").
Qed.

Lemma readers_differ_on_transcript_only_witness :
  files numeric_transcript_world !! "variants.tsv" = Some numeric_transcript_variants
  /\ ("rsid" ∈ header numeric_transcript_variants)
  /\ "rsid" ≠ "transcript"
  /\ exists vdf gdf,
       read_processed_variants "variants.tsv" numeric_transcript_world
       = (numeric_transcript_world, Ok vdf)
       /\ read_processed_genes "variants.tsv" numeric_transcript_world
          = (numeric_transcript_world, Ok gdf)
       /\ cells_of vdf "rsid" = cells_of gdf "rsid".
Proof.
  split; [reflexivity|].
  assert (Hc : "rsid" ∈ header numeric_transcript_variants)
    by compute_done.
  assert (Hother : "rsid" ≠ "transcript") by discriminate.
  split; [exact Hc|]. split; [exact Hother|].
  exact (readers_differ_on_transcript_only "variants.tsv" numeric_transcript_world
           numeric_transcript_variants "rsid" eq_refl Hc Hother).
Defined.

(** X22. [read_processed_variants] keeps the transcript column as text.  In
    a file all of whose records have one field per column, the cell of every
    record is the text of its field as it stands in the file, or missing
    when the field is one of the missing-value markers; so two records whose
    transcript cells are equal, the first not missing, have the same text in
    the file, leading zeros included. *)
Theorem variants_transcript_kept_as_text (fp : string) (w : world) (f : tsv_file)
    (j : nat)
    (Hfile : files w !! fp = Some f)
    (Hrect : rectangular f)
    (Hj : header f !! j = Some "transcript")
    (Hfirst : "transcript" ∉ take j (header f)) :
  exists vdf,
    read_processed_variants fp w = (w, Ok vdf)
    /\ (forall i rec, records f !! i = Some rec ->
          cells_of vdf "transcript" !! i = Some (text_cell (nth j rec "")))
    /\ (forall i i' rec rec',
          records f !! i = Some rec -> records f !! i' = Some rec' ->
          nth j rec "" ∉ na_values ->
          cells_of vdf "transcript" !! i = cells_of vdf "transcript" !! i' ->
          nth j rec "" = nth j rec' "").
Proof.
  eexists. split; [by apply ParseFacts.read_variants_spec|].
  assert (Hcell : forall i rec, records f !! i = Some rec ->
            cells_of (parse f [("transcript", object)]) "transcript" !! i
            = Some (text_cell (nth j rec ""))).
  { intros i rec Hrec. apply ReaderFacts.transcript_read_as_text; [done..|].
    by apply ParseFacts.first_column. }
  split; [done|].
  intros i i' rec rec' Hrec Hrec' Hna. rewrite (Hcell _ _ Hrec), (Hcell _ _ Hrec').
  intros [= Heq]. by apply ParseFacts.text_cell_inj.
Qed.

Lemma variants_transcript_kept_as_text_witness :
  files numeric_transcript_world !! "variants.tsv" = Some numeric_transcript_variants
  /\ rectangular numeric_transcript_variants
  /\ header numeric_transcript_variants !! 7 = Some "transcript"
  /\ ("transcript" ∉ take 7 (header numeric_transcript_variants))
  /\ exists vdf,
       read_processed_variants "variants.tsv" numeric_transcript_world
       = (numeric_transcript_world, Ok vdf)
       /\ (forall i rec, records numeric_transcript_variants !! i = Some rec ->
             cells_of vdf "transcript" !! i = Some (text_cell (nth 7 rec "")))
       /\ (forall i i' rec rec',
             records numeric_transcript_variants !! i = Some rec ->
             records numeric_transcript_variants !! i' = Some rec' ->
             nth 7 rec "" ∉ na_values ->
             cells_of vdf "transcript" !! i = cells_of vdf "transcript" !! i' ->
             nth 7 rec "" = nth 7 rec' "").
Proof.
  assert (Hrect : rectangular numeric_transcript_variants) by repeat constructor.
  split; [reflexivity|]. split; [exact Hrect|]. split; [reflexivity|].
  assert (Hfirst : "transcript" ∉ take 7 (header numeric_transcript_variants))
    by compute_done.
  split; [exact Hfirst|].
  exact (variants_transcript_kept_as_text "variants.tsv" numeric_transcript_world
           numeric_transcript_variants 7 eq_refl Hrect eq_refl Hfirst).
Defined.

(** X23. In a gene file all of whose records have one field per column and
    whose transcript identifiers are all whole numbers of the 64-bit range,
    none missing, [read_processed_genes] reads an identifier written in
    digits and the same identifier with more zeros in front as the same
    number: the two records get equal transcript_id cells although their
    texts differ. *)
Theorem genes_leading_zeros_lost (fp : string) (w : world) (f : tsv_file)
    (j i i' k : nat) (rec rec' : list string) (s : string) (z : Z)
    (Hfile : files w !! fp = Some f)
    (Hrect : rectangular f)
    (Hj : header f !! j = Some "transcript_id")
    (Hfirst : "transcript_id" ∉ take j (header f))
    (Hwhole : Forall (fun r => is_Some (int64_literal (nth j r ""))) (records f))
    (Hrec : records f !! i = Some rec)
    (Hrec' : records f !! i' = Some rec')
    (Hplain : nth j rec "" = s)
    (Hpadded : nth j rec' "" = zero_padded (S k) s)
    (Hdigits : digits 0 s = Some z)
    (Hne : s ≠ EmptyString) :
  exists gdf,
    read_processed_genes fp w = (w, Ok gdf)
    /\ cells_of gdf "transcript_id" !! i = Some (Num z)
    /\ cells_of gdf "transcript_id" !! i' = Some (Num z)
    /\ nth j rec "" ≠ nth j rec' "".
Proof.
  assert (Hnumeric : Forall (fun r => is_Some (number_cell (nth j r ""))) (records f)).
  { eapply Forall_impl; [exact Hwhole|]. intros r [z0 Hz]. unfold number_cell.
    destruct (decide _); [by eexists|]. rewrite Hz. by eexists. }
  eexists. split; [by apply ParseFacts.read_genes_spec|].
  rewrite (ParseFacts.cells_of_parse f [] "transcript_id" j)
    by eauto using ParseFacts.first_column.
  cbn [lookup_dtype convert_column].
  assert (Hall : Forall (fun s => is_Some (number_cell s))
                   (map (fun rec => nth j rec "") (records f))).
  { apply Forall_fmap. eapply Forall_impl; [exact Hnumeric|]. by intros r Hr. }
  pose proof (ParseFacts.infer_column_numeric _ Hall) as Hcells.
  assert (Hs : is_Some (number_cell s)).
  { rewrite Forall_forall in Hnumeric. rewrite <- Hplain. apply Hnumeric.
    by eapply list_elem_of_lookup_2. }
  assert (Hcell : forall p r t, records f !! p = Some r -> nth j r "" = t ->
            number_cell t = Some (Num z) ->
            infer_column (map (fun rec => nth j rec "") (records f)) !! p
            = Some (Num z)).
  { intros p r t Hr Ht Hn.
    destruct (Forall2_lookup_l _ _ _ p t Hcells) as (v & Hv & Hnv).
    - by rewrite list_lookup_fmap, Hr; cbn; rewrite Ht.
    - rewrite Hv. congruence. }
  split_and!.
  - eapply Hcell; [done..|]. by apply ParseFacts.number_cell_digits.
  - eapply Hcell; [done..|]. by apply ParseFacts.number_cell_zero_padded.
  - rewrite Hplain, Hpadded. intros Heq.
    apply (f_equal String.length) in Heq.
    rewrite ParseFacts.zero_padded_length in Heq. lia.
Qed.

Lemma genes_leading_zeros_lost_witness :
  files padded_world !! "genes.tsv" = Some padded_genes
  /\ rectangular padded_genes
  /\ header padded_genes !! 0 = Some "transcript_id"
  /\ ("transcript_id" ∉ take 0 (header padded_genes))
  /\ Forall (fun r => is_Some (int64_literal (nth 0 r ""))) (records padded_genes)
  /\ records padded_genes !! 1 = Some ["7"; "G2"; "Y"; "protein_coding"; "1"]
  /\ records padded_genes !! 0 = Some ["007"; "G1"; "X"; "protein_coding"; "1"]
  /\ nth 0 ["7"; "G2"; "Y"; "protein_coding"; "1"] "" = "7"
  /\ nth 0 ["007"; "G1"; "X"; "protein_coding"; "1"] "" = zero_padded 2 "7"
  /\ digits 0 "7" = Some 7%Z
  /\ "7" ≠ EmptyString
  /\ exists gdf,
       read_processed_genes "genes.tsv" padded_world = (padded_world, Ok gdf)
       /\ cells_of gdf "transcript_id" !! 1 = Some (Num 7)
       /\ cells_of gdf "transcript_id" !! 0 = Some (Num 7)
       /\ nth 0 ["7"; "G2"; "Y"; "protein_coding"; "1"] ""
          ≠ nth 0 ["007"; "G1"; "X"; "protein_coding"; "1"] "".
Proof.
  assert (Hfirst : "transcript_id" ∉ take 0 (header padded_genes))
    by compute_done.
  assert (Hrect : rectangular padded_genes) by repeat constructor.
  assert (Hnumeric : Forall (fun r => is_Some (int64_literal (nth 0 r "")))
                       (records padded_genes)).
  { unfold padded_genes. cbn [records].
    repeat (apply Forall_cons; split; [by eexists|]). apply Forall_nil_2. }
  assert (Hne : "7" ≠ EmptyString) by discriminate.
  split; [reflexivity|]. split; [exact Hrect|]. split; [reflexivity|].
  split; [exact Hfirst|]. split; [exact Hnumeric|].
  do 5 (split; [reflexivity|]). split; [exact Hne|].
  exact (genes_leading_zeros_lost "genes.tsv" padded_world padded_genes 0 1 0 1
           ["7"; "G2"; "Y"; "protein_coding"; "1"]
           ["007"; "G1"; "X"; "protein_coding"; "1"] "7" 7%Z
           eq_refl Hrect eq_refl Hfirst Hnumeric eq_refl eq_refl eq_refl eq_refl eq_refl
           Hne).
Defined.
